(** * vpcctl: a shallow embedding of the VPC management tool

    The program under study is [vpcctl.py], a command-line tool that builds
    virtual private clouds out of Linux bridges, network namespaces and
    iptables rules.  Its class [VPCManager] keeps a topology record
    ([self.state], persisted as JSON) and drives the kernel through shell
    commands ([_run_cmd]).

    Conventions of the embedding:
    - Python [str] values are byte strings (the UTF-8 encoding), so that
      [s.encode()] is the identity and f-string interpolation is [++];
    - Python [int] values are [Z];
    - a Python [dict] is an association list in insertion order, because
      [delete_vpc] iterates over [items()];
    - the methods of [VPCManager] are computations in a state-and-exception
      monad over the manager's memory, the disk file, the kernel and a trace
      of everything the program printed, ran or saved;
    - the shell ([subprocess.run]), the policy files and the IPv6 half of
      [ipaddress] are parameters of the development ([Host]); the IPv4 half
      and [hashlib.md5] are modelled in full;
    - the store and the policy documents are well-typed records: a state or
      policy file with missing or ill-typed entries is outside the model;
    - of [main], argument parsing, the root check and the creation of the
      configuration directory are left out. *)

From Stdlib Require Import ZArith List String Ascii Bool Lia.
Import ListNotations.
Local Open Scope string_scope.
Local Open Scope Z_scope.

(* ===================================================================== *)
(** * Python strings *)
(* ===================================================================== *)

Module PyStr.

(** [str(n)] for a Python [int]. *)
Definition digit_char (d : Z) : ascii := ascii_of_nat (Z.to_nat (48 + d)).

Fixpoint str_pos_fuel (fuel : nat) (n : Z) (acc : string) : string :=
  match fuel with
  | O => acc
  | S fuel' =>
      let acc' := String (digit_char (n mod 10)) acc in
      if n / 10 =? 0 then acc' else str_pos_fuel fuel' (n / 10) acc'
  end.

Definition str_int (n : Z) : string :=
  if n <? 0
  then "-" ++ str_pos_fuel (S (Z.to_nat (Z.log2 (- n)))) (- n) ""
  else str_pos_fuel (S (Z.to_nat (Z.log2 n))) n "".

(** [sep.join(parts)]. *)
Fixpoint join (sep : string) (parts : list string) : string :=
  match parts with
  | [] => ""
  | [p] => p
  | p :: rest => p ++ sep ++ join sep rest
  end.

(** [s.split(c)] for a one-character separator: the fields between the
    occurrences of [c]; never the empty list. *)
Fixpoint split (c : ascii) (s : string) : list string :=
  match s with
  | EmptyString => [""]
  | String a s' =>
      if Ascii.eqb a c then "" :: split c s'
      else match split c s' with
           | [] => [String a ""]
           | f :: fs => String a f :: fs
           end
  end.

Definition is_digit (a : ascii) : bool :=
  let n := Z.of_nat (nat_of_ascii a) in (48 <=? n) && (n <=? 57).

Fixpoint all_chars (p : ascii -> bool) (s : string) : bool :=
  match s with
  | EmptyString => true
  | String a s' => p a && all_chars p s'
  end.

(** [s.isascii() and s.isdigit()]: non-empty, ASCII decimal digits only. *)
Definition isdigit (s : string) : bool :=
  match s with
  | EmptyString => false
  | _ => all_chars is_digit s
  end.

(** [int(s, 10)] on a string of ASCII digits. *)
Fixpoint int_digits (acc : Z) (s : string) : Z :=
  match s with
  | EmptyString => acc
  | String a s' => int_digits (10 * acc + (Z.of_nat (nat_of_ascii a) - 48)) s'
  end.

Definition int10 (s : string) : Z := int_digits 0 s.

(** [s.upper()] on ASCII letters; other bytes are kept.  Python also maps
    non-ASCII letters, but none of them to a letter of [ALLOW]: the test
    [action.upper() == "ALLOW"] is the same, only the echoed line of a rule
    with a non-ASCII action can differ. *)
Definition upper_char (a : ascii) : ascii :=
  let n := nat_of_ascii a in
  if (97 <=? n)%nat && (n <=? 122)%nat then ascii_of_nat (n - 32) else a.

Fixpoint upper (s : string) : string :=
  match s with
  | EmptyString => EmptyString
  | String a s' => String (upper_char a) (upper s')
  end.

(** [s.strip()]: leading and trailing ASCII whitespace removed (Python also
    removes Unicode white space; the stripped output of a command is
    returned by [_run_cmd] and used by no caller). *)
Definition is_space (a : ascii) : bool :=
  let n := nat_of_ascii a in
  ((9 <=? n)%nat && (n <=? 13)%nat) || ((28 <=? n)%nat && (n <=? 32)%nat).

Fixpoint lstrip (s : string) : string :=
  match s with
  | EmptyString => EmptyString
  | String a s' => if is_space a then lstrip s' else s
  end.

Fixpoint rstrip (s : string) : string :=
  match s with
  | EmptyString => EmptyString
  | String a s' =>
      match rstrip s' with
      | EmptyString => if is_space a then EmptyString else String a EmptyString
      | r => String a r
      end
  end.

Definition strip (s : string) : string := rstrip (lstrip s).

(** [s[:n]]. *)
Definition take (n : nat) (s : string) : string := substring 0 n s.

(** [c in s] for a character. *)
Fixpoint contains (c : ascii) (s : string) : bool :=
  match s with
  | EmptyString => false
  | String a s' => Ascii.eqb a c || contains c s'
  end.

End PyStr.

(* ===================================================================== *)
(** * hashlib.md5 (RFC 1321) *)
(* ===================================================================== *)

Module MD5.

Definition w32 (x : Z) : Z := Z.land x 0xFFFFFFFF.

Definition add32 (x y : Z) : Z := w32 (x + y).

Definition not32 (x : Z) : Z := Z.lxor x 0xFFFFFFFF.

Definition rotl32 (x c : Z) : Z :=
  w32 (Z.lor (Z.shiftl x c) (Z.shiftr x (32 - c))).

(** Per-round left rotations. *)
Definition S_table : list Z :=
  [ 7; 12; 17; 22;  7; 12; 17; 22;  7; 12; 17; 22;  7; 12; 17; 22;
    5;  9; 14; 20;  5;  9; 14; 20;  5;  9; 14; 20;  5;  9; 14; 20;
    4; 11; 16; 23;  4; 11; 16; 23;  4; 11; 16; 23;  4; 11; 16; 23;
    6; 10; 15; 21;  6; 10; 15; 21;  6; 10; 15; 21;  6; 10; 15; 21 ].

(** [K_table[i] = floor(2^32 * abs(sin(i + 1)))]. *)
Definition K_table : list Z :=
  [ 0xd76aa478; 0xe8c7b756; 0x242070db; 0xc1bdceee;
    0xf57c0faf; 0x4787c62a; 0xa8304613; 0xfd469501;
    0x698098d8; 0x8b44f7af; 0xffff5bb1; 0x895cd7be;
    0x6b901122; 0xfd987193; 0xa679438e; 0x49b40821;
    0xf61e2562; 0xc040b340; 0x265e5a51; 0xe9b6c7aa;
    0xd62f105d; 0x02441453; 0xd8a1e681; 0xe7d3fbc8;
    0x21e1cde6; 0xc33707d6; 0xf4d50d87; 0x455a14ed;
    0xa9e3e905; 0xfcefa3f8; 0x676f02d9; 0x8d2a4c8a;
    0xfffa3942; 0x8771f681; 0x6d9d6122; 0xfde5380c;
    0xa4beea44; 0x4bdecfa9; 0xf6bb4b60; 0xbebfbc70;
    0x289b7ec6; 0xeaa127fa; 0xd4ef3085; 0x04881d05;
    0xd9d4d039; 0xe6db99e5; 0x1fa27cf8; 0xc4ac5665;
    0xf4292244; 0x432aff97; 0xab9423a7; 0xfc93a039;
    0x655b59c3; 0x8f0ccc92; 0xffeff47d; 0x85845dd1;
    0x6fa87e4f; 0xfe2ce6e0; 0xa3014314; 0x4e0811a1;
    0xf7537e82; 0xbd3af235; 0x2ad7d2bb; 0xeb86d391 ].

Definition nthZ (l : list Z) (i : Z) : Z := nth (Z.to_nat i) l 0.

(** The four auxiliary functions and the message-word schedule. *)
Definition round_fn (i b c d : Z) : Z :=
  if i <? 16 then Z.lor (Z.land b c) (Z.land (not32 b) d)
  else if i <? 32 then Z.lor (Z.land d b) (Z.land (not32 d) c)
  else if i <? 48 then Z.lxor b (Z.lxor c d)
  else Z.lxor c (Z.lor b (not32 d)).

Definition word_index (i : Z) : Z :=
  if i <? 16 then i
  else if i <? 32 then (5 * i + 1) mod 16
  else if i <? 48 then (3 * i + 5) mod 16
  else (7 * i) mod 16.

Record regs := Regs { rA : Z; rB : Z; rC : Z; rD : Z }.

Definition step (M : list Z) (r : regs) (i : Z) : regs :=
  let f := round_fn i (rB r) (rC r) (rD r) in
  let f' := add32 (add32 (add32 f (rA r)) (nthZ K_table i)) (nthZ M (word_index i)) in
  Regs (rD r) (add32 (rB r) (rotl32 f' (nthZ S_table i))) (rB r) (rC r).

Definition rounds : list Z := map Z.of_nat (seq 0 64).

Definition bytes_of (s : string) : list Z :=
  map (fun a => Z.of_nat (nat_of_ascii a)) (list_ascii_of_string s).

(** Little-endian encodings. *)
Fixpoint le_bytes (n : nat) (x : Z) : list Z :=
  match n with
  | O => []
  | S n' => Z.land x 0xFF :: le_bytes n' (Z.shiftr x 8)
  end.

Fixpoint le_word (bs : list Z) : Z :=
  match bs with
  | [] => 0
  | b :: bs' => Z.lor b (Z.shiftl (le_word bs') 8)
  end.

(** Padding: a 1 bit, zeros up to 56 mod 64, the bit length on 64 bits. *)
Definition pad (msg : list Z) : list Z :=
  let len := Z.of_nat (List.length msg) in
  let zeros := Z.to_nat ((55 - len) mod 64) in
  (msg ++ [0x80] ++ repeat 0 zeros
       ++ le_bytes 8 (Z.land (8 * len) 0xFFFFFFFFFFFFFFFF))%list.

Fixpoint words (n : nat) (bs : list Z) : list Z :=
  match n with
  | O => []
  | S n' => le_word (firstn 4 bs) :: words n' (skipn 4 bs)
  end.

Fixpoint blocks (n : nat) (bs : list Z) : list (list Z) :=
  match n with
  | O => []
  | S n' => words 16 (firstn 64 bs) :: blocks n' (skipn 64 bs)
  end.

Definition compress (r : regs) (M : list Z) : regs :=
  let r' := fold_left (step M) rounds r in
  Regs (add32 (rA r) (rA r')) (add32 (rB r) (rB r'))
       (add32 (rC r) (rC r')) (add32 (rD r) (rD r')).

Definition init : regs := Regs 0x67452301 0xefcdab89 0x98badcfe 0x10325476.

(** [hashlib.md5(data).digest()], as 16 bytes. *)
Definition digest (s : string) : list Z :=
  let p := pad (bytes_of s) in
  let r := fold_left compress (blocks (List.length p / 64) p) init in
  (le_bytes 4 (rA r) ++ le_bytes 4 (rB r) ++ le_bytes 4 (rC r) ++ le_bytes 4 (rD r))%list.

Definition hex_char (d : Z) : ascii :=
  ascii_of_nat (Z.to_nat (if d <? 10 then 48 + d else 87 + d)).

Fixpoint hex_of_bytes (bs : list Z) : string :=
  match bs with
  | [] => ""
  | b :: bs' =>
      String (hex_char (Z.shiftr b 4)) (String (hex_char (Z.land b 0xF)) (hex_of_bytes bs'))
  end.

(** [hashlib.md5(s.encode()).hexdigest()]. *)
Definition hexdigest (s : string) : string := hex_of_bytes (digest s).

End MD5.

(* ===================================================================== *)
(** * The ipaddress module *)
(* ===================================================================== *)

Module IPAddr.

Inductive version := V4 | V6.

Definition max_prefixlen (v : version) : Z :=
  match v with V4 => 32 | V6 => 128 end.

Definition ALL_ONES (v : version) : Z := 2 ^ max_prefixlen v - 1.

(** An [IPv4Network] or [IPv6Network] object: the address as an integer
    and the prefix length. *)
Record Network := mkNetwork
  { net_version : version;
    network_address : Z;
    prefixlen : Z }.

(** The errors of the module.  [AddressValueError] and
    [NetmaskValueError] are what [ip_network] catches; a network with host
    bits set raises a plain [ValueError]. *)
Inductive ip_error := AddressValueError | NetmaskValueError | HostBitsSet.

Definition ip_int_from_prefix (v : version) (p : Z) : Z :=
  Z.lxor (ALL_ONES v) (Z.shiftr (ALL_ONES v) p).

Definition netmask (n : Network) : Z :=
  ip_int_from_prefix (net_version n) (prefixlen n).

Definition hostmask (n : Network) : Z :=
  Z.lxor (netmask n) (ALL_ONES (net_version n)).

Definition broadcast_address (n : Network) : Z :=
  Z.lor (network_address n) (hostmask n).

(** [range(lo, hi)]. *)
Definition range (lo hi : Z) : list Z :=
  map (fun i => lo + Z.of_nat i) (seq 0 (Z.to_nat (hi - lo))).

(** [list(network.hosts())]: [__iter__] for a prefix one short of the
    maximum, the single address for a full prefix, and otherwise the range
    without the network address (and, for IPv4, without the broadcast
    address).  The list is built in full, as [list(...)] does; the memory it
    takes for a large block is not modelled. *)
Definition hosts (n : Network) : list Z :=
  let network := network_address n in
  let broadcast := broadcast_address n in
  if prefixlen n =? max_prefixlen (net_version n) - 1 then
    range network (broadcast + 1)
  else if prefixlen n =? max_prefixlen (net_version n) then
    [network]
  else
    match net_version n with
    | V4 => range (network + 1) broadcast
    | V6 => range (network + 1) (broadcast + 1)
    end.

(** [address in network]. *)
Definition contains (n : Network) (a : Z) : Prop :=
  network_address n <= a <= broadcast_address n.

(** ** IPv4 parsing *)

Definition parse_octet (octet_str : string) : option Z :=
  if negb (PyStr.isdigit octet_str) then None
  else if (3 <? String.length octet_str)%nat then None
  else if negb (String.eqb octet_str "0") && PyStr.contains "0" (PyStr.take 1 octet_str)
  then None
  else
    let octet_int := PyStr.int10 octet_str in
    if 255 <? octet_int then None else Some octet_int.

(** [int.from_bytes(octets, 'big')]. *)
Fixpoint from_bytes_big (acc : Z) (bs : list Z) : Z :=
  match bs with
  | [] => acc
  | b :: bs' => from_bytes_big (256 * acc + b) bs'
  end.

Fixpoint parse_octets (octets : list string) : option (list Z) :=
  match octets with
  | [] => Some []
  | o :: rest =>
      match parse_octet o, parse_octets rest with
      | Some b, Some bs => Some (b :: bs)
      | _, _ => None
      end
  end.

Definition ip_int_from_string (ip_str : string) : option Z :=
  match ip_str with
  | EmptyString => None
  | _ =>
      let octets := PyStr.split "." ip_str in
      if negb (List.length octets =? 4)%nat then None
      else option_map (from_bytes_big 0) (parse_octets octets)
  end.

Definition bit_length (x : Z) : Z := if x =? 0 then 0 else Z.log2 (Z.abs x) + 1.

Definition count_righthand_zero_bits (number bits : Z) : Z :=
  if number =? 0 then bits
  else Z.min bits (bit_length (Z.land (Z.lnot number) (number - 1))).

Definition prefix_from_ip_int (ip_int : Z) : option Z :=
  let trailing_zeroes := count_righthand_zero_bits ip_int 32 in
  let prefixlen := 32 - trailing_zeroes in
  let leading_ones := Z.shiftr ip_int trailing_zeroes in
  let all_ones := Z.shiftl 1 prefixlen - 1 in
  if leading_ones =? all_ones then Some prefixlen else None.

Definition prefix_from_prefix_string (prefixlen_str : string) : option Z :=
  if negb (PyStr.isdigit prefixlen_str) then None
  else
    let prefixlen := PyStr.int10 prefixlen_str in
    if (0 <=? prefixlen) && (prefixlen <=? 32) then Some prefixlen else None.

Definition prefix_from_ip_string (ip_str : string) : option Z :=
  match ip_int_from_string ip_str with
  | None => None
  | Some ip_int =>
      match prefix_from_ip_int ip_int with
      | Some p => Some p
      | None => prefix_from_ip_int (Z.lxor ip_int (ALL_ONES V4))
      end
  end.

(** [_make_netmask] on the string after the slash. *)
Definition make_netmask (arg : string) : option Z :=
  match prefix_from_prefix_string arg with
  | Some p => Some p
  | None => prefix_from_ip_string arg
  end.

(** [IPv4Network(address, strict=True)]. *)
Definition IPv4Network (address : string) : ip_error + Network :=
  match PyStr.split "/" address with
  | [addr] =>
      match ip_int_from_string addr with
      | None => inl AddressValueError
      | Some ip => inr (mkNetwork V4 ip 32)
      end
  | [addr; mask] =>
      match ip_int_from_string addr with
      | None => inl AddressValueError
      | Some packed =>
          match make_netmask mask with
          | None => inl NetmaskValueError
          | Some p =>
              if Z.land packed (ip_int_from_prefix V4 p) =? packed
              then inr (mkNetwork V4 packed p)
              else inl HostBitsSet
          end
      end
  | _ => inl AddressValueError
  end.

(** [str(IPv4Address(ip_int))]. *)
Definition string_from_ip_int (ip_int : Z) : string :=
  PyStr.join "."
    (map PyStr.str_int
       [ Z.land (Z.shiftr ip_int 24) 0xFF; Z.land (Z.shiftr ip_int 16) 0xFF;
         Z.land (Z.shiftr ip_int 8) 0xFF; Z.land ip_int 0xFF ]).

(** The invariant of a network object built with [strict=True]. *)
Definition wf (n : Network) : Prop :=
  0 <= prefixlen n <= max_prefixlen (net_version n) /\
  0 <= network_address n <= ALL_ONES (net_version n) /\
  Z.land (network_address n) (netmask n) = network_address n.

End IPAddr.

(* ===================================================================== *)
(** * Python dictionaries with string keys *)
(* ===================================================================== *)

Module Dict.

(** Insertion-ordered, one binding per key. *)
Definition t (V : Type) : Type := list (string * V).

Section Ops.
Context {V : Type}.

(** [d.get(k)]. *)
Fixpoint get (k : string) (d : t V) : option V :=
  match d with
  | [] => None
  | (k', v) :: d' => if String.eqb k k' then Some v else get k d'
  end.

(** [k in d]. *)
Definition mem (k : string) (d : t V) : bool :=
  match get k d with Some _ => true | None => false end.

(** [d[k] = v]: an existing key keeps its position. *)
Fixpoint set (k : string) (v : V) (d : t V) : t V :=
  match d with
  | [] => [(k, v)]
  | (k', v') :: d' =>
      if String.eqb k k' then (k, v) :: d' else (k', v') :: set k v d'
  end.

(** [del d[k]]: the key is gone afterwards. *)
Fixpoint del (k : string) (d : t V) : t V :=
  match d with
  | [] => []
  | (k', v') :: d' => if String.eqb k k' then del k d' else (k', v') :: del k d'
  end.

(** [d.items()]. *)
Definition items (d : t V) : list (string * V) := d.

End Ops.

End Dict.

(* ===================================================================== *)
(** * The topology record ([self.state]) *)
(* ===================================================================== *)

(** A subnet record, as written by [add_subnet]. *)
Module Subnet.
Record t := mk
  { cidr : string;
    type : string;
    namespace : string;
    ip : string;
    gateway : string;
    veth_host : string;
    veth_ns : string }.
End Subnet.

(** A VPC record, as written by [create_vpc]. *)
Module VPC.
Record t := mk
  { cidr : string;
    bridge : string;
    bridge_ip : string;
    internet_interface : string;
    subnets : Dict.t Subnet.t }.

Definition with_subnets (f : Dict.t Subnet.t -> Dict.t Subnet.t) (v : t) : t :=
  mk (cidr v) (bridge v) (bridge_ip v) (internet_interface v) (f (subnets v)).
End VPC.

(** [{"vpcs": {...}}]. *)
Record State := mkState { vpcs : Dict.t VPC.t }.

(** A firewall policy document: [{"ingress": [{"port": ..., "protocol": ...,
    "action": ...}, ...]}].  The key [ingress] may be absent.  Only
    well-formed documents are represented: an object whose [ingress], when
    present, is a list of objects with an integer [port] and strings
    [protocol] and [action].  The code reads [rule['port']],
    [rule['protocol']] and [rule['action'].upper()] unguarded, so that a
    parsable document of another shape ends the loop with a [KeyError],
    [TypeError] or [AttributeError]; such documents are outside the model
    and no statement below speaks of them. *)
Record Rule := mkRule
  { port : Z;
    protocol : string;
    action : string }.

Record Policy := mkPolicy { ingress : option (list Rule) }.

(** The result of [subprocess.run]. *)
Record CompletedProcess := mkCompleted
  { returncode : Z;
    stdout : string;
    stderr : string }.

(** What the program does to the outside world, in order: lines printed,
    shell commands run (with the [check] flag of the call and the return
    code), and the state file rewritten. *)
Inductive event :=
| Print (line : string)
| Run (cmd : string) (check : bool) (rc : Z)
| Save (st : State).

(** Uncaught Python exceptions. *)
Inductive exn :=
| CommandFailed (cmd : string)     (* Exception(f"Command failed: {cmd}") *)
| ValueError                       (* ipaddress.ip_network *)
| IndexError                       (* list index out of range *)
| KeyError (key : string)          (* lookup in the store: d[key] *)
| PolicyLoadError (path : string). (* open / json.load *)

Inductive result (A : Type) :=
| Ok (a : A)
| Raise (e : exn).
Arguments Ok {A} a.
Arguments Raise {A} e.

(** The commands of the CLI, after argument parsing. *)
Inductive command :=
| CreateVpc (name cidr interface : string)
| AddSubnet (vpc name cidr type : string)
| PeerVpcs (vpc1 vpc2 : string)
| ApplyFirewall (vpc subnet policy : string)
| ListVpcs
| DeleteVpc (name : string).

(* ===================================================================== *)
(** * VPCManager *)
(* ===================================================================== *)

(** The environment of the program: the live system (kernel networking
    state and the shell acting on it), the policy files, and the IPv6 half
    of [ipaddress]. *)
Record Host := mkHost
  { kernel : Type;
    (** [subprocess.run(cmd, shell=True)] *)
    subprocess_run : string -> kernel -> CompletedProcess * kernel;
    (** [json.load(open(path))]; [None] when the file cannot be opened or
        parsed *)
    load_json : string -> option Policy;
    (** [IPv6Network(address)]; [None] when it raises *)
    IPv6Network : string -> option IPAddr.Network;
    (** [str(IPv6Address(n))] *)
    str_IPv6Address : Z -> string }.

Section Manager.

Variable host : Host.

(** The manager ([state]), the state file ([disk]), the kernel and the
    trace. *)
Record Machine := mkMachine
  { state : State;
    disk : option State;
    kern : kernel host;
    trace : list event }.

Definition M (A : Type) : Type := Machine -> result A * Machine.

Definition ret {A} (a : A) : M A := fun m => (Ok a, m).

Definition bind {A B} (c : M A) (k : A -> M B) : M B :=
  fun m =>
    match c m with
    | (Ok a, m') => k a m'
    | (Raise e, m') => (Raise e, m')
    end.

Definition raise {A} (e : exn) : M A := fun m => (Raise e, m).

Notation "x <- c ;; k" := (bind c (fun x => k))
  (at level 61, c at next level, right associativity).
Notation "c ;; k" := (bind c (fun _ => k))
  (at level 61, right associativity).

Definition log (e : event) (m : Machine) : Machine :=
  mkMachine (state m) (disk m) (kern m) (trace m ++ [e])%list.

Definition get_state : M State := fun m => (Ok (state m), m).

Definition modify_state (f : State -> State) : M unit :=
  fun m => (Ok tt, mkMachine (f (state m)) (disk m) (kern m) (trace m)).

Definition print (line : string) : M unit := fun m => (Ok tt, log (Print line) m).

(** [d[k]]. *)
Definition lookup {V} (k : string) (d : Dict.t V) : M V :=
  match Dict.get k d with
  | Some v => ret v
  | None => raise (KeyError k)
  end.

(** A pure computation that may raise, run inside [M]. *)
Definition lift {A} (r : result A) : M A := fun m => (r, m).

(** [l[i]]. *)
Definition index {A} (l : list A) (i : nat) : result A :=
  match nth_error l i with
  | Some a => Ok a
  | None => Raise IndexError
  end.

(** [for x in l: body]. *)
Fixpoint for_each {A} (l : list A) (body : A -> M unit) : M unit :=
  match l with
  | [] => ret tt
  | x :: l' => body x ;; for_each l' body
  end.

(** [ipaddress.ip_network(address)]: IPv4 first; its address and netmask
    errors are caught and IPv6 is tried; every failure is a
    [ValueError]. *)
Definition ip_network (address : string) : result IPAddr.Network :=
  match IPAddr.IPv4Network address with
  | inr n => Ok n
  | inl IPAddr.HostBitsSet => Raise ValueError
  | inl _ =>
      match IPv6Network host address with
      | Some n => Ok n
      | None => Raise ValueError
      end
  end.

(** [str(address)] for an address of the network [n]. *)
Definition str_address (n : IPAddr.Network) (a : Z) : string :=
  match IPAddr.net_version n with
  | IPAddr.V4 => IPAddr.string_from_ip_int a
  | IPAddr.V6 => str_IPv6Address host a
  end.

(** [VPCManager.__init__] with [_load_state]. *)
Definition _load_state : M State :=
  fun m =>
    match disk m with
    | Some st => (Ok st, m)
    | None => (Ok (mkState []), m)
    end.

Definition __init__ : M unit :=
  st <- _load_state ;;
  modify_state (fun _ => st).

Definition _save_state : M unit :=
  fun m =>
    (Ok tt, mkMachine (state m) (Some (state m)) (kern m)
                      (trace m ++ [Save (state m)])%list).

Definition _run_cmd (cmd : string) (check capture : bool) : M (option string) :=
  print ("[CMD] " ++ cmd) ;;
  result <- (fun m =>
               let (r, k') := subprocess_run host cmd (kern m) in
               (Ok r, mkMachine (state m) (disk m) k'
                                (trace m ++ [Run cmd check (returncode r)])%list)) ;;
  if capture then
    if check && negb (returncode result =? 0) then
      print ("[ERROR] " ++ stderr result) ;;
      raise (CommandFailed cmd)
    else ret (Some (PyStr.strip (stdout result)))
  else
    if check && negb (returncode result =? 0) then
      raise (CommandFailed cmd)
    else ret None.

(** ** Derived identifiers *)

(** [f"br-{vpc_name}"] *)
Definition bridge_name (vpc_name : string) : string := "br-" ++ vpc_name.

(** [f"{vpc_name}-{subnet_name}"] *)
Definition ns_name (vpc_name subnet_name : string) : string :=
  vpc_name ++ "-" ++ subnet_name.

(** [hashlib.md5(f"{a}{b}".encode()).hexdigest()[:6]] *)
Definition name_hash (a b : string) : string :=
  PyStr.take 6 (MD5.hexdigest (a ++ b)).

Definition veth_host (vpc_name subnet_name : string) : string :=
  "vh" ++ name_hash vpc_name subnet_name.

Definition veth_ns (vpc_name subnet_name : string) : string :=
  "vn" ++ name_hash vpc_name subnet_name.

Definition peer_veth1 (vpc1_name vpc2_name : string) : string :=
  "pr1" ++ name_hash vpc1_name vpc2_name.

Definition peer_veth2 (vpc1_name vpc2_name : string) : string :=
  "pr2" ++ name_hash vpc1_name vpc2_name.

(** ** Address planning *)

(** [network = ipaddress.ip_network(cidr_block)];
    [bridge_ip = str(list(network.hosts())[0])] *)
Definition plan_bridge (cidr_block : string) : result (IPAddr.Network * string) :=
  match ip_network cidr_block with
  | Raise e => Raise e
  | Ok network =>
      match index (IPAddr.hosts network) 0 with
      | Raise e => Raise e
      | Ok h0 => Ok (network, str_address network h0)
      end
  end.

(** [subnet_net = ipaddress.ip_network(subnet_cidr)];
    [subnet_ip = str(list(subnet_net.hosts())[0])];
    [subnet_gateway = str(list(subnet_net.hosts())[1])] *)
Definition plan_subnet (subnet_cidr : string)
  : result (IPAddr.Network * string * string) :=
  match ip_network subnet_cidr with
  | Raise e => Raise e
  | Ok subnet_net =>
      match index (IPAddr.hosts subnet_net) 0 with
      | Raise e => Raise e
      | Ok h0 =>
          match index (IPAddr.hosts subnet_net) 1 with
          | Raise e => Raise e
          | Ok h1 =>
              Ok (subnet_net, str_address subnet_net h0, str_address subnet_net h1)
          end
      end
  end.

(** ** create_vpc *)

Definition create_vpc (vpc_name cidr_block internet_interface : string) : M unit :=
  st <- get_state ;;
  if Dict.mem vpc_name (vpcs st) then
    print ("[ERROR] VPC " ++ vpc_name ++ " already exists")
  else
    let bridge_name := bridge_name vpc_name in
    print ("[INFO] Creating VPC: " ++ vpc_name ++ " with CIDR: " ++ cidr_block) ;;
    _run_cmd ("ip link add " ++ bridge_name ++ " type bridge") true true ;;
    _run_cmd ("ip link set " ++ bridge_name ++ " up") true true ;;
    _run_cmd "echo 1 > /proc/sys/net/bridge/bridge-nf-call-iptables" false true ;;
    _run_cmd ("iptables -A FORWARD -i " ++ bridge_name ++ " -o " ++ bridge_name
                ++ " -j ACCEPT") false true ;;
    _run_cmd ("iptables -A FORWARD -i " ++ bridge_name ++ " ! -o " ++ bridge_name
                ++ " -j DROP") false true ;;
    planned <- lift (plan_bridge cidr_block) ;;
    let '(network, bridge_ip) := planned in
    _run_cmd ("ip addr add " ++ bridge_ip ++ "/"
                ++ PyStr.str_int (IPAddr.prefixlen network)
                ++ " dev " ++ bridge_name) true true ;;
    _run_cmd "sysctl -w net.ipv4.ip_forward=1" true false ;;
    modify_state (fun st =>
      mkState (Dict.set vpc_name
                 (VPC.mk cidr_block bridge_name bridge_ip internet_interface [])
                 (vpcs st))) ;;
    _save_state ;;
    print ("[SUCCESS] VPC " ++ vpc_name ++ " created with bridge " ++ bridge_name).

(** ** add_subnet and _setup_nat *)

Definition _setup_nat (vpc_name subnet_cidr : string) : M unit :=
  st <- get_state ;;
  vpc <- lookup vpc_name (vpcs st) ;;
  let iface := VPC.internet_interface vpc in
  print ("[INFO] Setting up NAT for subnet " ++ subnet_cidr) ;;
  _run_cmd ("iptables -t nat -A POSTROUTING -s " ++ subnet_cidr ++ " -o " ++ iface
              ++ " -j MASQUERADE") true true ;;
  _run_cmd ("iptables -A FORWARD -i " ++ VPC.bridge vpc ++ " -o " ++ iface
              ++ " -j ACCEPT") true true ;;
  _run_cmd ("iptables -A FORWARD -o " ++ VPC.bridge vpc ++ " -i " ++ iface
              ++ " -j ACCEPT") true true ;;
  ret tt.

Definition add_subnet (vpc_name subnet_name subnet_cidr subnet_type : string)
  : M unit :=
  st <- get_state ;;
  if negb (Dict.mem vpc_name (vpcs st)) then
    print ("[ERROR] VPC " ++ vpc_name ++ " not found")
  else
    vpc <- lookup vpc_name (vpcs st) ;;
    let ns_name := ns_name vpc_name subnet_name in
    let veth_host := veth_host vpc_name subnet_name in
    let veth_ns := veth_ns vpc_name subnet_name in
    print ("[INFO] Creating " ++ subnet_type ++ " subnet: " ++ subnet_name
             ++ " in VPC " ++ vpc_name) ;;
    _run_cmd ("ip netns add " ++ ns_name) true true ;;
    _run_cmd ("ip link add " ++ veth_host ++ " type veth peer name " ++ veth_ns)
             true true ;;
    _run_cmd ("ip link set " ++ veth_ns ++ " netns " ++ ns_name) true true ;;
    _run_cmd ("ip link set " ++ veth_host ++ " master " ++ VPC.bridge vpc) true true ;;
    _run_cmd ("ip link set " ++ veth_host ++ " up") true true ;;
    planned <- lift (plan_subnet subnet_cidr) ;;
    let '(subnet_net, subnet_ip, subnet_gateway) := planned in
    let prefixlen := PyStr.str_int (IPAddr.prefixlen subnet_net) in
    _run_cmd ("ip netns exec " ++ ns_name ++ " ip link set lo up") true true ;;
    _run_cmd ("ip netns exec " ++ ns_name ++ " ip addr add " ++ subnet_ip ++ "/"
                ++ prefixlen ++ " dev " ++ veth_ns) true true ;;
    _run_cmd ("ip netns exec " ++ ns_name ++ " ip link set " ++ veth_ns ++ " up")
             true true ;;
    _run_cmd ("ip addr add " ++ subnet_gateway ++ "/" ++ prefixlen ++ " dev "
                ++ VPC.bridge vpc) true true ;;
    _run_cmd ("ip netns exec " ++ ns_name ++ " ip route add default via "
                ++ subnet_gateway) true true ;;
    (if String.eqb subnet_type "public"
     then _setup_nat vpc_name subnet_cidr
     else ret tt) ;;
    modify_state (fun st =>
      match Dict.get vpc_name (vpcs st) with
      | Some vpc =>
          mkState (Dict.set vpc_name
                     (VPC.with_subnets
                        (Dict.set subnet_name
                           (Subnet.mk subnet_cidr subnet_type ns_name subnet_ip
                                      subnet_gateway veth_host veth_ns))
                        vpc)
                     (vpcs st))
      | None => st
      end) ;;
    _save_state ;;
    print ("[SUCCESS] Subnet " ++ subnet_name ++ " created in namespace " ++ ns_name).

(** ** peer_vpcs *)

Definition peer_vpcs (vpc1_name vpc2_name : string) : M unit :=
  st <- get_state ;;
  if negb (Dict.mem vpc1_name (vpcs st)) || negb (Dict.mem vpc2_name (vpcs st)) then
    print "[ERROR] One or both VPCs not found"
  else
    vpc1 <- lookup vpc1_name (vpcs st) ;;
    vpc2 <- lookup vpc2_name (vpcs st) ;;
    let peer_veth1 := peer_veth1 vpc1_name vpc2_name in
    let peer_veth2 := peer_veth2 vpc1_name vpc2_name in
    print ("[INFO] Peering VPC " ++ vpc1_name ++ " with " ++ vpc2_name) ;;
    _run_cmd ("ip link del " ++ peer_veth1) false true ;;
    _run_cmd ("ip link del " ++ peer_veth2) false true ;;
    _run_cmd ("ip link add " ++ peer_veth1 ++ " type veth peer name " ++ peer_veth2)
             true true ;;
    _run_cmd ("ip link set " ++ peer_veth1 ++ " master " ++ VPC.bridge vpc1)
             true true ;;
    _run_cmd ("ip link set " ++ peer_veth1 ++ " up") true true ;;
    _run_cmd ("ip link set " ++ peer_veth2 ++ " master " ++ VPC.bridge vpc2)
             true true ;;
    _run_cmd ("ip link set " ++ peer_veth2 ++ " up") true true ;;
    _run_cmd ("ip route replace " ++ VPC.cidr vpc2 ++ " dev " ++ VPC.bridge vpc1)
             true true ;;
    _run_cmd ("ip route replace " ++ VPC.cidr vpc1 ++ " dev " ++ VPC.bridge vpc2)
             true true ;;
    _run_cmd ("iptables -I FORWARD -i " ++ VPC.bridge vpc1 ++ " -o "
                ++ VPC.bridge vpc2 ++ " -j ACCEPT") false true ;;
    _run_cmd ("iptables -I FORWARD -i " ++ VPC.bridge vpc2 ++ " -o "
                ++ VPC.bridge vpc1 ++ " -j ACCEPT") false true ;;
    print ("[SUCCESS] VPCs " ++ vpc1_name ++ " and " ++ vpc2_name ++ " peered").

(** ** apply_firewall *)

(** The command built in the loop body for one rule. *)
Definition firewall_cmd (ns_name : string) (rule : Rule) : string :=
  let port := PyStr.str_int (port rule) in
  let proto := protocol rule in
  let action := PyStr.upper (action rule) in
  if String.eqb action "ALLOW" then
    "ip netns exec " ++ ns_name ++ " iptables -A INPUT -p " ++ proto
      ++ " --dport " ++ port ++ " -j ACCEPT"
  else
    "ip netns exec " ++ ns_name ++ " iptables -A INPUT -p " ++ proto
      ++ " --dport " ++ port ++ " -j DROP".

(** [policy.get("ingress", [])] *)
Definition ingress_rules (policy : Policy) : list Rule :=
  match ingress policy with
  | Some rules => rules
  | None => []
  end.

Definition apply_firewall (vpc_name subnet_name policy_file : string) : M unit :=
  st <- get_state ;;
  if negb (Dict.mem vpc_name (vpcs st)) then
    print ("[ERROR] VPC " ++ vpc_name ++ " not found")
  else
    vpc <- lookup vpc_name (vpcs st) ;;
    if negb (Dict.mem subnet_name (VPC.subnets vpc)) then
      print ("[ERROR] Subnet " ++ subnet_name ++ " not found")
    else
      subnet <- lookup subnet_name (VPC.subnets vpc) ;;
      let ns_name := Subnet.namespace subnet in
      policy <- match load_json host policy_file with
                | Some p => ret p
                | None => raise (PolicyLoadError policy_file)
                end ;;
      print ("[INFO] Applying firewall rules to " ++ subnet_name) ;;
      for_each (ingress_rules policy) (fun rule =>
        _run_cmd (firewall_cmd ns_name rule) true true ;;
        print ("  - " ++ PyStr.upper (action rule) ++ " " ++ protocol rule ++ "/"
                 ++ PyStr.str_int (port rule))) ;;
      print "[SUCCESS] Firewall rules applied".

(** ** list_vpcs *)

Definition newline : string := String (ascii_of_nat 10) "".

Definition list_vpcs : M unit :=
  st <- get_state ;;
  match vpcs st with
  | [] => print "No VPCs found"
  | _ =>
      for_each (Dict.items (vpcs st)) (fun '(vpc_name, vpc_data) =>
        print (newline ++ "VPC: " ++ vpc_name) ;;
        print ("  CIDR: " ++ VPC.cidr vpc_data) ;;
        print ("  Bridge: " ++ VPC.bridge vpc_data ++ " (" ++ VPC.bridge_ip vpc_data
                 ++ ")") ;;
        print "  Subnets:" ;;
        for_each (Dict.items (VPC.subnets vpc_data)) (fun '(subnet_name, subnet_data) =>
          print ("    - " ++ subnet_name ++ " (" ++ Subnet.type subnet_data ++ "): "
                   ++ Subnet.cidr subnet_data)))
  end.

(** ** delete_vpc *)

Definition delete_vpc (vpc_name : string) : M unit :=
  st <- get_state ;;
  if negb (Dict.mem vpc_name (vpcs st)) then
    print ("[ERROR] VPC " ++ vpc_name ++ " not found")
  else
    vpc <- lookup vpc_name (vpcs st) ;;
    print ("[INFO] Deleting VPC: " ++ vpc_name) ;;
    for_each (Dict.items (VPC.subnets vpc)) (fun '(subnet_name, subnet) =>
      let ns_name := Subnet.namespace subnet in
      print ("  - Deleting subnet " ++ subnet_name) ;;
      _run_cmd ("ip netns del " ++ ns_name) false true ;;
      _run_cmd ("ip link del " ++ Subnet.veth_host subnet) false true ;;
      ret tt) ;;
    for_each (Dict.items (VPC.subnets vpc)) (fun '(subnet_name, subnet) =>
      if String.eqb (Subnet.type subnet) "public" then
        _run_cmd ("iptables -t nat -D POSTROUTING -s " ++ Subnet.cidr subnet
                    ++ " -o " ++ VPC.internet_interface vpc ++ " -j MASQUERADE")
                 false true ;;
        ret tt
      else ret tt) ;;
    _run_cmd ("iptables -D FORWARD -i " ++ VPC.bridge vpc ++ " -o " ++ VPC.bridge vpc
                ++ " -j ACCEPT") false true ;;
    _run_cmd ("iptables -D FORWARD -i " ++ VPC.bridge vpc ++ " ! -o "
                ++ VPC.bridge vpc ++ " -j DROP") false true ;;
    _run_cmd ("ip link del " ++ VPC.bridge vpc) false true ;;
    modify_state (fun st => mkState (Dict.del vpc_name (vpcs st))) ;;
    _save_state ;;
    print ("[SUCCESS] VPC " ++ vpc_name ++ " deleted").

(** ** main: the manager is built from the state file, then the command
    is dispatched. *)

Definition dispatch (c : command) : M unit :=
  match c with
  | CreateVpc name cidr interface => create_vpc name cidr interface
  | AddSubnet vpc name cidr type => add_subnet vpc name cidr type
  | PeerVpcs vpc1 vpc2 => peer_vpcs vpc1 vpc2
  | ApplyFirewall vpc subnet policy => apply_firewall vpc subnet policy
  | ListVpcs => list_vpcs
  | DeleteVpc name => delete_vpc name
  end.

Definition main (c : command) : M unit :=
  __init__ ;;
  dispatch c.

End Manager.

Arguments state {host} m.
Arguments disk {host} m.
Arguments kern {host} m.
Arguments trace {host} m.

(* ===================================================================== *)
(** * Observations on traces *)
(* ===================================================================== *)

(** The shell commands of a trace, each with its [check] flag. *)
Definition directives (evs : list event) : list (string * bool) :=
  flat_map (fun e => match e with Run c chk _ => [(c, chk)] | _ => [] end) evs.

(** The states written to disk in a trace. *)
Definition saves (evs : list event) : list State :=
  flat_map (fun e => match e with Save st => [st] | _ => [] end) evs.

(** A command run with [check=True] that returned non-zero. *)
Definition failed (e : event) : bool :=
  match e with
  | Run _ true rc => negb (rc =? 0)
  | _ => false
  end.

Definition no_failed (evs : list event) : Prop :=
  Forall (fun e => failed e = false) evs.

Definition is_print (e : event) : Prop :=
  match e with Print _ => True | _ => False end.

(** The shape of the events of a computation, given its result: when it
    raised [CommandFailed c], the events end with the failing checked run of
    [c] followed by printed lines only, and no checked run failed before;
    otherwise no checked run failed at all. *)
Definition abort_shape {A} (r : result A) (evs : list event) : Prop :=
  match r with
  | Raise (CommandFailed c) =>
      exists pre rc tail,
        evs = (pre ++ Run c true rc :: tail)%list /\ rc <> 0 /\
        no_failed pre /\ Forall is_print tail
  | _ => no_failed evs
  end.

(** A computation that only reads the manager and talks to the shell and
    the terminal: memory and disk are as before, nothing is saved. *)
Definition quiet {host A} (c : M host A) : Prop :=
  forall m, exists evs,
    trace (snd (c m)) = (trace m ++ evs)%list /\
    state (snd (c m)) = state m /\
    disk (snd (c m)) = disk m /\
    saves evs = [] /\
    abort_shape (fst (c m)) evs.

(** A computation that commits only when it does not raise. *)
Definition safe {host A} (c : M host A) : Prop :=
  forall m, exists evs,
    trace (snd (c m)) = (trace m ++ evs)%list /\
    abort_shape (fst (c m)) evs /\
    (forall e, fst (c m) = Raise e ->
               state (snd (c m)) = state m /\ disk (snd (c m)) = disk m /\
               saves evs = []).

(** A computation that cannot raise and runs exactly the directives [ds],
    whatever their outcome, without touching memory or disk. *)
Definition always_runs {host A} (c : M host A) (ds : list (string * bool)) : Prop :=
  forall m, exists a evs,
    fst (c m) = Ok a /\
    trace (snd (c m)) = (trace m ++ evs)%list /\
    state (snd (c m)) = state m /\
    disk (snd (c m)) = disk m /\
    saves evs = [] /\
    directives evs = ds.

(** The commands [cmds], run in order with [capture=True], then [k]. *)
Fixpoint run_all {host B} (cmds : list (string * bool)) (k : M host B) : M host B :=
  match cmds with
  | [] => k
  | (cmd, check) :: rest =>
      bind host (_run_cmd host cmd check true) (fun _ => run_all rest k)
  end.

(** ** The command lists of the operations, as functions of the record *)

(** What [create_vpc] runs before it looks at the CIDR block. *)
Definition create_vpc_prelude (vpc_name : string) : list (string * bool) :=
  let br := bridge_name vpc_name in
  [ ("ip link add " ++ br ++ " type bridge", true);
    ("ip link set " ++ br ++ " up", true);
    ("echo 1 > /proc/sys/net/bridge/bridge-nf-call-iptables", false);
    ("iptables -A FORWARD -i " ++ br ++ " -o " ++ br ++ " -j ACCEPT", false);
    ("iptables -A FORWARD -i " ++ br ++ " ! -o " ++ br ++ " -j DROP", false) ].

(** What [add_subnet] runs before it looks at the CIDR block. *)
Definition add_subnet_prelude (vpc : VPC.t) (vpc_name subnet_name : string)
  : list (string * bool) :=
  let ns := ns_name vpc_name subnet_name in
  let vh := veth_host vpc_name subnet_name in
  let vn := veth_ns vpc_name subnet_name in
  [ ("ip netns add " ++ ns, true);
    ("ip link add " ++ vh ++ " type veth peer name " ++ vn, true);
    ("ip link set " ++ vn ++ " netns " ++ ns, true);
    ("ip link set " ++ vh ++ " master " ++ VPC.bridge vpc, true);
    ("ip link set " ++ vh ++ " up", true) ].

(** The teardown sequence of [delete_vpc]. *)
Definition delete_subnet_directives (subnet : Subnet.t) : list (string * bool) :=
  [ ("ip netns del " ++ Subnet.namespace subnet, false);
    ("ip link del " ++ Subnet.veth_host subnet, false) ].

Definition delete_nat_directives (vpc : VPC.t) (subnet : Subnet.t)
  : list (string * bool) :=
  if String.eqb (Subnet.type subnet) "public"
  then [ ("iptables -t nat -D POSTROUTING -s " ++ Subnet.cidr subnet
            ++ " -o " ++ VPC.internet_interface vpc ++ " -j MASQUERADE", false) ]
  else [].

Definition delete_bridge_directives (vpc : VPC.t) : list (string * bool) :=
  [ ("iptables -D FORWARD -i " ++ VPC.bridge vpc ++ " -o " ++ VPC.bridge vpc
       ++ " -j ACCEPT", false);
    ("iptables -D FORWARD -i " ++ VPC.bridge vpc ++ " ! -o " ++ VPC.bridge vpc
       ++ " -j DROP", false);
    ("ip link del " ++ VPC.bridge vpc, false) ].

Definition delete_directives (vpc : VPC.t) : list (string * bool) :=
  let subnets := map snd (Dict.items (VPC.subnets vpc)) in
  (flat_map delete_subnet_directives subnets
     ++ flat_map (delete_nat_directives vpc) subnets
     ++ delete_bridge_directives vpc)%list.

(** The identifiers derived for a peering and for a subnet. *)
Definition peer_ids (vpc1_name vpc2_name : string) : string * string :=
  (peer_veth1 vpc1_name vpc2_name, peer_veth2 vpc1_name vpc2_name).

Definition subnet_ids (vpc_name subnet_name : string) : string * string * string :=
  (ns_name vpc_name subnet_name,
   veth_host vpc_name subnet_name,
   veth_ns vpc_name subnet_name).

(** The directives an operation runs before it plans addresses. *)
Definition prelude (st : State) (c : command) : list (string * bool) :=
  match c with
  | CreateVpc name _ _ => create_vpc_prelude name
  | AddSubnet vpc name _ _ =>
      match Dict.get vpc (vpcs st) with
      | Some v => add_subnet_prelude v vpc name
      | None => []
      end
  | _ => []
  end.

Definition error_of {A} (r : result A) : option exn :=
  match r with
  | Ok _ => None
  | Raise e => Some e
  end.

(** The error of the address planner for an operation that passes its
    guard: [create_vpc] needs the first host of the block, [add_subnet] the
    first two. *)
Definition planning_error (host : Host) (st : State) (c : command) : option exn :=
  match c with
  | CreateVpc name cidr _ =>
      if Dict.mem name (vpcs st) then None else error_of (plan_bridge host cidr)
  | AddSubnet vpc _ cidr _ =>
      if Dict.mem vpc (vpcs st) then error_of (plan_subnet host cidr) else None
  | _ => None
  end.

(** The block an operation plans addresses in, and the number of hosts it
    takes from it ([hosts()[0]] in [create_vpc]; [hosts()[0]] and
    [hosts()[1]] in [add_subnet]). *)
Definition block_of (c : command) : string :=
  match c with
  | CreateVpc _ cidr _ => cidr
  | AddSubnet _ _ cidr _ => cidr
  | _ => ""
  end.

Definition hosts_needed (c : command) : nat :=
  match c with
  | CreateVpc _ _ _ => 1
  | AddSubnet _ _ _ _ => 2
  | _ => 0
  end.

(** The directive of each rule of a policy, in order. *)
Definition firewall_directives (ns_name : string) (rules : list Rule)
  : list (string * bool) :=
  map (fun rule => (firewall_cmd ns_name rule, true)) rules.

(** ** Preconditions of the operations, read off their guards *)

Definition precondition_fails (st : State) (c : command) : bool :=
  match c with
  | CreateVpc name _ _ => Dict.mem name (vpcs st)
  | AddSubnet vpc _ _ _ => negb (Dict.mem vpc (vpcs st))
  | PeerVpcs vpc1 vpc2 =>
      negb (Dict.mem vpc1 (vpcs st)) || negb (Dict.mem vpc2 (vpcs st))
  | ApplyFirewall vpc subnet _ =>
      match Dict.get vpc (vpcs st) with
      | None => true
      | Some v => negb (Dict.mem subnet (VPC.subnets v))
      end
  | ListVpcs => false
  | DeleteVpc name => negb (Dict.mem name (vpcs st))
  end.

(** ** A simulated host for concrete runs: the kernel is the list of
    commands it accepted, chosen commands fail with exit status 1, and only
    the given policy files exist.  It has no IPv6 support. *)
Definition sim_host (fails : string -> bool) (files : string -> option Policy) : Host :=
  mkHost (list string)
         (fun cmd k =>
            if fails cmd then (mkCompleted 1 "" "failed", k)
            else (mkCompleted 0 "" "", (k ++ [cmd])%list))
         files
         (fun _ => None)
         (fun _ => "").

Definition no_files : string -> option Policy := fun _ => None.

Definition all_succeed : string -> bool := fun _ => false.
Definition all_fail : string -> bool := fun _ => true.

Definition boot (h : Host) (k : kernel h) (d : option State) : Machine h :=
  mkMachine h (mkState []) d k [].

(** Policy files for the concrete runs. *)
Definition empty_policy_files : string -> option Policy :=
  fun path => if String.eqb path "policy.json" then Some (mkPolicy None) else None.

Definition web_policy_files : string -> option Policy :=
  fun path =>
    if String.eqb path "policy.json"
    then Some (mkPolicy (Some [mkRule 80 "tcp" "allow"]))
    else None.

Definition icmp_policy_files : string -> option Policy :=
  fun path =>
    if String.eqb path "policy.json"
    then Some (mkPolicy (Some [mkRule 8 "icmp" "allow"; mkRule 22 "tcp" "deny"]))
    else None.

(** A store with one VPC [app1] holding one public subnet [web]. *)
Definition web_subnet : Subnet.t :=
  Subnet.mk "10.0.1.0/24" "public" "app1-web" "10.0.1.1" "10.0.1.2"
            "vhc91e9a" "vnc91e9a".

Definition app1_vpc : VPC.t :=
  VPC.mk "10.0.0.0/16" "br-app1" "10.0.0.1" "eth0" [("web", web_subnet)].

Definition app1_store : State := mkState [("app1", app1_vpc)].

(** ** The directive lists and records of the successful runs *)

(** What [create_vpc] runs once the bridge address is planned. *)
Definition create_vpc_directives (vpc_name : string) (network : IPAddr.Network)
           (bridge_ip : string) : list (string * bool) :=
  (create_vpc_prelude vpc_name
     ++ [ (("ip addr add " ++ bridge_ip ++ "/"
              ++ PyStr.str_int (IPAddr.prefixlen network)
              ++ " dev " ++ bridge_name vpc_name)%string, true);
          ("sysctl -w net.ipv4.ip_forward=1"%string, true) ])%list.

(** The record [create_vpc] stores. *)
Definition new_vpc (vpc_name cidr_block bridge_ip internet_interface : string) : VPC.t :=
  VPC.mk cidr_block (bridge_name vpc_name) bridge_ip internet_interface [].

(** The directives of [_setup_nat]. *)
Definition nat_directives (vpc : VPC.t) (subnet_cidr : string) : list (string * bool) :=
  [ ("iptables -t nat -A POSTROUTING -s " ++ subnet_cidr ++ " -o "
       ++ VPC.internet_interface vpc ++ " -j MASQUERADE", true);
    ("iptables -A FORWARD -i " ++ VPC.bridge vpc ++ " -o " ++ VPC.internet_interface vpc
       ++ " -j ACCEPT", true);
    ("iptables -A FORWARD -o " ++ VPC.bridge vpc ++ " -i " ++ VPC.internet_interface vpc
       ++ " -j ACCEPT", true) ].

(** What [add_subnet] runs after address planning, before NAT. *)
Definition add_subnet_addressing (vpc : VPC.t) (vpc_name subnet_name : string)
           (subnet_net : IPAddr.Network) (subnet_ip subnet_gateway : string)
  : list (string * bool) :=
  let ns := ns_name vpc_name subnet_name in
  let vn := veth_ns vpc_name subnet_name in
  let prefixlen := PyStr.str_int (IPAddr.prefixlen subnet_net) in
  [ ("ip netns exec " ++ ns ++ " ip link set lo up", true);
    ("ip netns exec " ++ ns ++ " ip addr add " ++ subnet_ip ++ "/" ++ prefixlen
       ++ " dev " ++ vn, true);
    ("ip netns exec " ++ ns ++ " ip link set " ++ vn ++ " up", true);
    ("ip addr add " ++ subnet_gateway ++ "/" ++ prefixlen ++ " dev " ++ VPC.bridge vpc,
     true);
    ("ip netns exec " ++ ns ++ " ip route add default via " ++ subnet_gateway, true) ].

Definition add_subnet_directives (vpc : VPC.t)
           (vpc_name subnet_name subnet_cidr subnet_type : string)
           (subnet_net : IPAddr.Network) (subnet_ip subnet_gateway : string)
  : list (string * bool) :=
  (add_subnet_prelude vpc vpc_name subnet_name
     ++ add_subnet_addressing vpc vpc_name subnet_name subnet_net subnet_ip subnet_gateway
     ++ (if String.eqb subnet_type "public" then nat_directives vpc subnet_cidr else []))%list.

(** The record [add_subnet] stores, and the store after it. *)
Definition new_subnet (vpc_name subnet_name subnet_cidr subnet_type
                       subnet_ip subnet_gateway : string) : Subnet.t :=
  Subnet.mk subnet_cidr subnet_type (ns_name vpc_name subnet_name) subnet_ip
            subnet_gateway (veth_host vpc_name subnet_name)
            (veth_ns vpc_name subnet_name).

Definition store_subnet (vpc_name subnet_name : string) (record : Subnet.t)
           (st : State) : State :=
  match Dict.get vpc_name (vpcs st) with
  | Some vpc =>
      mkState (Dict.set vpc_name
                 (VPC.with_subnets (Dict.set subnet_name record) vpc) (vpcs st))
  | None => st
  end.

(** The directives of [peer_vpcs]. *)
Definition peer_directives (vpc1 vpc2 : VPC.t) (vpc1_name vpc2_name : string)
  : list (string * bool) :=
  let p1 := peer_veth1 vpc1_name vpc2_name in
  let p2 := peer_veth2 vpc1_name vpc2_name in
  [ ("ip link del " ++ p1, false);
    ("ip link del " ++ p2, false);
    ("ip link add " ++ p1 ++ " type veth peer name " ++ p2, true);
    ("ip link set " ++ p1 ++ " master " ++ VPC.bridge vpc1, true);
    ("ip link set " ++ p1 ++ " up", true);
    ("ip link set " ++ p2 ++ " master " ++ VPC.bridge vpc2, true);
    ("ip link set " ++ p2 ++ " up", true);
    ("ip route replace " ++ VPC.cidr vpc2 ++ " dev " ++ VPC.bridge vpc1, true);
    ("ip route replace " ++ VPC.cidr vpc1 ++ " dev " ++ VPC.bridge vpc2, true);
    ("iptables -I FORWARD -i " ++ VPC.bridge vpc1 ++ " -o " ++ VPC.bridge vpc2
       ++ " -j ACCEPT", false);
    ("iptables -I FORWARD -i " ++ VPC.bridge vpc2 ++ " -o " ++ VPC.bridge vpc1
       ++ " -j ACCEPT", false) ].

(** The lines [list_vpcs] prints for a store. *)
Definition listing_of_subnet (entry : string * Subnet.t) : string :=
  let '(subnet_name, subnet_data) := entry in
  "    - " ++ subnet_name ++ " (" ++ Subnet.type subnet_data ++ "): "
    ++ Subnet.cidr subnet_data.

Definition listing_of_vpc (entry : string * VPC.t) : list string :=
  let '(vpc_name, vpc_data) := entry in
  [ newline ++ "VPC: " ++ vpc_name;
    "  CIDR: " ++ VPC.cidr vpc_data;
    "  Bridge: " ++ VPC.bridge vpc_data ++ " (" ++ VPC.bridge_ip vpc_data ++ ")";
    "  Subnets:" ]
    ++ map listing_of_subnet (Dict.items (VPC.subnets vpc_data)).

Definition listing (st : State) : list string :=
  match vpcs st with
  | [] => ["No VPCs found"]
  | _ => flat_map listing_of_vpc (Dict.items (vpcs st))
  end.

(** ** Which record an operation may write *)

(** Commands that never write the store. *)
Definition read_only (c : command) : bool :=
  match c with
  | PeerVpcs _ _ | ApplyFirewall _ _ _ | ListVpcs => true
  | _ => false
  end.

(** The VPC whose record a command may write. *)
Definition target (c : command) : option string :=
  match c with
  | CreateVpc name _ _ => Some name
  | AddSubnet vpc _ _ _ => Some vpc
  | DeleteVpc name => Some name
  | _ => None
  end.

(** A store update that leaves every VPC but [k] as it is. *)
Definition touches_only (k : option string) (f : State -> State) : Prop :=
  forall st v, k <> Some v -> Dict.get v (vpcs (f st)) = Dict.get v (vpcs st).

(** A computation that either leaves memory and disk as they are, or
    applies one update allowed by [P] and writes the result to disk. *)
Definition commits_in {host A} (P : (State -> State) -> Prop) (c : M host A) : Prop :=
  forall m,
    (state (snd (c m)) = state m /\ disk (snd (c m)) = disk m) \/
    (exists f, P f /\ state (snd (c m)) = f (state m) /\
               disk (snd (c m)) = Some (f (state m))).

(** ** The exceptions an operation may end with *)

(** Among the failures the embedding represents: [CommandFailed] from a
    checked directive, [ValueError] and [IndexError] from address planning,
    [PolicyLoadError] from the policy file of the command; never the
    [KeyError] of a lookup in the store. *)
Definition allowed (c : command) (e : exn) : Prop :=
  match e, c with
  | CommandFailed _, (CreateVpc _ _ _ | AddSubnet _ _ _ _ | PeerVpcs _ _
                      | ApplyFirewall _ _ _) => True
  | (ValueError | IndexError), (CreateVpc _ _ _ | AddSubnet _ _ _ _) => True
  | PolicyLoadError path, ApplyFirewall _ _ policy => path = policy
  | _, _ => False
  end.

(** A computation that, started in a store satisfying [I], raises only
    exceptions in [E]. *)
Definition raises_in {host A} (I : State -> Prop) (E : exn -> Prop) (c : M host A)
  : Prop :=
  forall m e, I (state m) -> fst (c m) = Raise e -> E e.

(* ===================================================================== *)
(** * Properties *)
(* ===================================================================== *)

(** ** The library models on known values *)

Example md5_empty : MD5.hexdigest "" = "d41d8cd98f00b204e9800998ecf8427e".
Proof. vm_compute. reflexivity. Qed.

Example md5_abc : MD5.hexdigest "abc" = "900150983cd24fb0d6963f7d28e17f72".
Proof. vm_compute. reflexivity. Qed.

Example md5_two_blocks :
  MD5.hexdigest
    "12345678901234567890123456789012345678901234567890123456789012345678901234567890"
  = "57edf4a22be3c955ac49da2e2107b67a".
Proof. vm_compute. reflexivity. Qed.

Example str_int_examples :
  PyStr.str_int 0 = "0" /\ PyStr.str_int 24 = "24" /\ PyStr.str_int 255 = "255" /\
  PyStr.str_int (-17) = "-17" /\ PyStr.str_int 1000 = "1000".
Proof. vm_compute. repeat split. Qed.

Example split_examples :
  PyStr.split "/" "10.0.1.0/24" = ["10.0.1.0"; "24"] /\
  PyStr.split "." "10.0.1.0" = ["10"; "0"; "1"; "0"] /\
  PyStr.split "/" "" = [""] /\ PyStr.split "/" "a//" = ["a"; ""; ""].
Proof. vm_compute. repeat split. Qed.

Example ipv4_network_examples :
  IPAddr.IPv4Network "10.0.1.0/24" = inr (IPAddr.mkNetwork IPAddr.V4 167772416 24) /\
  IPAddr.IPv4Network "10.0.1.0/255.255.255.0" = inr (IPAddr.mkNetwork IPAddr.V4 167772416 24) /\
  IPAddr.IPv4Network "10.0.1.0/0.0.0.255" = inr (IPAddr.mkNetwork IPAddr.V4 167772416 24) /\
  IPAddr.IPv4Network "10.0.1.0/024" = inr (IPAddr.mkNetwork IPAddr.V4 167772416 24) /\
  IPAddr.IPv4Network "10.0.1.7" = inr (IPAddr.mkNetwork IPAddr.V4 167772423 32) /\
  IPAddr.IPv4Network "0.0.0.0/0" = inr (IPAddr.mkNetwork IPAddr.V4 0 0) /\
  IPAddr.IPv4Network "0.0.0.0/0.0.0.0" = inr (IPAddr.mkNetwork IPAddr.V4 0 0) /\
  IPAddr.IPv4Network "10.0.1.1/24" = inl IPAddr.HostBitsSet /\
  IPAddr.IPv4Network "10.0.1.0/33" = inl IPAddr.NetmaskValueError /\
  IPAddr.IPv4Network "10.0.1.0/255.0.255.0" = inl IPAddr.NetmaskValueError /\
  IPAddr.IPv4Network "10.0.1.0/" = inl IPAddr.NetmaskValueError /\
  IPAddr.IPv4Network "10.0.01.0/24" = inl IPAddr.AddressValueError /\
  IPAddr.IPv4Network "10.0.256.0/24" = inl IPAddr.AddressValueError /\
  IPAddr.IPv4Network "10.0.1/24" = inl IPAddr.AddressValueError /\
  IPAddr.IPv4Network "10.0.1.0/24/1" = inl IPAddr.AddressValueError /\
  IPAddr.IPv4Network "" = inl IPAddr.AddressValueError /\
  IPAddr.IPv4Network "bogus" = inl IPAddr.AddressValueError.
Proof. vm_compute. repeat split. Qed.

Example hosts_examples :
  map IPAddr.string_from_ip_int (IPAddr.hosts (IPAddr.mkNetwork IPAddr.V4 167772416 30))
    = ["10.0.1.1"; "10.0.1.2"] /\
  map IPAddr.string_from_ip_int (IPAddr.hosts (IPAddr.mkNetwork IPAddr.V4 167772416 31))
    = ["10.0.1.0"; "10.0.1.1"] /\
  map IPAddr.string_from_ip_int (IPAddr.hosts (IPAddr.mkNetwork IPAddr.V4 167772416 32))
    = ["10.0.1.0"] /\
  List.length (IPAddr.hosts (IPAddr.mkNetwork IPAddr.V4 167772416 24)) = 254%nat /\
  IPAddr.hosts (IPAddr.mkNetwork IPAddr.V6 0 126) = [1; 2; 3] /\
  IPAddr.hosts (IPAddr.mkNetwork IPAddr.V6 0 127) = [0; 1] /\
  IPAddr.hosts (IPAddr.mkNetwork IPAddr.V6 0 128) = [0].
Proof. vm_compute. repeat split. Qed.

(** ** Lists and dictionaries *)

Lemma directives_app (l1 l2 : list event) :
  directives (l1 ++ l2) = (directives l1 ++ directives l2)%list.
Proof. apply flat_map_app. Qed.

Lemma directives_prints (l : list event) :
  Forall is_print l -> directives l = [].
Proof.
  induction 1 as [| x l Hx _ IH]; [reflexivity |].
  destruct x; simpl in *; try contradiction. exact IH.
Qed.

Lemma saves_app (l1 l2 : list event) :
  saves (l1 ++ l2) = (saves l1 ++ saves l2)%list.
Proof. apply flat_map_app. Qed.

Lemma no_failed_app (l1 l2 : list event) :
  no_failed l1 -> no_failed l2 -> no_failed (l1 ++ l2).
Proof. intros H1 H2. apply Forall_app. split; assumption. Qed.

Lemma abort_shape_app {A} (r : result A) (l1 l2 : list event) :
  no_failed l1 -> abort_shape r l2 -> abort_shape r (l1 ++ l2).
Proof.
  intros H1 H2. destruct r as [a | e]; simpl in *.
  - apply no_failed_app; assumption.
  - destruct e; try (apply no_failed_app; assumption).
    destruct H2 as (pre & rc & tail & -> & Hrc & Hpre & Htail).
    exists (l1 ++ pre)%list, rc, tail. rewrite <- app_assoc.
    repeat split; try assumption. apply no_failed_app; assumption.
Qed.

(** A failed checked run occurs at one place only. *)
Lemma failed_position (pre post pre' post' : list event) (x x' : event) :
  (pre ++ x :: post = pre' ++ x' :: post')%list ->
  failed x = true -> no_failed pre' -> Forall is_print post' ->
  pre = pre' /\ x = x' /\ post = post'.
Proof.
  revert pre'. induction pre as [| a pre IH]; intros pre' Heq Hx Hpre' Hpost'.
  - destruct pre' as [| b pre']; simpl in Heq.
    + inversion Heq. auto.
    + inversion Heq; subst. inversion Hpre'; subst. congruence.
  - destruct pre' as [| b pre']; simpl in Heq.
    + inversion Heq; subst. exfalso.
      assert (Hin : In x (pre ++ x :: post)) by (apply in_elt).
      rewrite Forall_forall in Hpost'. apply Hpost' in Hin.
      destruct x as [| c [|] rc |]; simpl in *; try discriminate; contradiction.
    + inversion Heq; subst. inversion Hpre'; subst.
      destruct (IH pre' H1 Hx H3 Hpost') as (-> & -> & ->). auto.
Qed.

Lemma mem_get {V} (k : string) (d : Dict.t V) :
  Dict.mem k d = true <-> exists v, Dict.get k d = Some v.
Proof.
  unfold Dict.mem. destruct (Dict.get k d) as [v |].
  - split; eauto.
  - split; [discriminate | intros [v Hv]; discriminate].
Qed.

Lemma mem_del {V} (k : string) (d : Dict.t V) :
  Dict.mem k (Dict.del k d) = false.
Proof.
  unfold Dict.mem. induction d as [| [k' v'] d IH]; simpl.
  - reflexivity.
  - destruct (String.eqb k k') eqn:E; simpl.
    + exact IH.
    + rewrite E. exact IH.
Qed.

Lemma get_del_other {V} (k k' : string) (d : Dict.t V) :
  k <> k' -> Dict.get k' (Dict.del k d) = Dict.get k' d.
Proof.
  intros Hne. induction d as [| [k0 v0] d IH]; simpl.
  - reflexivity.
  - destruct (String.eqb k k0) eqn:E.
    + apply String.eqb_eq in E. subst k0.
      destruct (String.eqb k' k) eqn:E'.
      * apply String.eqb_eq in E'. congruence.
      * exact IH.
    + simpl. destruct (String.eqb k' k0); [reflexivity | exact IH].
Qed.

Lemma get_set_same {V} (k : string) (v : V) (d : Dict.t V) :
  Dict.get k (Dict.set k v d) = Some v.
Proof.
  induction d as [| [k' v'] d IH]; simpl.
  - rewrite String.eqb_refl. reflexivity.
  - destruct (String.eqb k k') eqn:E; simpl.
    + rewrite String.eqb_refl. reflexivity.
    + rewrite E. exact IH.
Qed.

(** ** The monad and [_run_cmd] *)

Section MonadFacts.

Variable host : Host.

Implicit Types m : Machine host.

(** [_run_cmd] in one equation. *)
Lemma run_cmd_eq (cmd : string) (check capture : bool) m :
  _run_cmd host cmd check capture m =
    let r := fst (subprocess_run host cmd (kern m)) in
    let k' := snd (subprocess_run host cmd (kern m)) in
    let ran := [Print ("[CMD] " ++ cmd); Run cmd check (returncode r)] in
    if check && negb (returncode r =? 0) then
      (Raise (CommandFailed cmd),
       mkMachine host (state m) (disk m) k'
         (trace m ++ ran ++ if capture then [Print ("[ERROR] " ++ stderr r)] else []))
    else
      (Ok (if capture then Some (PyStr.strip (stdout r)) else None),
       mkMachine host (state m) (disk m) k' (trace m ++ ran)).
Proof.
  unfold _run_cmd, bind, print, raise, ret, log. simpl.
  destruct (subprocess_run host cmd (kern m)) as [r k']. simpl.
  destruct capture, (check && negb (returncode r =? 0)); simpl;
    repeat rewrite <- app_assoc; reflexivity.
Qed.

Lemma bind_get_state {B} (k : State -> M host B) m :
  bind host (get_state host) k m = k (state m) m.
Proof. reflexivity. Qed.

Lemma bind_lookup {V B} (key : string) (d : Dict.t V) (v : V)
      (k : V -> M host B) m :
  Dict.get key d = Some v -> bind host (lookup host key d) k m = k v m.
Proof. intros H. unfold bind, lookup. rewrite H. reflexivity. Qed.

Lemma bind_print {B} (line : string) (k : unit -> M host B) m :
  bind host (print host line) k m = k tt (log host (Print line) m).
Proof. reflexivity. Qed.

Lemma get_mem {V} (key : string) (d : Dict.t V) (v : V) :
  Dict.get key d = Some v -> Dict.mem key d = true.
Proof. intros H. unfold Dict.mem. rewrite H. reflexivity. Qed.

Lemma quiet_ret {A} (a : A) : quiet (ret host a).
Proof.
  intros m. exists []. simpl. rewrite app_nil_r.
  repeat split. constructor.
Qed.

Lemma quiet_lift {A} (r : result A) :
  (forall c, r <> Raise (CommandFailed c)) -> quiet (lift host r).
Proof.
  intros Hr m. exists []. simpl. rewrite app_nil_r. repeat split.
  destruct r as [a | e]; simpl; [constructor |].
  destruct e; try constructor. exfalso. eapply Hr. reflexivity.
Qed.

Lemma quiet_get_state : quiet (get_state host).
Proof.
  intros m. exists []. simpl. rewrite app_nil_r. repeat split. constructor.
Qed.

Lemma quiet_print (line : string) : quiet (print host line).
Proof.
  intros m. exists [Print line]. simpl. repeat split.
  repeat constructor.
Qed.

Lemma quiet_lookup {V} (k : string) (d : Dict.t V) : quiet (lookup host k d).
Proof.
  unfold lookup. destruct (Dict.get k d).
  - apply quiet_ret.
  - intros m. exists []. simpl. rewrite app_nil_r. repeat split. constructor.
Qed.

Lemma quiet_run_cmd (cmd : string) (check capture : bool) :
  quiet (_run_cmd host cmd check capture).
Proof.
  intros m. rewrite run_cmd_eq. cbv zeta.
  set (r := fst (subprocess_run host cmd (kern m))).
  destruct (check && negb (returncode r =? 0)) eqn:E; simpl.
  - apply andb_prop in E. destruct E as [-> E].
    eexists. split; [reflexivity |]. repeat split.
    + destruct capture; reflexivity.
    + exists [Print ("[CMD] " ++ cmd)], (returncode r),
             (if capture then [Print ("[ERROR] " ++ stderr r)] else []).
      repeat split.
      * intros H0. rewrite H0 in E. discriminate.
      * repeat constructor.
      * destruct capture; repeat constructor.
  - eexists. split; [reflexivity |]. repeat split.
    repeat constructor. simpl. destruct check; [| reflexivity].
    simpl in E. exact E.
Qed.

Lemma quiet_bind {A B} (c : M host A) (k : A -> M host B) :
  quiet c -> (forall a, quiet (k a)) -> quiet (bind host c k).
Proof.
  intros Hc Hk m. unfold bind.
  destruct (Hc m) as (evs1 & Ht1 & Hs1 & Hd1 & Hv1 & Ha1).
  destruct (c m) as [[a | e] m1]; simpl in *.
  - destruct (Hk a m1) as (evs2 & Ht2 & Hs2 & Hd2 & Hv2 & Ha2).
    exists (evs1 ++ evs2)%list.
    rewrite Ht2, Ht1, Hs2, Hs1, Hd2, Hd1, saves_app, Hv1, Hv2, app_assoc.
    repeat split. apply abort_shape_app; assumption.
  - exists evs1. repeat split; assumption.
Qed.

Lemma quiet_for_each {A} (l : list A) (body : A -> M host unit) :
  (forall x, quiet (body x)) -> quiet (for_each host l body).
Proof.
  intros Hb. induction l as [| x l IH]; simpl.
  - apply quiet_ret.
  - apply quiet_bind; [apply Hb | intros _; exact IH].
Qed.

Lemma safe_of_quiet {A} (c : M host A) : quiet c -> safe c.
Proof.
  intros Hc m. destruct (Hc m) as (evs & Ht & Hs & Hd & Hv & Ha).
  exists evs. repeat split; assumption.
Qed.

Lemma safe_bind {A B} (c : M host A) (k : A -> M host B) :
  quiet c -> (forall a, safe (k a)) -> safe (bind host c k).
Proof.
  intros Hc Hk m. unfold bind.
  destruct (Hc m) as (evs1 & Ht1 & Hs1 & Hd1 & Hv1 & Ha1).
  destruct (c m) as [[a | e] m1]; simpl in *.
  - destruct (Hk a m1) as (evs2 & Ht2 & Ha2 & Hr2).
    exists (evs1 ++ evs2)%list. rewrite Ht2, Ht1, app_assoc.
    split; [reflexivity |]. split; [apply abort_shape_app; assumption |].
    intros e He. destruct (Hr2 e He) as (Hs2 & Hd2 & Hv2).
    rewrite Hs2, Hs1, Hd2, Hd1, saves_app, Hv1, Hv2. repeat split.
  - exists evs1. repeat split; assumption.
Qed.

(** The commit at the end of a mutating operation never raises. *)
Lemma safe_commit (f : State -> State) (line : string) :
  safe (bind host (modify_state host f)
          (fun _ => bind host (_save_state host) (fun _ => print host line))).
Proof.
  intros m. exists [Save (f (state m)); Print line].
  unfold bind, modify_state, _save_state, print, log. simpl.
  rewrite <- app_assoc. split; [reflexivity |].
  split; [repeat constructor | discriminate].
Qed.

End MonadFacts.

(** ** The address planner raises only [ValueError] and [IndexError] *)

Lemma ip_network_error (host : Host) (address : string) (e : exn) :
  ip_network host address = Raise e -> e = ValueError.
Proof.
  unfold ip_network.
  destruct (IPAddr.IPv4Network address) as [[| |] | n];
    try destruct (IPv6Network host address); congruence.
Qed.

Lemma index_error {A} (l : list A) (i : nat) (e : exn) :
  index l i = Raise e -> e = IndexError.
Proof. unfold index. destruct (nth_error l i); congruence. Qed.

Lemma plan_bridge_error (host : Host) (cidr : string) (e : exn) :
  plan_bridge host cidr = Raise e -> e = ValueError \/ e = IndexError.
Proof.
  unfold plan_bridge.
  destruct (ip_network host cidr) as [n | e0] eqn:En.
  - destruct (index (IPAddr.hosts n) 0) as [h0 | e1] eqn:E0; [discriminate |].
    intros H. inversion H; subst. right. eapply index_error; eassumption.
  - intros H. inversion H; subst. left. eapply ip_network_error; eassumption.
Qed.

Lemma plan_subnet_error (host : Host) (cidr : string) (e : exn) :
  plan_subnet host cidr = Raise e -> e = ValueError \/ e = IndexError.
Proof.
  unfold plan_subnet.
  destruct (ip_network host cidr) as [n | e0] eqn:En.
  - destruct (index (IPAddr.hosts n) 0) as [h0 | e1] eqn:E0.
    + destruct (index (IPAddr.hosts n) 1) as [h1 | e2] eqn:E1; [discriminate |].
      intros H. inversion H; subst. right. eapply index_error; eassumption.
    + intros H. inversion H; subst. right. eapply index_error; eassumption.
  - intros H. inversion H; subst. left. eapply ip_network_error; eassumption.
Qed.

(** ** Every operation is safe *)

Section Safety.

Variable host : Host.

Lemma quiet_plan_bridge (cidr : string) : quiet (lift host (plan_bridge host cidr)).
Proof.
  apply quiet_lift. intros c H.
  destruct (plan_bridge_error _ _ _ H); discriminate.
Qed.

Lemma quiet_plan_subnet (cidr : string) : quiet (lift host (plan_subnet host cidr)).
Proof.
  apply quiet_lift. intros c H.
  destruct (plan_subnet_error _ _ _ H); discriminate.
Qed.

Lemma quiet_raise_policy {A} (path : string) :
  quiet (@raise host A (PolicyLoadError path)).
Proof.
  intros m. exists []. simpl. rewrite app_nil_r. repeat split. constructor.
Qed.

Ltac quiet_step :=
  match goal with
  | |- quiet (bind _ _ _) => apply quiet_bind; [ | intros ]
  | |- quiet (_run_cmd _ _ _ _) => apply quiet_run_cmd
  | |- quiet (print _ _) => apply quiet_print
  | |- quiet (get_state _) => apply quiet_get_state
  | |- quiet (lookup _ _ _) => apply quiet_lookup
  | |- quiet (ret _ _) => apply quiet_ret
  | |- quiet (raise _ (PolicyLoadError _)) => apply quiet_raise_policy
  | |- quiet (lift _ (plan_bridge _ _)) => apply quiet_plan_bridge
  | |- quiet (lift _ (plan_subnet _ _)) => apply quiet_plan_subnet
  | |- quiet (for_each _ _ _) => apply quiet_for_each; intros
  | |- quiet (_setup_nat _ _ _) => unfold _setup_nat
  | |- quiet (if ?b then _ else _) => destruct b
  | |- quiet (match ?x with _ => _ end) => destruct x
  end.

Ltac safe_step :=
  match goal with
  | |- safe (bind _ (modify_state _ _) _) => apply safe_commit
  | |- safe (bind _ _ _) => apply safe_bind; [ solve [repeat quiet_step] | intros ]
  | |- safe (if ?b then _ else _) => destruct b
  | |- safe (match ?x with _ => _ end) => destruct x
  | |- safe _ => apply safe_of_quiet; solve [repeat quiet_step]
  end.

Lemma safe_create_vpc (vpc_name cidr_block internet_interface : string) :
  safe (create_vpc host vpc_name cidr_block internet_interface).
Proof. unfold create_vpc. cbv zeta. repeat safe_step. Qed.

Lemma safe_add_subnet (vpc_name subnet_name subnet_cidr subnet_type : string) :
  safe (add_subnet host vpc_name subnet_name subnet_cidr subnet_type).
Proof. unfold add_subnet. cbv zeta. repeat safe_step. Qed.

Lemma quiet_peer_vpcs (vpc1_name vpc2_name : string) :
  quiet (peer_vpcs host vpc1_name vpc2_name).
Proof. unfold peer_vpcs. cbv zeta. repeat quiet_step. Qed.

Lemma quiet_apply_firewall (vpc_name subnet_name policy_file : string) :
  quiet (apply_firewall host vpc_name subnet_name policy_file).
Proof. unfold apply_firewall. cbv zeta. repeat quiet_step. Qed.

Lemma quiet_list_vpcs : quiet (list_vpcs host).
Proof. unfold list_vpcs. repeat quiet_step. Qed.

Lemma safe_delete_vpc (vpc_name : string) : safe (delete_vpc host vpc_name).
Proof. unfold delete_vpc. repeat safe_step. Qed.

Lemma safe_dispatch (c : command) : safe (dispatch host c).
Proof.
  destruct c; simpl.
  - apply safe_create_vpc.
  - apply safe_add_subnet.
  - apply safe_of_quiet, quiet_peer_vpcs.
  - apply safe_of_quiet, quiet_apply_firewall.
  - apply safe_of_quiet, quiet_list_vpcs.
  - apply safe_delete_vpc.
Qed.

End Safety.

(** ** Abort on a failed directive *)

(** C3.  In any operation (in particular [create_vpc] and [add_subnet]),
    when a directive run in abort-on-error mode returns a non-zero status,
    the operation raises [Command failed] for that directive, no directive
    follows it, nothing is written to the state file, and the store, in
    memory and on disk, is what it was before the operation. *)
Theorem failed_directive_aborts_without_commit
    (host : Host) (c : command) (m : Machine host)
    (pre post : list event) (cmd : string) (rc : Z) :
  trace (snd (dispatch host c m)) = (trace m ++ pre ++ Run cmd true rc :: post)%list ->
  rc <> 0 ->
  fst (dispatch host c m) = Raise (CommandFailed cmd) /\
  directives post = [] /\
  saves (pre ++ Run cmd true rc :: post) = [] /\
  disk (snd (dispatch host c m)) = disk m /\
  state (snd (dispatch host c m)) = state m.
Proof.
  intros Htrace Hrc.
  destruct (safe_dispatch host c m) as (evs & Ht & Hshape & Hraise).
  rewrite Ht in Htrace. apply app_inv_head in Htrace. subst evs.
  assert (Hfailed : failed (Run cmd true rc) = true).
  { simpl. apply negb_true_iff, Z.eqb_neq. exact Hrc. }
  assert (Hnot : ~ no_failed (pre ++ Run cmd true rc :: post)).
  { intros Hnf. unfold no_failed in Hnf. rewrite Forall_forall in Hnf.
    specialize (Hnf (Run cmd true rc) (in_elt _ _ _)). congruence. }
  destruct (fst (dispatch host c m)) as [a | e] eqn:Er; simpl in Hshape.
  - contradiction.
  - destruct e; try contradiction.
    destruct Hshape as (pre' & rc' & tail & Heq & Hrc' & Hpre' & Htail).
    destruct (failed_position _ _ _ _ _ _ Heq Hfailed Hpre' Htail)
      as (-> & Hx & ->).
    inversion Hx; subst.
    destruct (Hraise _ eq_refl) as (Hs & Hd & Hv).
    repeat split; try assumption.
    clear - Htail. induction Htail as [| x l Hx _ IH]; simpl.
    + reflexivity.
    + destruct x; simpl in *; try contradiction. exact IH.
Qed.

(** The second directive of [create-vpc app1 10.0.0.0/16] fails. *)
Lemma failed_directive_aborts_without_commit_witness :
  let host := sim_host (String.eqb "ip link set br-app1 up") no_files in
  let m := boot host [] None in
  let c := CreateVpc "app1" "10.0.0.0/16" "eth0" in
  fst (dispatch host c m) = Raise (CommandFailed "ip link set br-app1 up") /\
  directives [Print "[ERROR] failed"] = [] /\
  disk (snd (dispatch host c m)) = None /\
  state (snd (dispatch host c m)) = mkState [].
Proof.
  intros host m c.
  destruct (failed_directive_aborts_without_commit host c m
              [ Print "[INFO] Creating VPC: app1 with CIDR: 10.0.0.0/16";
                Print "[CMD] ip link add br-app1 type bridge";
                Run "ip link add br-app1 type bridge" true 0;
                Print "[CMD] ip link set br-app1 up" ]
              [ Print "[ERROR] failed" ]
              "ip link set br-app1 up" 1)
    as (Hr & Hpost & _ & Hd & Hs).
  - vm_compute. reflexivity.
  - discriminate.
  - repeat split; assumption.
Defined.

(** ** Precondition failures *)

(** C6.  When the guard of an operation fails ([create-vpc] on a name
    already in the store; [add-subnet], [peer], [apply-firewall] or
    [delete-vpc] on a VPC, or subnet, that is not in the store), the
    operation prints one [[ERROR]] line and returns: no directive is run,
    nothing is saved, and memory, disk and kernel are untouched. *)
Theorem precondition_failure_has_no_effect
    (host : Host) (c : command) (m : Machine host) :
  precondition_fails (state m) c = true ->
  exists msg,
    dispatch host c m = (Ok tt, log host (Print ("[ERROR] " ++ msg)) m) /\
    directives [Print ("[ERROR] " ++ msg)] = [] /\
    saves [Print ("[ERROR] " ++ msg)] = [] /\
    state (log host (Print ("[ERROR] " ++ msg)) m) = state m /\
    disk (log host (Print ("[ERROR] " ++ msg)) m) = disk m /\
    kern (log host (Print ("[ERROR] " ++ msg)) m) = kern m.
Proof.
  intros H. destruct c as [name cidr iface | vpc name cidr type | vpc1 vpc2
                          | vpc subnet policy | | name]; simpl in H.
  - exists ("VPC " ++ name ++ " already exists").
    unfold dispatch, create_vpc, bind, get_state. rewrite H.
    repeat split.
  - exists ("VPC " ++ vpc ++ " not found").
    unfold dispatch, add_subnet, bind, get_state. rewrite H.
    repeat split.
  - exists "One or both VPCs not found".
    unfold dispatch, peer_vpcs, bind, get_state. rewrite H.
    repeat split.
  - unfold dispatch, apply_firewall, bind, get_state, lookup, Dict.mem.
    destruct (Dict.get vpc (vpcs (state m))) as [v |] eqn:Ev; simpl.
    + exists ("Subnet " ++ subnet ++ " not found").
      unfold Dict.mem in H. unfold ret.
      destruct (Dict.get subnet (VPC.subnets v)); [discriminate |].
      repeat split.
    + exists ("VPC " ++ vpc ++ " not found"). repeat split.
  - discriminate.
  - exists ("VPC " ++ name ++ " not found").
    unfold dispatch, delete_vpc, bind, get_state. rewrite H.
    repeat split.
Qed.

(** [apply-firewall app1 db policy.json] on a store whose VPC [app1] has no
    subnet [db]. *)
Lemma precondition_failure_has_no_effect_witness :
  let host := sim_host all_succeed no_files in
  let m := mkMachine host app1_store (Some app1_store) [] [] in
  exists msg,
    dispatch host (ApplyFirewall "app1" "db" "policy.json") m
      = (Ok tt, log host (Print ("[ERROR] " ++ msg)) m).
Proof.
  intros host m.
  destruct (precondition_failure_has_no_effect host
              (ApplyFirewall "app1" "db" "policy.json") m eq_refl)
    as (msg & H & _).
  exists msg. exact H.
Defined.

(** ** Firewall policies without an ingress list *)

(** C10.  On an existing VPC and subnet, a policy document without the key
    [ingress] makes [apply_firewall] run no directive and finish normally,
    after printing its two progress lines. *)
Theorem apply_firewall_without_ingress
    (host : Host) (vpc_name subnet_name policy_file : string)
    (m : Machine host) (vpc : VPC.t) (subnet : Subnet.t) (policy : Policy) :
  Dict.get vpc_name (vpcs (state m)) = Some vpc ->
  Dict.get subnet_name (VPC.subnets vpc) = Some subnet ->
  load_json host policy_file = Some policy ->
  ingress policy = None ->
  apply_firewall host vpc_name subnet_name policy_file m
    = (Ok tt,
       mkMachine host (state m) (disk m) (kern m)
         (trace m ++ [ Print ("[INFO] Applying firewall rules to " ++ subnet_name);
                       Print "[SUCCESS] Firewall rules applied" ])) /\
  directives [ Print ("[INFO] Applying firewall rules to " ++ subnet_name);
               Print "[SUCCESS] Firewall rules applied" ] = [].
Proof.
  intros Hvpc Hsub Hload Hing.
  unfold apply_firewall, bind, get_state, lookup, Dict.mem, ingress_rules.
  rewrite Hvpc. simpl. rewrite Hsub. simpl. rewrite Hload. simpl.
  rewrite Hing. simpl. unfold print, log. simpl. rewrite <- app_assoc.
  split; reflexivity.
Qed.

Lemma apply_firewall_without_ingress_witness :
  let host := sim_host all_fail empty_policy_files in
  let m := mkMachine host app1_store (Some app1_store) [] [] in
  fst (apply_firewall host "app1" "web" "policy.json" m) = Ok tt /\
  directives (trace (snd (apply_firewall host "app1" "web" "policy.json" m))) = [].
Proof.
  intros host m.
  destruct (apply_firewall_without_ingress host "app1" "web" "policy.json" m
              app1_vpc web_subnet (mkPolicy None) eq_refl eq_refl eq_refl eq_refl)
    as [H _].
  rewrite H. split; reflexivity.
Defined.

(** ** Computations that cannot raise *)

Section Totality.

Variable host : Host.

Lemma always_runs_ret {A} (a : A) : always_runs (ret host a) [].
Proof.
  intros m. exists a, []. simpl. rewrite app_nil_r. repeat split.
Qed.

Lemma always_runs_print (line : string) : always_runs (print host line) [].
Proof. intros m. exists tt, [Print line]. simpl. repeat split. Qed.

Lemma always_runs_unchecked (cmd : string) (capture : bool) :
  always_runs (_run_cmd host cmd false capture) [(cmd, false)].
Proof.
  intros m. rewrite run_cmd_eq. cbv zeta. simpl.
  eexists _, _. repeat split.
Qed.

Lemma always_runs_bind {A B} (c : M host A) (k : A -> M host B)
      (ds1 ds2 : list (string * bool)) :
  always_runs c ds1 -> (forall a, always_runs (k a) ds2) ->
  always_runs (bind host c k) (ds1 ++ ds2).
Proof.
  intros Hc Hk m. unfold bind.
  destruct (Hc m) as (a & evs1 & Hr1 & Ht1 & Hs1 & Hd1 & Hv1 & Hx1).
  destruct (c m) as [r m1]. simpl in *. subst r.
  destruct (Hk a m1) as (b & evs2 & Hr2 & Ht2 & Hs2 & Hd2 & Hv2 & Hx2).
  exists b, (evs1 ++ evs2)%list.
  rewrite Hr2, Ht2, Ht1, Hs2, Hs1, Hd2, Hd1, saves_app, Hv1, Hv2,
    directives_app, Hx1, Hx2, app_assoc.
  repeat split.
Qed.

Lemma always_runs_for_each {A} (l : list A) (body : A -> M host unit)
      (f : A -> list (string * bool)) :
  (forall x, always_runs (body x) (f x)) ->
  always_runs (for_each host l body) (flat_map f l).
Proof.
  intros Hb. induction l as [| x l IH]; simpl.
  - apply always_runs_ret.
  - apply always_runs_bind; [apply Hb | intros _; exact IH].
Qed.

(** Running such a computation first amounts to running the rest from a
    machine that differs only by the kernel and the trace. *)
Lemma bind_always_runs {A B} (c : M host A) (k : A -> M host B)
      (ds : list (string * bool)) (m : Machine host) :
  always_runs c ds ->
  exists a m1 evs,
    bind host c k m = k a m1 /\
    trace m1 = (trace m ++ evs)%list /\ state m1 = state m /\
    disk m1 = disk m /\ saves evs = [] /\ directives evs = ds.
Proof.
  intros Hc. unfold bind.
  destruct (Hc m) as (a & evs & Hr & Ht & Hs & Hd & Hv & Hx).
  destruct (c m) as [r m1]. simpl in *. subst r.
  exists a, m1, evs. repeat split; assumption.
Qed.

(** The two loops of [delete_vpc]. *)
Lemma delete_subnets_loop (vpc : VPC.t) :
  always_runs
    (for_each host (Dict.items (VPC.subnets vpc)) (fun '(subnet_name, subnet) =>
       bind host (print host ("  - Deleting subnet " ++ subnet_name)) (fun _ =>
       bind host (_run_cmd host ("ip netns del " ++ Subnet.namespace subnet)
                           false true) (fun _ =>
       bind host (_run_cmd host ("ip link del " ++ Subnet.veth_host subnet)
                           false true) (fun _ =>
       ret host tt)))))
    (flat_map delete_subnet_directives (map snd (Dict.items (VPC.subnets vpc)))).
Proof.
  rewrite flat_map_concat_map, map_map, <- flat_map_concat_map.
  apply always_runs_for_each. intros [subnet_name subnet].
  change (delete_subnet_directives (snd (subnet_name, subnet)))
    with ([] ++ [(("ip netns del " ++ Subnet.namespace subnet)%string, false)]
             ++ [(("ip link del " ++ Subnet.veth_host subnet)%string, false)]
             ++ [])%list.
  apply always_runs_bind; [apply always_runs_print | intros _].
  apply always_runs_bind; [apply always_runs_unchecked | intros _].
  apply always_runs_bind; [apply always_runs_unchecked | intros _].
  apply always_runs_ret.
Qed.

Lemma delete_nat_loop (vpc : VPC.t) :
  always_runs
    (for_each host (Dict.items (VPC.subnets vpc)) (fun '(subnet_name, subnet) =>
       if String.eqb (Subnet.type subnet) "public" then
         bind host
           (_run_cmd host ("iptables -t nat -D POSTROUTING -s " ++ Subnet.cidr subnet
                             ++ " -o " ++ VPC.internet_interface vpc
                             ++ " -j MASQUERADE") false true)
           (fun _ => ret host tt)
       else ret host tt))
    (flat_map (delete_nat_directives vpc) (map snd (Dict.items (VPC.subnets vpc)))).
Proof.
  rewrite flat_map_concat_map, map_map, <- flat_map_concat_map.
  apply always_runs_for_each. intros [subnet_name subnet].
  unfold delete_nat_directives. simpl.
  destruct (String.eqb (Subnet.type subnet) "public").
  - rewrite <- (app_nil_r [_]).
    apply always_runs_bind; [apply always_runs_unchecked | intros _].
    apply always_runs_ret.
  - apply always_runs_ret.
Qed.

End Totality.

(** ** delete_vpc *)

(** C7.  For a VPC in the store, [delete_vpc] cannot fail: whatever the
    outcome of its directives, it runs the whole teardown sequence (all of
    it with errors ignored), and only then removes the record, writes the
    store to disk and reports success. *)
Theorem delete_vpc_always_removes
    (host : Host) (vpc_name : string) (m : Machine host) (vpc : VPC.t) :
  Dict.get vpc_name (vpcs (state m)) = Some vpc ->
  let r := delete_vpc host vpc_name m in
  let st' := mkState (Dict.del vpc_name (vpcs (state m))) in
  fst r = Ok tt /\
  state (snd r) = st' /\
  disk (snd r) = Some st' /\
  Dict.mem vpc_name (vpcs st') = false /\
  exists evs,
    trace (snd r)
      = (trace m ++ evs
           ++ [Save st'; Print ("[SUCCESS] VPC " ++ vpc_name ++ " deleted")])%list /\
    saves evs = [] /\
    directives evs = delete_directives vpc /\
    Forall (fun d => snd d = false) (delete_directives vpc).
Proof.
  intros Hvpc r st'. subst r.
  unfold delete_vpc.
  rewrite bind_get_state, (get_mem _ _ _ Hvpc).
  change (negb true) with false. cbv iota.
  rewrite (bind_lookup _ _ _ _ _ _ Hvpc), bind_print.
  set (m0 := log host _ m).
  match goal with
  | |- context [bind host ?c ?k m0] =>
      destruct (bind_always_runs host c k _ m0 (delete_subnets_loop host vpc))
        as (a1 & m1 & evs1 & -> & Ht1 & Hs1 & Hd1 & Hv1 & Hx1)
  end.
  match goal with
  | |- context [bind host ?c ?k m1] =>
      destruct (bind_always_runs host c k _ m1 (delete_nat_loop host vpc))
        as (a2 & m2 & evs2 & -> & Ht2 & Hs2 & Hd2 & Hv2 & Hx2)
  end.
  match goal with
  | |- context [bind host ?c ?k m2] =>
      destruct (bind_always_runs host c k _ m2 (always_runs_unchecked host _ true))
        as (a3 & m3 & evs3 & -> & Ht3 & Hs3 & Hd3 & Hv3 & Hx3)
  end.
  match goal with
  | |- context [bind host ?c ?k m3] =>
      destruct (bind_always_runs host c k _ m3 (always_runs_unchecked host _ true))
        as (a4 & m4 & evs4 & -> & Ht4 & Hs4 & Hd4 & Hv4 & Hx4)
  end.
  match goal with
  | |- context [bind host ?c ?k m4] =>
      destruct (bind_always_runs host c k _ m4 (always_runs_unchecked host _ true))
        as (a5 & m5 & evs5 & -> & Ht5 & Hs5 & Hd5 & Hv5 & Hx5)
  end.
  unfold bind, modify_state, _save_state, print, log. simpl.
  assert (Hst : state m5 = state m) by (subst m0; simpl in *; congruence).
  rewrite Hst. fold st'.
  repeat split.
  - apply mem_del.
  - exists (Print ("[INFO] Deleting VPC: " ++ vpc_name)
              :: evs1 ++ evs2 ++ evs3 ++ evs4 ++ evs5)%list.
    split; [| split; [| split]].
    + rewrite Ht5, Ht4, Ht3, Ht2, Ht1. subst m0. simpl.
      repeat rewrite <- app_assoc. reflexivity.
    + simpl. repeat rewrite saves_app. rewrite Hv1, Hv2, Hv3, Hv4, Hv5. reflexivity.
    + simpl. repeat rewrite directives_app. rewrite Hx1, Hx2, Hx3, Hx4, Hx5.
      reflexivity.
    + unfold delete_directives. repeat rewrite Forall_app. repeat split.
      * rewrite Forall_forall. intros d Hd. apply in_flat_map in Hd.
        destruct Hd as (s & _ & [<- | [<- | []]]); reflexivity.
      * rewrite Forall_forall. intros d Hd. apply in_flat_map in Hd.
        destruct Hd as (s & _ & Hd). unfold delete_nat_directives in Hd.
        destruct (String.eqb (Subnet.type s) "public");
          [destruct Hd as [<- | []]; reflexivity | destruct Hd].
      * repeat constructor.
Qed.

(** [delete-vpc app1] with every cleanup directive failing. *)
Lemma delete_vpc_always_removes_witness :
  let host := sim_host all_fail no_files in
  let m := mkMachine host app1_store (Some app1_store) [] [] in
  fst (delete_vpc host "app1" m) = Ok tt /\
  state (snd (delete_vpc host "app1" m)) = mkState [] /\
  disk (snd (delete_vpc host "app1" m)) = Some (mkState []).
Proof.
  intros host m.
  destruct (delete_vpc_always_removes host "app1" m app1_vpc eq_refl)
    as (Hr & Hs & Hd & _).
  repeat split; assumption.
Defined.

(** ** Sequences of directives *)

Lemma run_all_spec (host : Host) {B} (cmds : list (string * bool))
      (k : M host B) (m : Machine host) :
  (exists m1 evs,
      run_all cmds k m = k m1 /\
      state m1 = state m /\ disk m1 = disk m /\
      trace m1 = (trace m ++ evs)%list /\
      saves evs = [] /\ directives evs = cmds /\ no_failed evs)
  \/
  (exists m1 evs done cmd rest,
      run_all cmds k m = (Raise (CommandFailed cmd), m1) /\
      cmds = (done ++ (cmd, true) :: rest)%list /\
      state m1 = state m /\ disk m1 = disk m /\
      trace m1 = (trace m ++ evs)%list /\
      saves evs = [] /\ directives evs = (done ++ [(cmd, true)])%list).
Proof.
  revert m. induction cmds as [| [cmd check] cmds IH]; intros m.
  - left. exists m, []. simpl. rewrite app_nil_r. repeat split. constructor.
  - set (r := fst (subprocess_run host cmd (kern m))).
    set (k' := snd (subprocess_run host cmd (kern m))).
    set (ran := [Print ("[CMD] " ++ cmd); Run cmd check (returncode r)]).
    set (m1 := mkMachine host (state m) (disk m) k' (trace m ++ ran)).
    assert (Hstep :
      run_all ((cmd, check) :: cmds) k m =
        if check && negb (returncode r =? 0)
        then (Raise (CommandFailed cmd),
              mkMachine host (state m) (disk m) k'
                (trace m ++ ran ++ [Print ("[ERROR] " ++ stderr r)]))
        else run_all cmds k m1).
    { simpl. unfold bind at 1. rewrite run_cmd_eq. cbv zeta.
      fold r k' ran m1. destruct (check && negb (returncode r =? 0)); reflexivity. }
    rewrite Hstep. clear Hstep.
    destruct (check && negb (returncode r =? 0)) eqn:E.
    + right. apply andb_prop in E. destruct E as [-> E].
      eexists _, _, [], cmd, cmds. split; [reflexivity |].
      repeat split.
    + destruct (IH m1) as [(m2 & evs & Hrun & Hs & Hd & Ht & Hv & Hx & Hnf)
                          | (m2 & evs & done & c & rest & Hrun & Hc & Hs & Hd & Ht & Hv & Hx)].
      * left. exists m2, (ran ++ evs)%list.
        rewrite Hrun, Hs, Hd, Ht. subst m1. simpl. rewrite <- app_assoc. simpl.
        rewrite Hv, Hx. repeat split.
        constructor; [reflexivity |]. constructor; [| exact Hnf].
        simpl. destruct check; [exact E | reflexivity].
      * right.
        exists m2, (ran ++ evs)%list, ((cmd, check) :: done), c, rest.
        rewrite Hrun, Hs, Hd, Ht, Hc. subst m1. simpl. rewrite <- app_assoc. simpl.
        rewrite Hv, Hx. repeat split.
Qed.

(** ** Address planning inside the operations *)

Lemma prelude_length (st : State) (c : command) (host : Host) (e : exn) :
  planning_error host st c = Some e -> List.length (prelude st c) = 5%nat.
Proof.
  destruct c; simpl; try discriminate.
  - reflexivity.
  - unfold Dict.mem. destruct (Dict.get vpc (vpcs st)); [reflexivity | discriminate].
Qed.

Ltac fold_prelude host :=
  match goal with
  | |- context [bind host (_run_cmd host ?c1 ?f1 true) (fun _ =>
                bind host (_run_cmd host ?c2 ?f2 true) (fun _ =>
                bind host (_run_cmd host ?c3 ?f3 true) (fun _ =>
                bind host (_run_cmd host ?c4 ?f4 true) (fun _ =>
                bind host (_run_cmd host ?c5 ?f5 true) (fun _ => ?K))))) ?mm] =>
      change (bind host (_run_cmd host c1 f1 true) (fun _ =>
              bind host (_run_cmd host c2 f2 true) (fun _ =>
              bind host (_run_cmd host c3 f3 true) (fun _ =>
              bind host (_run_cmd host c4 f4 true) (fun _ =>
              bind host (_run_cmd host c5 f5 true) (fun _ => K))))) mm)
        with (run_all [(c1, f1); (c2, f2); (c3, f3); (c4, f4); (c5, f5)] K mm)
  end.

(** An operation whose block is rejected by the planner: the prelude is
    run first. *)
Lemma planning_error_run (host : Host) (c : command) (m : Machine host) (e : exn) :
  planning_error host (state m) c = Some e ->
  exists line K,
    dispatch host c m = run_all (prelude (state m) c) K (log host (Print line) m) /\
    forall m1, K m1 = (Raise e, m1).
Proof.
  intros H. destruct c as [name cidr iface | vpc name cidr type | | | |];
    simpl in H; try discriminate.
  - destruct (Dict.mem name (vpcs (state m))) eqn:Emem; [discriminate |].
    destruct (plan_bridge host cidr) as [p | e0] eqn:Ep; [discriminate |].
    inversion H; subst e0.
    unfold dispatch, create_vpc. rewrite bind_get_state, Emem. cbv iota zeta.
    rewrite bind_print. fold_prelude host.
    eexists _, _. split; [reflexivity |].
    intros m1. unfold bind, lift. rewrite Ep. reflexivity.
  - unfold Dict.mem in H.
    destruct (Dict.get vpc (vpcs (state m))) as [v |] eqn:Ev; [| discriminate].
    destruct (plan_subnet host cidr) as [p | e0] eqn:Ep; [discriminate |].
    inversion H; subst e0.
    unfold dispatch, add_subnet. rewrite bind_get_state, (get_mem _ _ _ Ev).
    change (negb true) with false. cbv iota zeta.
    rewrite (bind_lookup _ _ _ _ _ _ Ev), bind_print. fold_prelude host.
    eexists _, _. split.
    + unfold prelude. rewrite Ev. reflexivity.
    + intros m1. unfold bind, lift. rewrite Ep. reflexivity.
Qed.

Lemma planning_error_kind (host : Host) (st : State) (c : command) (e : exn) :
  planning_error host st c = Some e -> e = ValueError \/ e = IndexError.
Proof.
  destruct c as [name cidr iface | vpc name cidr type | | | |]; simpl;
    try discriminate.
  - destruct (Dict.mem name (vpcs st)); [discriminate |].
    destruct (plan_bridge host cidr) as [p | e0] eqn:Ep; [discriminate |].
    intros H. inversion H; subst. eapply plan_bridge_error; eassumption.
  - destruct (Dict.mem vpc (vpcs st)); [| discriminate].
    destruct (plan_subnet host cidr) as [p | e0] eqn:Ep; [discriminate |].
    intros H. inversion H; subst. eapply plan_subnet_error; eassumption.
Qed.

(** A checked run in a trace without failures returned zero. *)
Lemma no_failed_run (pre tail : list event) (c : string) (rc : Z) :
  no_failed (pre ++ Run c true rc :: tail) -> rc = 0.
Proof.
  unfold no_failed. intros H. apply Forall_app in H. destruct H as [_ H].
  inversion H as [| x l Hx _]; subst. simpl in Hx.
  apply negb_false_iff in Hx. apply Z.eqb_eq in Hx. exact Hx.
Qed.

(** The events of a safe computation have the shape of its result. *)
Lemma safe_abort_shape (host : Host) {A} (c : M host A) (m : Machine host)
      (evs : list event) :
  safe c ->
  trace (snd (c m)) = (trace m ++ evs)%list ->
  abort_shape (fst (c m)) evs.
Proof.
  intros Hs Ht. destruct (Hs m) as (evs' & Ht' & Hab & _).
  rewrite Ht in Ht'. apply app_inv_head in Ht'. subst evs'. exact Hab.
Qed.

(** Why the planner rejects a block: [ip_network] refuses it, or it has
    fewer hosts than the operation indexes. *)
Lemma planning_error_cause (host : Host) (st : State) (c : command) (e : exn) :
  planning_error host st c = Some e ->
  (e = ValueError /\ ip_network host (block_of c) = Raise ValueError)
  \/
  (e = IndexError /\
   exists net, ip_network host (block_of c) = Ok net /\
               (List.length (IPAddr.hosts net) < hosts_needed c)%nat).
Proof.
  destruct c as [name cidr iface | vpc name cidr type | | | |]; simpl;
    try discriminate.
  - destruct (Dict.mem name (vpcs st)); [discriminate |].
    unfold plan_bridge, index.
    destruct (ip_network host cidr) as [n | e0] eqn:En.
    + destruct (nth_error (IPAddr.hosts n) 0) eqn:E0; cbn [error_of];
        [discriminate |].
      intros H. injection H as <-. right. split; [reflexivity |].
      exists n. split; [reflexivity |]. apply nth_error_None in E0.
      cbn [hosts_needed]. lia.
    + simpl. intros H. injection H as <-.
      pose proof (ip_network_error _ _ _ En) as ->. left. split; reflexivity.
  - destruct (Dict.mem vpc (vpcs st)); [| discriminate].
    unfold plan_subnet, index.
    destruct (ip_network host cidr) as [n | e0] eqn:En.
    + destruct (nth_error (IPAddr.hosts n) 0) eqn:E0; cbn [error_of].
      * destruct (nth_error (IPAddr.hosts n) 1) eqn:E1; cbn [error_of];
          [discriminate |].
        intros H. injection H as <-. right. split; [reflexivity |].
        exists n. split; [reflexivity |]. apply nth_error_None in E1.
        cbn [hosts_needed]. lia.
      * intros H. injection H as <-. right. split; [reflexivity |].
        exists n. split; [reflexivity |]. apply nth_error_None in E0.
        cbn [hosts_needed]. lia.
    + simpl. intros H. injection H as <-.
      pose proof (ip_network_error _ _ _ En) as ->. left. split; reflexivity.
Qed.

(** The two ways such an operation ends, by the directives it ran. *)
Lemma invalid_block_run
    (host : Host) (c : command) (m : Machine host) (e : exn) :
  planning_error host (state m) c = Some e ->
  let r := dispatch host c m in
  (e = ValueError \/ e = IndexError) /\
  List.length (prelude (state m) c) = 5%nat /\
  state (snd r) = state m /\
  disk (snd r) = disk m /\
  exists evs,
    trace (snd r) = (trace m ++ evs)%list /\
    saves evs = [] /\
    ((fst r = Raise e /\ directives evs = prelude (state m) c)
     \/
     (exists done cmd rest,
         prelude (state m) c = (done ++ (cmd, true) :: rest)%list /\
         fst r = Raise (CommandFailed cmd) /\
         directives evs = (done ++ [(cmd, true)])%list)).
Proof.
  intros H r. subst r.
  split; [eapply planning_error_kind; eassumption |].
  split; [eapply prelude_length; eassumption |].
  destruct (planning_error_run host c m e H) as (line & K & -> & HK).
  destruct (run_all_spec host (prelude (state m) c) K (log host (Print line) m))
    as [(m1 & evs & -> & Hs & Hd & Ht & Hv & Hx & _)
       | (m1 & evs & done & cmd & rest & -> & Hc & Hs & Hd & Ht & Hv & Hx)].
  - rewrite HK. simpl. repeat split; try assumption.
    exists (Print line :: evs). rewrite Ht. simpl. rewrite <- app_assoc.
    repeat split; try assumption. left. split; [reflexivity | assumption].
  - simpl. repeat split; try assumption.
    exists (Print line :: evs). rewrite Ht. simpl. rewrite <- app_assoc.
    repeat split; try assumption. right. exists done, cmd, rest.
    repeat split; assumption.
Qed.

(** A block that [ip_network] refuses, or that has fewer hosts than the
    operation takes, is a planning error of the operation whose guard it
    passes. *)
Lemma planning_error_of_cause (host : Host) (st : State) (c : command) (e : exn) :
  precondition_fails st c = false ->
  hosts_needed c <> 0%nat ->
  ((e = ValueError /\ ip_network host (block_of c) = Raise ValueError)
   \/
   (e = IndexError /\
    exists net, ip_network host (block_of c) = Ok net /\
                (List.length (IPAddr.hosts net) < hosts_needed c)%nat)) ->
  planning_error host st c = Some e.
Proof.
  destruct c as [name cidr iface | vpc name cidr type | | | |];
    cbn [precondition_fails hosts_needed block_of planning_error];
    intros Hg Hn Hc; try (exfalso; apply Hn; reflexivity).
  - rewrite Hg. unfold plan_bridge, index.
    destruct Hc as [[-> ->] | (-> & net & -> & Hlen)]; [reflexivity |].
    destruct (IPAddr.hosts net) as [| h0 rest]; [reflexivity |].
    simpl in Hlen. lia.
  - apply negb_false_iff in Hg. rewrite Hg. unfold plan_subnet, index.
    destruct Hc as [[-> ->] | (-> & net & -> & Hlen)]; [reflexivity |].
    destruct (IPAddr.hosts net) as [| h0 [| h1 rest]]; [reflexivity | reflexivity |].
    simpl in Hlen. lia.
Qed.

(** C5, as the code has it.  Take a [create_vpc] or [add_subnet] that
    passes its guard, on a block that [ip_network] refuses (malformed, or
    with host bits set) or that it accepts but that has fewer hosts than the
    operation takes from it (one for [create_vpc], two for [add_subnet]).
    The block is looked at only after the five directives that precede
    address planning.  The operation raises the planner's error
    ([ValueError] for a refused block, [IndexError] for too few hosts)
    exactly when no checked directive failed, and then it has run exactly
    these five directives; otherwise it raises [Command failed] for the
    first checked directive of the five that returned non-zero, the checked
    ones before it having succeeded, and it runs nothing after it.  Either
    way nothing is saved and the store is unchanged. *)
Theorem invalid_block_raises_after_prelude
    (host : Host) (c : command) (m : Machine host) (e : exn) :
  precondition_fails (state m) c = false ->
  hosts_needed c <> 0%nat ->
  ((e = ValueError /\ ip_network host (block_of c) = Raise ValueError)
   \/
   (e = IndexError /\
    exists net, ip_network host (block_of c) = Ok net /\
                (List.length (IPAddr.hosts net) < hosts_needed c)%nat)) ->
  let r := dispatch host c m in
  planning_error host (state m) c = Some e /\
  List.length (prelude (state m) c) = 5%nat /\
  state (snd r) = state m /\
  disk (snd r) = disk m /\
  exists evs,
    trace (snd r) = (trace m ++ evs)%list /\
    saves evs = [] /\
    (no_failed evs <-> fst r = Raise e) /\
    ((fst r = Raise e /\ no_failed evs /\ directives evs = prelude (state m) c)
     \/
     (exists done cmd rest pre rc tail,
         prelude (state m) c = (done ++ (cmd, true) :: rest)%list /\
         fst r = Raise (CommandFailed cmd) /\
         directives evs = (done ++ [(cmd, true)])%list /\
         evs = (pre ++ Run cmd true rc :: tail)%list /\
         rc <> 0 /\ no_failed pre /\ Forall is_print tail /\
         directives pre = done)).
Proof.
  intros Hg Hn Hcause r. subst r.
  pose proof (planning_error_of_cause host (state m) c e Hg Hn Hcause) as H.
  pose proof (invalid_block_run host c m e H) as Hrun. cbv zeta in Hrun.
  destruct Hrun as (Hkind & Hlen & Hs & Hd & evs & Ht & Hv & Hcase).
  pose proof (safe_abort_shape host (dispatch host c) m evs
                (safe_dispatch host c) Ht) as Hab.
  split; [exact H |].
  split; [exact Hlen |]. split; [exact Hs |]. split; [exact Hd |].
  exists evs. split; [exact Ht |]. split; [exact Hv |].
  destruct Hcase as [[Hr Hx] | (done & cmd & rest & Hp & Hr & Hx)];
    rewrite Hr in Hab; rewrite Hr.
  - assert (Hnf : no_failed evs) by (destruct Hkind as [-> | ->]; exact Hab).
    split; [split; [reflexivity | intros _; exact Hnf] |].
    left. split; [reflexivity |]. split; assumption.
  - simpl in Hab. destruct Hab as (pre & rc & tail & He & Hrc & Hpre & Htail).
    split.
    + split.
      * intros Hnf. exfalso. rewrite He in Hnf.
        apply no_failed_run in Hnf. contradiction.
      * intros Hr'. destruct Hkind as [-> | ->]; discriminate.
    + right. exists done, cmd, rest, pre, rc, tail.
      split; [exact Hp |]. split; [reflexivity |]. split; [exact Hx |].
      split; [exact He |]. split; [exact Hrc |]. split; [exact Hpre |].
      split; [exact Htail |].
      rewrite He, directives_app in Hx. cbn [directives flat_map] in Hx.
      fold (directives tail) in Hx.
      rewrite (directives_prints tail Htail) in Hx.
      cbn [app] in Hx. apply app_inj_tail in Hx. exact (proj1 Hx).
Qed.

(** [add-subnet app1 db 10.0.2.7/32]: a block with a single host, on a
    kernel that accepts every directive. *)
Lemma invalid_block_raises_after_prelude_witness :
  let host := sim_host all_succeed no_files in
  let c := AddSubnet "app1" "db" "10.0.2.7/32" "private" in
  let m := mkMachine host app1_store (Some app1_store) [] [] in
  let r := dispatch host c m in
  List.length (prelude app1_store c) = 5%nat /\
  state (snd r) = app1_store /\ disk (snd r) = Some app1_store /\
  exists evs,
    trace (snd r) = evs /\ fst r = Raise IndexError /\
    directives evs = prelude app1_store c.
Proof.
  intros host c m r.
  destruct (invalid_block_raises_after_prelude host c m IndexError)
    as (_ & Hlen & Hs & Hd & evs & Ht & _ & _ & Hcase).
  - reflexivity.
  - discriminate.
  - right. split; [reflexivity |].
    exists (IPAddr.mkNetwork IPAddr.V4 167772679 32).
    split; [vm_compute; reflexivity | vm_compute; lia].
  - split; [exact Hlen |]. split; [exact Hs |]. split; [exact Hd |].
    exists evs. split; [exact Ht |].
    destruct Hcase as [(Hr & _ & Hx) | (done & cmd & rest & pre & rc & tail
                                         & _ & Hr & _)].
    + split; [exact Hr | exact Hx].
    + exfalso. revert Hr. vm_compute. discriminate.
Defined.

(** C5 fails as stated: [create-vpc app1 not-a-cidr] on an empty store, with
    every directive succeeding, raises [ValueError] only after five
    directives have been run. *)
Lemma invalid_block_detected_after_directives :
  let host := sim_host all_succeed no_files in
  let r := main host (CreateVpc "app1" "not-a-cidr" "eth0") (boot host [] None) in
  fst r = Raise ValueError /\
  directives (trace (snd r)) = create_vpc_prelude "app1" /\
  kern (snd r) = map fst (create_vpc_prelude "app1") /\
  directives (trace (snd r)) <> [].
Proof.
  vm_compute. repeat split. discriminate.
Qed.

(** ** apply_firewall *)

Lemma firewall_cmd_shape (ns_name : string) (rule : Rule) :
  firewall_cmd ns_name rule =
    "ip netns exec " ++ ns_name ++ " iptables -A INPUT -p " ++ protocol rule
      ++ " --dport " ++ PyStr.str_int (port rule)
      ++ (if String.eqb (PyStr.upper (action rule)) "ALLOW"
          then " -j ACCEPT" else " -j DROP").
Proof.
  unfold firewall_cmd.
  destruct (String.eqb (PyStr.upper (action rule)) "ALLOW"); reflexivity.
Qed.

(** The loop over the rules: it stops at the first directive that fails. *)
Lemma firewall_loop (host : Host) (ns_name : string) (rules : list Rule)
      (m : Machine host) :
  let r := for_each host rules (fun rule =>
             bind host (_run_cmd host (firewall_cmd ns_name rule) true true) (fun _ =>
             print host ("  - " ++ PyStr.upper (action rule) ++ " " ++ protocol rule
                           ++ "/" ++ PyStr.str_int (port rule)))) m in
  state (snd r) = state m /\
  disk (snd r) = disk m /\
  exists evs,
    trace (snd r) = (trace m ++ evs)%list /\
    saves evs = [] /\
    ((fst r = Ok tt /\ no_failed evs /\
      directives evs = firewall_directives ns_name rules)
     \/
     (exists done rule rest,
         rules = (done ++ rule :: rest)%list /\
         fst r = Raise (CommandFailed (firewall_cmd ns_name rule)) /\
         directives evs = firewall_directives ns_name (done ++ [rule]))).
Proof.
  cbv zeta.
  set (body := fun rule : Rule =>
         bind host (_run_cmd host (firewall_cmd ns_name rule) true true) (fun _ =>
         print host ("  - " ++ PyStr.upper (action rule) ++ " " ++ protocol rule
                       ++ "/" ++ PyStr.str_int (port rule)))).
  revert m. induction rules as [| rule rules IH]; intros m.
  - simpl. repeat split. exists []. rewrite app_nil_r. repeat split.
    left. repeat split. constructor.
  - set (res := fst (subprocess_run host (firewall_cmd ns_name rule) (kern m))).
    set (k' := snd (subprocess_run host (firewall_cmd ns_name rule) (kern m))).
    set (ran := [Print ("[CMD] " ++ firewall_cmd ns_name rule);
                 Run (firewall_cmd ns_name rule) true (returncode res)]).
    set (line := Print ("  - " ++ PyStr.upper (action rule) ++ " " ++ protocol rule
                          ++ "/" ++ PyStr.str_int (port rule))).
    assert (Hstep :
      for_each host (rule :: rules) body m =
        if negb (returncode res =? 0)
        then (Raise (CommandFailed (firewall_cmd ns_name rule)),
              mkMachine host (state m) (disk m) k'
                (trace m ++ ran ++ [Print ("[ERROR] " ++ stderr res)]))
        else for_each host rules body
               (mkMachine host (state m) (disk m) k' (trace m ++ ran ++ [line]))).
    { simpl for_each. unfold bind at 1. unfold body at 1. unfold bind at 1.
      rewrite run_cmd_eq. cbv zeta. fold res k' ran. simpl andb.
      destruct (negb (returncode res =? 0)); [reflexivity |].
      unfold print, log. simpl. rewrite <- app_assoc. reflexivity. }
    rewrite Hstep. clear Hstep.
    destruct (negb (returncode res =? 0)) eqn:E.
    + simpl. repeat split. eexists. split; [reflexivity |]. split; [reflexivity |].
      right. exists [], rule, rules. repeat split.
    + set (m1 := mkMachine host (state m) (disk m) k' (trace m ++ ran ++ [line])).
      destruct (IH m1) as (Hs & Hd & evs & Ht & Hv & Hcase).
      rewrite Hs, Hd, Ht.
      split; [reflexivity |]. split; [reflexivity |].
      exists (ran ++ [line] ++ evs)%list.
      split; [subst m1; simpl; repeat rewrite <- app_assoc; reflexivity |].
      split; [simpl; exact Hv |].
      destruct Hcase as [(Hr & Hnf & Hx) | (done & rule' & rest & -> & Hr & Hx)].
      * left. rewrite Hr. split; [reflexivity |]. split.
        -- constructor; [reflexivity |]. constructor; [exact E |].
           constructor; [reflexivity | exact Hnf].
        -- simpl. rewrite Hx. reflexivity.
      * right. exists (rule :: done), rule', rest. rewrite Hr.
        split; [reflexivity |]. split; [reflexivity |].
        simpl. rewrite Hx. reflexivity.
Qed.

Lemma apply_firewall_run
    (host : Host) (vpc_name subnet_name policy_file : string)
    (m : Machine host) (vpc : VPC.t) (subnet : Subnet.t) (policy : Policy) :
  Dict.get vpc_name (vpcs (state m)) = Some vpc ->
  Dict.get subnet_name (VPC.subnets vpc) = Some subnet ->
  load_json host policy_file = Some policy ->
  apply_firewall host vpc_name subnet_name policy_file m =
    let (r, m') :=
      for_each host (ingress_rules policy) (fun rule =>
        bind host (_run_cmd host (firewall_cmd (Subnet.namespace subnet) rule)
                            true true) (fun _ =>
        print host ("  - " ++ PyStr.upper (action rule) ++ " " ++ protocol rule
                      ++ "/" ++ PyStr.str_int (port rule))))
        (log host (Print ("[INFO] Applying firewall rules to " ++ subnet_name)) m) in
    match r with
    | Ok _ => print host "[SUCCESS] Firewall rules applied" m'
    | Raise e => (Raise e, m')
    end.
Proof.
  intros Hvpc Hsub Hload. unfold apply_firewall.
  rewrite bind_get_state, (get_mem _ _ _ Hvpc).
  change (negb true) with false. cbv iota.
  rewrite (bind_lookup _ _ _ _ _ _ Hvpc), (get_mem _ _ _ Hsub).
  change (negb true) with false. cbv iota.
  rewrite (bind_lookup _ _ _ _ _ _ Hsub). rewrite Hload. reflexivity.
Qed.

(** The two ways [apply_firewall] ends on an existing VPC and subnet, by
    the directives it ran. *)
Lemma apply_firewall_cases
    (host : Host) (vpc_name subnet_name policy_file : string)
    (m : Machine host) (vpc : VPC.t) (subnet : Subnet.t) (policy : Policy) :
  Dict.get vpc_name (vpcs (state m)) = Some vpc ->
  Dict.get subnet_name (VPC.subnets vpc) = Some subnet ->
  load_json host policy_file = Some policy ->
  let r := apply_firewall host vpc_name subnet_name policy_file m in
  let ns := Subnet.namespace subnet in
  let rules := ingress_rules policy in
  state (snd r) = state m /\
  disk (snd r) = disk m /\
  (forall rule,
      firewall_cmd ns rule =
        "ip netns exec " ++ ns ++ " iptables -A INPUT -p " ++ protocol rule
          ++ " --dport " ++ PyStr.str_int (port rule)
          ++ (if String.eqb (PyStr.upper (action rule)) "ALLOW"
              then " -j ACCEPT" else " -j DROP")) /\
  exists evs,
    trace (snd r) = (trace m ++ evs)%list /\
    saves evs = [] /\
    ((fst r = Ok tt /\ no_failed evs /\
      directives evs = firewall_directives ns rules /\
      List.length (directives evs) = List.length rules)
     \/
     (exists done rule rest,
         rules = (done ++ rule :: rest)%list /\
         fst r = Raise (CommandFailed (firewall_cmd ns rule)) /\
         directives evs = firewall_directives ns (done ++ [rule]))).
Proof.
  intros Hvpc Hsub Hload r ns rules. subst r.
  rewrite (apply_firewall_run host _ _ _ m vpc subnet policy Hvpc Hsub Hload).
  fold ns rules.
  set (m0 := log host _ m).
  destruct (firewall_loop host ns rules m0) as (Hs & Hd & evs & Ht & Hv & Hcase).
  cbv zeta in Hs, Hd, Ht, Hcase.
  match goal with
  | |- context [for_each host rules ?body m0] =>
      set (loop := for_each host rules body m0) in *
  end.
  destruct loop as [rl m1]. cbn [fst snd] in *.
  unfold m0, log in Hs, Hd, Ht. cbn [state disk trace] in Hs, Hd, Ht.
  rewrite <- app_assoc in Ht. clear m0.
  destruct Hcase as [(Hr & Hnf & Hx) | (done & rule & rest & Hrules & Hr & Hx)];
    subst rl; unfold print, log; cbn [fst snd state disk trace].
  - split; [exact Hs |]. split; [exact Hd |].
    split; [intros rule; apply firewall_cmd_shape |].
    exists ([Print ("[INFO] Applying firewall rules to " ++ subnet_name)]
              ++ evs ++ [Print "[SUCCESS] Firewall rules applied"])%list.
    rewrite Ht. repeat rewrite <- app_assoc.
    split; [reflexivity |].
    repeat rewrite saves_app. rewrite Hv. split; [reflexivity |].
    left. repeat rewrite directives_app. rewrite Hx. simpl. rewrite app_nil_r.
    repeat split.
    + constructor; [reflexivity |].
      apply no_failed_app; [exact Hnf | repeat constructor].
    + unfold firewall_directives. apply length_map.
  - split; [exact Hs |]. split; [exact Hd |].
    split; [intros rule0; apply firewall_cmd_shape |].
    exists ([Print ("[INFO] Applying firewall rules to " ++ subnet_name)] ++ evs)%list.
    split; [exact Ht |].
    rewrite saves_app, Hv. split; [reflexivity |].
    right. exists done, rule, rest. rewrite directives_app, Hx.
    repeat split. exact Hrules.
Qed.

(** C8, as the code has it.  On an existing VPC and subnet,
    [apply_firewall] runs the directives of the rules in list order inside
    the namespace recorded for the subnet, each appending ([-A INPUT]) an
    ACCEPT rule when the upper-cased action is ALLOW and a DROP rule
    otherwise, for the rule's protocol and port.  It returns normally
    exactly when no directive fails, and then it has run one directive per
    rule, [n] in all.  Otherwise it ends with [Command failed] at the first
    rule whose directive returns non-zero: the directives of the rules
    before it were run and succeeded, and the rules after it are not
    applied.  No directive clears earlier rules and the store is not
    touched. *)
Theorem apply_firewall_directives
    (host : Host) (vpc_name subnet_name policy_file : string)
    (m : Machine host) (vpc : VPC.t) (subnet : Subnet.t) (policy : Policy) :
  Dict.get vpc_name (vpcs (state m)) = Some vpc ->
  Dict.get subnet_name (VPC.subnets vpc) = Some subnet ->
  load_json host policy_file = Some policy ->
  let r := apply_firewall host vpc_name subnet_name policy_file m in
  let ns := Subnet.namespace subnet in
  let rules := ingress_rules policy in
  state (snd r) = state m /\
  disk (snd r) = disk m /\
  (forall rule,
      firewall_cmd ns rule =
        "ip netns exec " ++ ns ++ " iptables -A INPUT -p " ++ protocol rule
          ++ " --dport " ++ PyStr.str_int (port rule)
          ++ (if String.eqb (PyStr.upper (action rule)) "ALLOW"
              then " -j ACCEPT" else " -j DROP")) /\
  exists evs,
    trace (snd r) = (trace m ++ evs)%list /\
    saves evs = [] /\
    (no_failed evs <-> fst r = Ok tt) /\
    ((fst r = Ok tt /\ no_failed evs /\
      directives evs = firewall_directives ns rules /\
      List.length (directives evs) = List.length rules)
     \/
     (exists done rule rest pre rc tail,
         rules = (done ++ rule :: rest)%list /\
         fst r = Raise (CommandFailed (firewall_cmd ns rule)) /\
         directives evs = firewall_directives ns (done ++ [rule]) /\
         evs = (pre ++ Run (firewall_cmd ns rule) true rc :: tail)%list /\
         rc <> 0 /\ no_failed pre /\ Forall is_print tail /\
         directives pre = firewall_directives ns done)).
Proof.
  intros Hvpc Hsub Hload r ns rules. subst r.
  pose proof (apply_firewall_cases host vpc_name subnet_name policy_file m
                vpc subnet policy Hvpc Hsub Hload) as Hrun.
  cbv zeta in Hrun. fold ns rules in Hrun.
  destruct Hrun as (Hs & Hd & Hcmd & evs & Ht & Hv & Hcase).
  pose proof (safe_abort_shape host
                (apply_firewall host vpc_name subnet_name policy_file) m evs
                (safe_of_quiet host _
                   (quiet_apply_firewall host vpc_name subnet_name policy_file))
                Ht) as Hab.
  split; [exact Hs |]. split; [exact Hd |]. split; [exact Hcmd |].
  exists evs. split; [exact Ht |]. split; [exact Hv |].
  destruct Hcase as [(Hr & Hnf & Hx & Hlen) | (done & rule & rest & Hrules & Hr & Hx)];
    rewrite Hr in Hab; rewrite Hr.
  - split; [split; [reflexivity | intros _; exact Hnf] |].
    left. repeat split; assumption.
  - simpl in Hab. destruct Hab as (pre & rc & tail & He & Hrc & Hpre & Htail).
    split.
    + split; [| discriminate].
      intros Hnf. exfalso. rewrite He in Hnf.
      apply no_failed_run in Hnf. contradiction.
    + right. exists done, rule, rest, pre, rc, tail.
      split; [exact Hrules |]. split; [reflexivity |]. split; [exact Hx |].
      split; [exact He |]. split; [exact Hrc |]. split; [exact Hpre |].
      split; [exact Htail |].
      rewrite He, directives_app in Hx. cbn [directives flat_map] in Hx.
      fold (directives tail) in Hx.
      rewrite (directives_prints tail Htail) in Hx.
      unfold firewall_directives in Hx. rewrite map_app in Hx.
      cbn [map app] in Hx. apply app_inj_tail in Hx. exact (proj1 Hx).
Qed.

(** [apply-firewall app1 web policy.json] with an allow rule for icmp/8 and
    a deny rule for tcp/22, on a kernel that accepts every directive: one
    ACCEPT and one DROP directive, in the order of the rules. *)
Lemma apply_firewall_directives_witness :
  let host := sim_host all_succeed icmp_policy_files in
  let m := mkMachine host app1_store (Some app1_store) [] [] in
  let r := apply_firewall host "app1" "web" "policy.json" m in
  fst r = Ok tt /\
  state (snd r) = app1_store /\
  exists evs,
    trace (snd r) = evs /\
    directives evs
      = [("ip netns exec app1-web iptables -A INPUT -p icmp --dport 8 -j ACCEPT", true);
         ("ip netns exec app1-web iptables -A INPUT -p tcp --dport 22 -j DROP", true)].
Proof.
  intros host m r.
  destruct (apply_firewall_directives host "app1" "web" "policy.json" m
              app1_vpc web_subnet
              (mkPolicy (Some [mkRule 8 "icmp" "allow"; mkRule 22 "tcp" "deny"]))
              eq_refl eq_refl eq_refl)
    as (Hs & _ & _ & evs & Ht & _ & _ & Hcase).
  destruct Hcase as [(Hr & _ & Hx & _) | (done & rule & rest & pre & rc & tail
                                           & _ & Hr & _)].
  - split; [exact Hr |]. split; [exact Hs |].
    exists evs. split; [exact Ht | exact Hx].
  - exfalso. revert Hr. vm_compute. discriminate.
Defined.

(** C8 fails as stated: with a policy of two rules whose first directive is
    refused (iptables has no [--dport] for icmp), one directive is run, not
    two, and the operation raises. *)
Lemma apply_firewall_stops_at_failed_rule :
  let host :=
    sim_host
      (String.eqb "ip netns exec app1-web iptables -A INPUT -p icmp --dport 8 -j ACCEPT")
      icmp_policy_files in
  let m := mkMachine host app1_store (Some app1_store) [] [] in
  let r := apply_firewall host "app1" "web" "policy.json" m in
  option_map (fun p => List.length (ingress_rules p)) (load_json host "policy.json")
    = Some 2%nat /\
  List.length (directives (trace (snd r))) = 1%nat /\
  fst r = Raise (CommandFailed
                   "ip netns exec app1-web iptables -A INPUT -p icmp --dport 8 -j ACCEPT").
Proof.
  vm_compute. repeat split.
Qed.

(** ** Derived identifiers *)

(** C1, as the code has it.  The peering identifiers are derived from the
    two names concatenated in argument order: [Peer(A, B)] and [Peer(B, A)]
    get the same link endpoint identifiers whenever [A ++ B = B ++ A] (in
    particular when [A = B]); no canonical order is imposed on the seeds. *)
Theorem peer_ids_swap (vpc1_name vpc2_name : string) :
  vpc1_name ++ vpc2_name = vpc2_name ++ vpc1_name ->
  peer_ids vpc1_name vpc2_name = peer_ids vpc2_name vpc1_name.
Proof.
  intros H. unfold peer_ids, peer_veth1, peer_veth2, name_hash.
  rewrite H. reflexivity.
Qed.

Lemma peer_ids_swap_witness :
  "ab" ++ "abab" = "abab" ++ "ab" /\ peer_ids "ab" "abab" = peer_ids "abab" "ab".
Proof.
  split; [reflexivity | apply (peer_ids_swap "ab" "abab"); reflexivity].
Defined.

(** C1 fails as stated: peering [app1] with [app2] and [app2] with [app1]
    derive different link endpoint identifiers. *)
Lemma peer_ids_depend_on_order :
  peer_ids "app1" "app2" = ("pr17930f0", "pr27930f0") /\
  peer_ids "app2" "app1" = ("pr10ad1cf", "pr20ad1cf") /\
  peer_ids "app1" "app2" <> peer_ids "app2" "app1".
Proof.
  split; [vm_compute; reflexivity |].
  split; [vm_compute; reflexivity |].
  vm_compute. discriminate.
Qed.

Lemma ns_name_injective (v1 s1 v2 s2 : string) :
  PyStr.contains "-" v1 = false ->
  PyStr.contains "-" v2 = false ->
  ns_name v1 s1 = ns_name v2 s2 ->
  v1 = v2 /\ s1 = s2.
Proof.
  unfold ns_name. revert v2.
  induction v1 as [| a v1 IH]; intros [| b v2] H1 H2 Heq; simpl in *.
  - inversion Heq. auto.
  - inversion Heq; subst b. rewrite Ascii.eqb_refl in H2. discriminate.
  - inversion Heq; subst a. rewrite Ascii.eqb_refl in H1. discriminate.
  - inversion Heq; subst b.
    apply orb_false_iff in H1. apply orb_false_iff in H2.
    destruct (IH v2 (proj2 H1) (proj2 H2) H3) as [-> ->]. auto.
Qed.

(** C9, as the code has it.  The subnet identifiers are a function of the
    two names.  The namespace identifier is [vpc-subnet], which separates
    any two distinct pairs whose VPC names contain no hyphen.  The link
    endpoint identifiers depend on the concatenation of the two names only:
    whatever the names, hyphens or not, two pairs with the same
    concatenation share both of them. *)
Theorem subnet_ids_of_names (v1 s1 v2 s2 : string) :
  (PyStr.contains "-" v1 = false ->
   PyStr.contains "-" v2 = false ->
   (v1, s1) <> (v2, s2) ->
   ns_name v1 s1 <> ns_name v2 s2)
  /\
  (v1 ++ s1 = v2 ++ s2 ->
   veth_host v1 s1 = veth_host v2 s2 /\ veth_ns v1 s1 = veth_ns v2 s2).
Proof.
  split.
  - intros H1 H2 Hne Heq.
    destruct (ns_name_injective _ _ _ _ H1 H2 Heq) as [-> ->].
    apply Hne. reflexivity.
  - intros Heq. unfold veth_host, veth_ns, name_hash. rewrite Heq. auto.
Qed.

(** [(app, 1web)] and [(app1, web)]: different namespaces, same link
    endpoints; [(a, -b)] and [(a-, b)]: same link endpoints, although a VPC
    name has a hyphen. *)
Lemma subnet_ids_of_names_witness :
  ns_name "app" "1web" <> ns_name "app1" "web" /\
  veth_host "app" "1web" = veth_host "app1" "web" /\
  veth_ns "app" "1web" = veth_ns "app1" "web" /\
  veth_host "a" "-b" = veth_host "a-" "b" /\
  veth_ns "a" "-b" = veth_ns "a-" "b".
Proof.
  destruct (subnet_ids_of_names "app" "1web" "app1" "web") as [Hns Hveth].
  destruct (subnet_ids_of_names "a" "-b" "a-" "b") as [_ Hveth'].
  split; [apply Hns; [reflexivity | reflexivity | discriminate] |].
  split; [apply Hveth; reflexivity |].
  split; [apply Hveth; reflexivity |].
  split; apply Hveth'; reflexivity.
Defined.

(** C9 fails as stated: distinct pairs with the same identifiers, all three
    of them, or the namespace only, or the link endpoints only. *)
Lemma subnet_ids_collide :
  ("a", "-b") <> ("a-", "b") /\
  subnet_ids "a" "-b" = subnet_ids "a-" "b" /\
  ("dev-app", "web") <> ("dev", "app-web") /\
  ns_name "dev-app" "web" = ns_name "dev" "app-web" /\
  ("app", "1web") <> ("app1", "web") /\
  veth_host "app" "1web" = veth_host "app1" "web" /\
  veth_ns "app" "1web" = veth_ns "app1" "web".
Proof.
  repeat split; try discriminate.
Qed.

(** ** The address planner *)

Lemma range_nil (lo hi : Z) : hi <= lo -> IPAddr.range lo hi = [].
Proof.
  intros H. unfold IPAddr.range.
  replace (Z.to_nat (hi - lo)) with 0%nat by lia. reflexivity.
Qed.

Lemma range_cons (lo hi : Z) :
  lo < hi -> IPAddr.range lo hi = lo :: IPAddr.range (lo + 1) hi.
Proof.
  intros H. unfold IPAddr.range.
  replace (Z.to_nat (hi - lo)) with (S (Z.to_nat (hi - (lo + 1)))) by lia.
  simpl. f_equal; [lia |].
  rewrite <- seq_shift, map_map. apply map_ext. intros i. lia.
Qed.

Lemma in_range (x lo hi : Z) : In x (IPAddr.range lo hi) -> lo <= x < hi.
Proof.
  unfold IPAddr.range. intros H. apply in_map_iff in H.
  destruct H as (i & <- & Hi). apply in_seq in Hi. lia.
Qed.

Lemma range_two (lo hi : Z) :
  (2 <= List.length (IPAddr.range lo hi))%nat ->
  IPAddr.range lo hi = lo :: (lo + 1) :: IPAddr.range (lo + 2) hi /\ lo + 2 <= hi.
Proof.
  intros H.
  destruct (Z_lt_le_dec lo hi) as [H1 | H1];
    [| rewrite range_nil in H by assumption; simpl in H; lia].
  rewrite (range_cons lo hi H1) in *.
  destruct (Z_lt_le_dec (lo + 1) hi) as [H2 | H2];
    [| rewrite range_nil in H by assumption; simpl in H; lia].
  rewrite (range_cons (lo + 1) hi H2).
  replace (lo + 1 + 1) with (lo + 2) by lia. split; [reflexivity | lia].
Qed.

(** The first two hosts of a network that has two. *)
Lemma hosts_two (n : IPAddr.Network) :
  (2 <= List.length (IPAddr.hosts n))%nat ->
  exists ip rest,
    IPAddr.hosts n = ip :: (ip + 1) :: rest /\
    IPAddr.contains n ip /\ IPAddr.contains n (ip + 1) /\
    (forall h, In h rest -> ip + 1 < h /\ IPAddr.contains n h) /\
    ip = IPAddr.network_address n
           + (if IPAddr.prefixlen n =? IPAddr.max_prefixlen (IPAddr.net_version n) - 1
              then 0 else 1).
Proof.
  unfold IPAddr.hosts, IPAddr.contains.
  set (net := IPAddr.network_address n).
  set (bc := IPAddr.broadcast_address n).
  destruct (IPAddr.prefixlen n =? IPAddr.max_prefixlen (IPAddr.net_version n) - 1).
  - intros H. destruct (range_two _ _ H) as [-> Hle].
    exists net, (IPAddr.range (net + 2) (bc + 1)).
    repeat split; try lia; apply in_range in H0; lia.
  - destruct (IPAddr.prefixlen n =? IPAddr.max_prefixlen (IPAddr.net_version n)).
    + simpl. lia.
    + destruct (IPAddr.net_version n); intros H;
        destruct (range_two _ _ H) as [-> Hle].
      * exists (net + 1), (IPAddr.range (net + 1 + 2) bc).
        repeat split; try lia; apply in_range in H0; lia.
      * exists (net + 1), (IPAddr.range (net + 1 + 2) (bc + 1)).
        repeat split; try lia; apply in_range in H0; lia.
Qed.

(** C4.  For a block that [ip_network] accepts and that has at least two
    usable hosts, the planner of [add_subnet] returns the first two entries
    of the host list: the host address [ip] and the gateway [ip + 1].  They
    are distinct, both lie in the block, and every other usable host is
    larger than both; [ip] is the address after the network address (the
    network address itself when the prefix leaves one host bit).  For
    [10.0.1.0/24] they are [10.0.1.1] and [10.0.1.2]. *)
Theorem plan_subnet_two_lowest (host : Host) (cidr : string) (n : IPAddr.Network) :
  ip_network host cidr = Ok n ->
  (2 <= List.length (IPAddr.hosts n))%nat ->
  (exists ip gw rest,
      IPAddr.hosts n = ip :: gw :: rest /\
      plan_subnet host cidr = Ok (n, str_address host n ip, str_address host n gw) /\
      ip <> gw /\ ip < gw /\
      IPAddr.contains n ip /\ IPAddr.contains n gw /\
      (forall h, In h (IPAddr.hosts n) -> h = ip \/ h = gw \/ gw < h) /\
      ip = IPAddr.network_address n
             + (if IPAddr.prefixlen n =? IPAddr.max_prefixlen (IPAddr.net_version n) - 1
                then 0 else 1) /\
      gw = ip + 1) /\
  plan_subnet host "10.0.1.0/24"
    = Ok (IPAddr.mkNetwork IPAddr.V4 167772416 24, "10.0.1.1", "10.0.1.2").
Proof.
  intros Hnet Hlen. split; [| vm_compute; reflexivity].
  destruct (hosts_two n Hlen) as (ip & rest & Hhosts & Hip & Hgw & Hrest & Hfirst).
  exists ip, (ip + 1), rest.
  split; [exact Hhosts |].
  split; [unfold plan_subnet; rewrite Hnet, Hhosts; reflexivity |].
  split; [lia |]. split; [lia |]. split; [exact Hip |]. split; [exact Hgw |].
  split; [| split; [exact Hfirst | reflexivity]].
  intros h Hin. rewrite Hhosts in Hin.
  destruct Hin as [<- | [<- | Hin]]; auto.
  right. right. apply Hrest. exact Hin.
Qed.

(** [add-subnet ... 10.0.1.0/24] and the smallest blocks with two hosts. *)
Lemma plan_subnet_two_lowest_witness :
  let host := sim_host all_succeed no_files in
  plan_subnet host "10.0.1.0/24"
    = Ok (IPAddr.mkNetwork IPAddr.V4 167772416 24, "10.0.1.1", "10.0.1.2") /\
  plan_subnet host "10.0.1.0/30"
    = Ok (IPAddr.mkNetwork IPAddr.V4 167772416 30, "10.0.1.1", "10.0.1.2") /\
  plan_subnet host "10.0.1.0/31"
    = Ok (IPAddr.mkNetwork IPAddr.V4 167772416 31, "10.0.1.0", "10.0.1.1").
Proof.
  intros host.
  destruct (plan_subnet_two_lowest host "10.0.1.0/24"
              (IPAddr.mkNetwork IPAddr.V4 167772416 24)) as [_ H].
  - vm_compute. reflexivity.
  - vm_compute. lia.
  - split; [exact H |]. split; vm_compute; reflexivity.
Defined.

(** ** add_subnet on a name that is already taken *)

(** C2 is not what the code does: [add_subnet] has no guard on the subnet
    name.  On a store where [app1] already has the subnet [web]
    (10.0.1.0/24, public), [add-subnet app1 web 10.0.9.0/24] runs its ten
    directives and, when they succeed, replaces the record; when the kernel
    refuses the first one, the operation fails on that directive and not on
    the name. *)
Lemma add_subnet_overwrites_existing :
  let host := sim_host all_succeed no_files in
  let m := boot host [] (Some app1_store) in
  let r := main host (AddSubnet "app1" "web" "10.0.9.0/24" "private") m in
  Dict.get "web" (VPC.subnets app1_vpc) = Some web_subnet /\
  fst r = Ok tt /\
  List.length (directives (trace (snd r))) = 10%nat /\
  hd_error (directives (trace (snd r))) = Some ("ip netns add app1-web", true) /\
  disk (snd r)
    = Some (mkState
              [("app1",
                VPC.mk "10.0.0.0/16" "br-app1" "10.0.0.1" "eth0"
                  [("web",
                    Subnet.mk "10.0.9.0/24" "private" "app1-web" "10.0.9.1" "10.0.9.2"
                              "vhc91e9a" "vnc91e9a")])]) /\
  disk (snd r) <> disk m /\
  (let host' := sim_host (String.eqb "ip netns add app1-web") no_files in
   let r' := main host' (AddSubnet "app1" "web" "10.0.9.0/24" "private")
                  (boot host' [] (Some app1_store)) in
   fst r' = Raise (CommandFailed "ip netns add app1-web") /\
   directives (trace (snd r')) = [("ip netns add app1-web", true)]).
Proof.
  vm_compute. repeat split. discriminate.
Qed.

(* ===================================================================== *)
(** * Further properties of the operations *)
(* ===================================================================== *)

(** ** What a normal return tells about the steps before it *)

Lemma bind_ok_inv (host : Host) {A B} (c : M host A) (k : A -> M host B)
      (m m' : Machine host) (b : B) :
  bind host c k m = (Ok b, m') ->
  exists a m1, c m = (Ok a, m1) /\ k a m1 = (Ok b, m').
Proof.
  unfold bind. destruct (c m) as [[a | e] m1]; [| discriminate].
  intros H. exists a, m1. split; [reflexivity | exact H].
Qed.

Lemma bind_lift_ok (host : Host) {A B} (r : result A) (k : A -> M host B)
      (m m' : Machine host) (b : B) :
  bind host (lift host r) k m = (Ok b, m') ->
  exists a, r = Ok a /\ k a m = (Ok b, m').
Proof.
  unfold bind, lift. destruct r as [a | e]; [| discriminate].
  intros H. exists a. split; [reflexivity | exact H].
Qed.

Lemma run_cmd_ok (host : Host) (cmd : string) (check capture : bool)
      (m m1 : Machine host) (v : option string) :
  _run_cmd host cmd check capture m = (Ok v, m1) ->
  exists evs,
    state m1 = state m /\ disk m1 = disk m /\
    trace m1 = (trace m ++ evs)%list /\
    saves evs = [] /\ directives evs = [(cmd, check)] /\ no_failed evs.
Proof.
  rewrite run_cmd_eq. cbv zeta.
  set (r := fst (subprocess_run host cmd (kern m))).
  destruct (check && negb (returncode r =? 0)) eqn:E; [discriminate |].
  intros H. inversion H; subst. simpl.
  eexists. repeat split.
  constructor; [reflexivity |]. constructor; [| constructor].
  simpl. destruct check; [exact E | reflexivity].
Qed.

Lemma bind_run_cmd_ok (host : Host) {B} (cmd : string) (check capture : bool)
      (k : option string -> M host B) (m m' : Machine host) (b : B) :
  bind host (_run_cmd host cmd check capture) k m = (Ok b, m') ->
  exists v m1 evs,
    k v m1 = (Ok b, m') /\
    state m1 = state m /\ disk m1 = disk m /\
    trace m1 = (trace m ++ evs)%list /\
    saves evs = [] /\ directives evs = [(cmd, check)] /\ no_failed evs.
Proof.
  intros H. apply bind_ok_inv in H. destruct H as (v & m1 & Hrun & Hk).
  destruct (run_cmd_ok _ _ _ _ _ _ _ Hrun) as (evs & Hfacts).
  exists v, m1, evs. split; assumption.
Qed.

Lemma run_all_ok (host : Host) {B} (cmds : list (string * bool)) (K : M host B)
      (m m' : Machine host) (b : B) :
  run_all cmds K m = (Ok b, m') ->
  exists m1 evs,
    K m1 = (Ok b, m') /\
    state m1 = state m /\ disk m1 = disk m /\
    trace m1 = (trace m ++ evs)%list /\
    saves evs = [] /\ directives evs = cmds /\ no_failed evs.
Proof.
  intros H.
  destruct (run_all_spec host cmds K m)
    as [(m1 & evs & Hrun & Hfacts)
       | (m1 & evs & done & cmd & rest & Hrun & _)].
  - rewrite Hrun in H. exists m1, evs. split; assumption.
  - rewrite Hrun in H. discriminate.
Qed.

Lemma plan_bridge_ok (host : Host) (cidr : string) (n : IPAddr.Network) (ip : string) :
  plan_bridge host cidr = Ok (n, ip) ->
  ip_network host cidr = Ok n /\
  exists h0 rest, IPAddr.hosts n = h0 :: rest /\ ip = str_address host n h0.
Proof.
  unfold plan_bridge, index.
  destruct (ip_network host cidr) as [n0 | e]; [| discriminate].
  destruct (IPAddr.hosts n0) as [| h0 rest] eqn:Eh; simpl; [discriminate |].
  intros H. inversion H; subst. split; [reflexivity |].
  exists h0, rest. rewrite Eh. split; reflexivity.
Qed.

Lemma plan_subnet_ok (host : Host) (cidr : string) (n : IPAddr.Network)
      (ip gw : string) :
  plan_subnet host cidr = Ok (n, ip, gw) ->
  ip_network host cidr = Ok n /\
  exists h0 h1 rest,
    IPAddr.hosts n = h0 :: h1 :: rest /\
    ip = str_address host n h0 /\ gw = str_address host n h1.
Proof.
  unfold plan_subnet, index.
  destruct (ip_network host cidr) as [n0 | e]; [| discriminate].
  destruct (IPAddr.hosts n0) as [| h0 [| h1 rest]] eqn:Eh; simpl; try discriminate.
  intros H. inversion H; subst. split; [reflexivity |].
  exists h0, h1, rest. rewrite Eh. repeat split.
Qed.

(** ** _run_cmd *)

(** X1.  [_run_cmd] prints the command, runs it once, and leaves memory and
    disk alone.  It raises, and then always [Command failed] for that
    command, exactly when [check] is set and the return code is not zero;
    with [check=False] it never raises. *)
Theorem run_cmd_behaviour
    (host : Host) (cmd : string) (check capture : bool) (m : Machine host) :
  let r := _run_cmd host cmd check capture m in
  let rc := returncode (fst (subprocess_run host cmd (kern m))) in
  state (snd r) = state m /\
  disk (snd r) = disk m /\
  kern (snd r) = snd (subprocess_run host cmd (kern m)) /\
  (exists evs,
      trace (snd r) = (trace m ++ Print ("[CMD] " ++ cmd) :: Run cmd check rc :: evs)%list /\
      directives evs = [] /\ saves evs = []) /\
  (fst r = Raise (CommandFailed cmd) <-> check = true /\ rc <> 0) /\
  (forall e, fst r = Raise e -> e = CommandFailed cmd) /\
  (check = false -> exists v, fst r = Ok v).
Proof.
  cbv zeta. rewrite run_cmd_eq. cbv zeta.
  set (res := fst (subprocess_run host cmd (kern m))).
  destruct (check && negb (returncode res =? 0)) eqn:E; cbn [fst snd state disk kern trace].
  - apply andb_prop in E. destruct E as [-> E].
    apply negb_true_iff, Z.eqb_neq in E.
    split; [reflexivity |]. split; [reflexivity |]. split; [reflexivity |].
    split; [| split; [| split]].
    + exists (if capture then [Print ("[ERROR] " ++ stderr res)] else []).
      destruct capture; repeat split.
    + split; [intros _; split; [reflexivity | exact E] | reflexivity].
    + intros e He. inversion He. reflexivity.
    + discriminate.
  - split; [reflexivity |]. split; [reflexivity |]. split; [reflexivity |].
    split; [| split; [| split]].
    + exists []. repeat split.
    + split; [discriminate |].
      intros [-> Hrc]. simpl in E. apply negb_false_iff, Z.eqb_eq in E. contradiction.
    + discriminate.
    + intros _. eexists. reflexivity.
Qed.

(** ** create_vpc that returns normally *)

Lemma create_vpc_ok_inv (host : Host) (name cidr iface : string) (m m' : Machine host) :
  Dict.mem name (vpcs (state m)) = false ->
  create_vpc host name cidr iface m = (Ok tt, m') ->
  exists network bridge_ip evs,
    plan_bridge host cidr = Ok (network, bridge_ip) /\
    state m' = mkState (Dict.set name (new_vpc name cidr bridge_ip iface)
                                 (vpcs (state m))) /\
    disk m' = Some (state m') /\
    trace m' = (trace m ++ evs
                  ++ [Save (state m');
                      Print ("[SUCCESS] VPC " ++ name ++ " created with bridge "
                               ++ bridge_name name)])%list /\
    saves evs = [] /\ no_failed evs /\
    directives evs = create_vpc_directives name network bridge_ip.
Proof.
  intros Hmem. unfold create_vpc.
  rewrite bind_get_state, Hmem. cbv iota zeta. rewrite bind_print.
  fold_prelude host. intros H.
  apply run_all_ok in H.
  destruct H as (m1 & evs1 & H & Hs1 & Hd1 & Ht1 & Hv1 & Hx1 & Hn1).
  apply bind_lift_ok in H. destruct H as ([network bridge_ip] & Hplan & H).
  cbv beta iota in H.
  apply bind_run_cmd_ok in H.
  destruct H as (v2 & m2 & evs2 & H & Hs2 & Hd2 & Ht2 & Hv2 & Hx2 & Hn2).
  apply bind_run_cmd_ok in H.
  destruct H as (v3 & m3 & evs3 & H & Hs3 & Hd3 & Ht3 & Hv3 & Hx3 & Hn3).
  unfold bind, modify_state, _save_state, print, log in H. simpl in H.
  injection H as <-. cbn [state disk trace].
  exists network, bridge_ip,
    ([Print ("[INFO] Creating VPC: " ++ name ++ " with CIDR: " ++ cidr)]
       ++ evs1 ++ evs2 ++ evs3)%list.
  assert (Hst : state m3 = state m).
  { rewrite Hs3, Hs2, Hs1. reflexivity. }
  rewrite Hst. unfold new_vpc.
  split; [exact Hplan |]. split; [reflexivity |]. split; [reflexivity |].
  split.
  { rewrite Ht3, Ht2, Ht1. unfold log. cbn [trace].
    repeat rewrite <- app_assoc. reflexivity. }
  split.
  { simpl. repeat rewrite saves_app. rewrite Hv1, Hv2, Hv3. reflexivity. }
  split.
  { constructor; [reflexivity |].
    repeat apply no_failed_app; assumption. }
  simpl. repeat rewrite directives_app. rewrite Hx1, Hx2, Hx3.
  unfold create_vpc_directives. reflexivity.
Qed.

(** X2.  When [create_vpc] on a name that is not in the store returns
    normally, the CIDR block was accepted, the seven directives of the
    operation were run in order and none of the checked ones failed, and
    the store, in memory and on disk, has gained the record of the VPC:
    bridge [br-<name>], the first host of the block as bridge address, no
    subnets.  The save is the last thing before the success line. *)
Theorem create_vpc_success
    (host : Host) (name cidr iface : string) (m : Machine host) :
  Dict.mem name (vpcs (state m)) = false ->
  fst (create_vpc host name cidr iface m) = Ok tt ->
  let m' := snd (create_vpc host name cidr iface m) in
  exists network h0 rest evs,
    ip_network host cidr = Ok network /\
    IPAddr.hosts network = h0 :: rest /\
    let bridge_ip := str_address host network h0 in
    state m' = mkState (Dict.set name (new_vpc name cidr bridge_ip iface)
                                 (vpcs (state m))) /\
    Dict.get name (vpcs (state m')) = Some (new_vpc name cidr bridge_ip iface) /\
    disk m' = Some (state m') /\
    trace m' = (trace m ++ evs
                  ++ [Save (state m');
                      Print ("[SUCCESS] VPC " ++ name ++ " created with bridge "
                               ++ bridge_name name)])%list /\
    saves evs = [] /\ no_failed evs /\
    directives evs = create_vpc_directives name network bridge_ip /\
    List.length (directives evs) = 7%nat.
Proof.
  intros Hmem Hok m'. subst m'.
  destruct (create_vpc host name cidr iface m) as [r m'] eqn:E.
  simpl in Hok. subst r. cbn [snd].
  destruct (create_vpc_ok_inv host name cidr iface m m' Hmem E)
    as (network & bridge_ip & evs & Hplan & Hs & Hd & Ht & Hv & Hn & Hx).
  destruct (plan_bridge_ok host cidr network bridge_ip Hplan)
    as (Hnet & h0 & rest & Hhosts & ->).
  exists network, h0, rest, evs. cbv zeta.
  split; [exact Hnet |]. split; [exact Hhosts |]. split; [exact Hs |].
  split; [rewrite Hs; apply get_set_same |].
  split; [exact Hd |]. split; [exact Ht |]. split; [exact Hv |].
  split; [exact Hn |]. split; [exact Hx |].
  rewrite Hx. reflexivity.
Qed.

(** [create-vpc app1 10.0.0.0/24] on an empty store. *)
Lemma create_vpc_success_witness :
  let host := sim_host all_succeed no_files in
  let m := boot host [] None in
  let m' := snd (create_vpc host "app1" "10.0.0.0/24" "eth0" m) in
  Dict.get "app1" (vpcs (state m'))
    = Some (VPC.mk "10.0.0.0/24" "br-app1" "10.0.0.1" "eth0" []) /\
  disk m' = Some (state m').
Proof.
  intros host m m'.
  destruct (create_vpc_success host "app1" "10.0.0.0/24" "eth0" m)
    as (network & h0 & rest & evs & _ & _ & _ & _ & Hd & _).
  - reflexivity.
  - vm_compute. reflexivity.
  - split; [vm_compute; reflexivity | exact Hd].
Defined.

(** ** add_subnet that returns normally *)

Lemma setup_nat_run (host : Host) (vpc_name subnet_cidr : string)
      (m : Machine host) (vpc : VPC.t) :
  Dict.get vpc_name (vpcs (state m)) = Some vpc ->
  _setup_nat host vpc_name subnet_cidr m
    = run_all (nat_directives vpc subnet_cidr) (ret host tt)
        (log host (Print ("[INFO] Setting up NAT for subnet " ++ subnet_cidr)) m).
Proof.
  intros H. unfold _setup_nat.
  rewrite bind_get_state, (bind_lookup _ _ _ _ _ _ H), bind_print. reflexivity.
Qed.

Lemma add_subnet_ok_inv (host : Host) (vpc_name subnet_name cidr type : string)
      (m m' : Machine host) (vpc : VPC.t) :
  Dict.get vpc_name (vpcs (state m)) = Some vpc ->
  add_subnet host vpc_name subnet_name cidr type m = (Ok tt, m') ->
  exists net ip gw evs,
    plan_subnet host cidr = Ok (net, ip, gw) /\
    state m' = store_subnet vpc_name subnet_name
                 (new_subnet vpc_name subnet_name cidr type ip gw) (state m) /\
    disk m' = Some (state m') /\
    trace m' = (trace m ++ evs
                  ++ [Save (state m');
                      Print ("[SUCCESS] Subnet " ++ subnet_name
                               ++ " created in namespace "
                               ++ ns_name vpc_name subnet_name)])%list /\
    saves evs = [] /\ no_failed evs /\
    directives evs = add_subnet_directives vpc vpc_name subnet_name cidr type net ip gw.
Proof.
  intros Hvpc. unfold add_subnet.
  rewrite bind_get_state, (get_mem _ _ _ Hvpc).
  change (negb true) with false. cbv iota zeta.
  rewrite (bind_lookup _ _ _ _ _ _ Hvpc), bind_print.
  fold_prelude host. intros H.
  apply run_all_ok in H.
  destruct H as (m1 & evs1 & H & Hs1 & Hd1 & Ht1 & Hv1 & Hx1 & Hn1).
  apply bind_lift_ok in H. destruct H as ([[net ip] gw] & Hplan & H).
  cbv beta iota zeta in H.
  revert H. fold_prelude host. intros H.
  apply run_all_ok in H.
  destruct H as (m2 & evs2 & H & Hs2 & Hd2 & Ht2 & Hv2 & Hx2 & Hn2).
  apply bind_ok_inv in H. destruct H as ([] & m3 & Hnat & H).
  assert (Hst2 : state m2 = state m).
  { rewrite Hs2, Hs1. reflexivity. }
  assert (Hm3 : exists evs3,
             state m3 = state m2 /\ disk m3 = disk m2 /\
             trace m3 = (trace m2 ++ evs3)%list /\ saves evs3 = [] /\
             no_failed evs3 /\
             directives evs3
               = if String.eqb type "public" then nat_directives vpc cidr else []).
  { destruct (String.eqb type "public").
    - rewrite (setup_nat_run host vpc_name cidr m2 vpc) in Hnat
        by (rewrite Hst2; exact Hvpc).
      apply run_all_ok in Hnat.
      destruct Hnat as (m4 & evs4 & Hret & Hs4 & Hd4 & Ht4 & Hv4 & Hx4 & Hn4).
      unfold ret in Hret. injection Hret as <-.
      exists ([Print ("[INFO] Setting up NAT for subnet " ++ cidr)] ++ evs4)%list.
      rewrite Hs4, Hd4, Ht4. unfold log. cbn [state disk trace].
      rewrite <- app_assoc. repeat split.
      + simpl. exact Hv4.
      + constructor; [reflexivity | exact Hn4].
      + simpl. exact Hx4.
    - unfold ret in Hnat. injection Hnat as <-.
      exists []. rewrite app_nil_r. repeat split. constructor. }
  destruct Hm3 as (evs3 & Hs3 & Hd3 & Ht3 & Hv3 & Hn3 & Hx3).
  unfold bind, modify_state, _save_state, print, log in H. simpl in H.
  injection H as <-. cbn [state disk trace].
  exists net, ip, gw,
    ([Print ("[INFO] Creating " ++ type ++ " subnet: " ++ subnet_name
               ++ " in VPC " ++ vpc_name)] ++ evs1 ++ evs2 ++ evs3)%list.
  assert (Hst : state m3 = state m) by (rewrite Hs3; exact Hst2).
  rewrite Hst.
  split; [exact Hplan |]. split; [reflexivity |]. split; [reflexivity |].
  split.
  { rewrite Ht3, Ht2, Ht1. unfold log. cbn [trace].
    repeat rewrite <- app_assoc. reflexivity. }
  split.
  { simpl. repeat rewrite saves_app. rewrite Hv1, Hv2, Hv3. reflexivity. }
  split.
  { constructor; [reflexivity |]. repeat apply no_failed_app; assumption. }
  simpl. repeat rewrite directives_app. rewrite Hx1, Hx2, Hx3.
  unfold add_subnet_directives. reflexivity.
Qed.

(** X3.  When [add_subnet] on an existing VPC returns normally, the block
    was accepted and has two hosts, the ten directives of the operation
    (thirteen for a public subnet, with the three NAT rules last) were run
    in order and none failed, and the record of the subnet has been written
    under its name in that VPC, in memory and on disk: namespace
    [<vpc>-<subnet>], first host as address, second host as gateway, the two
    link endpoint names.  The other fields of the VPC are as before. *)
Theorem add_subnet_success
    (host : Host) (vpc_name subnet_name cidr type : string)
    (m : Machine host) (vpc : VPC.t) :
  Dict.get vpc_name (vpcs (state m)) = Some vpc ->
  fst (add_subnet host vpc_name subnet_name cidr type m) = Ok tt ->
  let m' := snd (add_subnet host vpc_name subnet_name cidr type m) in
  exists net h0 h1 rest evs,
    ip_network host cidr = Ok net /\
    IPAddr.hosts net = h0 :: h1 :: rest /\
    let ip := str_address host net h0 in
    let gw := str_address host net h1 in
    let record := new_subnet vpc_name subnet_name cidr type ip gw in
    let vpc' := VPC.with_subnets (Dict.set subnet_name record) vpc in
    state m' = mkState (Dict.set vpc_name vpc' (vpcs (state m))) /\
    Dict.get vpc_name (vpcs (state m')) = Some vpc' /\
    Dict.get subnet_name (VPC.subnets vpc') = Some record /\
    disk m' = Some (state m') /\
    trace m' = (trace m ++ evs
                  ++ [Save (state m');
                      Print ("[SUCCESS] Subnet " ++ subnet_name
                               ++ " created in namespace "
                               ++ ns_name vpc_name subnet_name)])%list /\
    saves evs = [] /\ no_failed evs /\
    directives evs = add_subnet_directives vpc vpc_name subnet_name cidr type net ip gw /\
    List.length (directives evs)
      = (if String.eqb type "public" then 13 else 10)%nat.
Proof.
  intros Hvpc Hok m'. subst m'.
  destruct (add_subnet host vpc_name subnet_name cidr type m) as [r m'] eqn:E.
  simpl in Hok. subst r. cbn [snd].
  destruct (add_subnet_ok_inv host _ _ _ _ m m' vpc Hvpc E)
    as (net & ip & gw & evs & Hplan & Hs & Hd & Ht & Hv & Hn & Hx).
  destruct (plan_subnet_ok host cidr net ip gw Hplan)
    as (Hnet & h0 & h1 & rest & Hhosts & -> & ->).
  exists net, h0, h1, rest, evs. cbv zeta.
  unfold store_subnet in Hs. rewrite Hvpc in Hs.
  split; [exact Hnet |]. split; [exact Hhosts |]. split; [exact Hs |].
  split; [rewrite Hs; apply get_set_same |].
  split; [apply get_set_same |].
  split; [exact Hd |]. split; [exact Ht |]. split; [exact Hv |].
  split; [exact Hn |]. split; [exact Hx |].
  rewrite Hx. unfold add_subnet_directives.
  destruct (String.eqb type "public"); reflexivity.
Qed.

(** [add-subnet app1 db 10.0.2.0/24] on the store with [app1]. *)
Lemma add_subnet_success_witness :
  let host := sim_host all_succeed no_files in
  let m := mkMachine host app1_store (Some app1_store) [] [] in
  let m' := snd (add_subnet host "app1" "db" "10.0.2.0/24" "private" m) in
  option_map (fun v => map fst (Dict.items (VPC.subnets v)))
             (Dict.get "app1" (vpcs (state m'))) = Some ["web"; "db"] /\
  disk m' = Some (state m').
Proof.
  intros host m m'.
  destruct (add_subnet_success host "app1" "db" "10.0.2.0/24" "private" m app1_vpc)
    as (net & h0 & h1 & rest & evs & _ & _ & _ & _ & _ & Hd & _).
  - reflexivity.
  - vm_compute. reflexivity.
  - split; [vm_compute; reflexivity | exact Hd].
Defined.

(** ** peer_vpcs *)

Lemma peer_vpcs_run (host : Host) (vpc1_name vpc2_name : string)
      (m : Machine host) (vpc1 vpc2 : VPC.t) :
  Dict.get vpc1_name (vpcs (state m)) = Some vpc1 ->
  Dict.get vpc2_name (vpcs (state m)) = Some vpc2 ->
  peer_vpcs host vpc1_name vpc2_name m
    = run_all (peer_directives vpc1 vpc2 vpc1_name vpc2_name)
        (print host ("[SUCCESS] VPCs " ++ vpc1_name ++ " and " ++ vpc2_name ++ " peered"))
        (log host (Print ("[INFO] Peering VPC " ++ vpc1_name ++ " with " ++ vpc2_name)) m).
Proof.
  intros H1 H2. unfold peer_vpcs.
  rewrite bind_get_state, (get_mem _ _ _ H1), (get_mem _ _ _ H2).
  change (negb true || negb true) with false. cbv iota zeta.
  rewrite (bind_lookup _ _ _ _ _ _ H1), (bind_lookup _ _ _ _ _ _ H2), bind_print.
  unfold peer_directives. cbv zeta.
  generalize (peer_veth1 vpc1_name vpc2_name) (peer_veth2 vpc1_name vpc2_name).
  intros p1 p2. reflexivity.
Qed.

(** The two ways [peer_vpcs] ends on two VPCs of the store, by the
    directives it ran. *)
Lemma peer_vpcs_cases
    (host : Host) (vpc1_name vpc2_name : string) (m : Machine host)
    (vpc1 vpc2 : VPC.t) :
  Dict.get vpc1_name (vpcs (state m)) = Some vpc1 ->
  Dict.get vpc2_name (vpcs (state m)) = Some vpc2 ->
  let r := peer_vpcs host vpc1_name vpc2_name m in
  let ds := peer_directives vpc1 vpc2 vpc1_name vpc2_name in
  state (snd r) = state m /\
  disk (snd r) = disk m /\
  exists evs,
    trace (snd r) = (trace m ++ evs)%list /\
    saves evs = [] /\
    firstn 2 (directives evs)
      = [ ("ip link del " ++ peer_veth1 vpc1_name vpc2_name, false);
          ("ip link del " ++ peer_veth2 vpc1_name vpc2_name, false) ] /\
    ((fst r = Ok tt /\ directives evs = ds /\ List.length (directives evs) = 11%nat)
     \/
     (exists done cmd rest,
         ds = (done ++ (cmd, true) :: rest)%list /\
         fst r = Raise (CommandFailed cmd) /\
         directives evs = (done ++ [(cmd, true)])%list)).
Proof.
  intros H1 H2 r ds. subst r ds.
  rewrite (peer_vpcs_run host _ _ m vpc1 vpc2 H1 H2).
  unfold peer_directives. cbv zeta.
  generalize (peer_veth1 vpc1_name vpc2_name) (peer_veth2 vpc1_name vpc2_name).
  intros p1 p2.
  match goal with
  | |- context [run_all ?l _ _] => set (ds := l)
  end.
  set (m0 := log host _ m).
  destruct (run_all_spec host ds
              (print host ("[SUCCESS] VPCs " ++ vpc1_name ++ " and " ++ vpc2_name
                             ++ " peered")) m0)
    as [(m1 & evs & -> & Hs & Hd & Ht & Hv & Hx & _)
       | (m1 & evs & done & cmd & rest & -> & Hc & Hs & Hd & Ht & Hv & Hx)];
    unfold print, log; cbn [fst snd state disk trace].
  - split; [exact Hs |]. split; [exact Hd |].
    exists ([Print ("[INFO] Peering VPC " ++ vpc1_name ++ " with " ++ vpc2_name)]
              ++ evs
              ++ [Print ("[SUCCESS] VPCs " ++ vpc1_name ++ " and " ++ vpc2_name
                           ++ " peered")])%list.
    rewrite Ht. unfold m0, log. cbn [trace]. repeat rewrite <- app_assoc.
    split; [reflexivity |].
    assert (Hdir : directives
                     ([Print ("[INFO] Peering VPC " ++ vpc1_name ++ " with "
                                ++ vpc2_name)]
                        ++ evs
                        ++ [Print ("[SUCCESS] VPCs " ++ vpc1_name ++ " and "
                                     ++ vpc2_name ++ " peered")]) = ds).
    { repeat rewrite directives_app. rewrite Hx.
      cbn [directives flat_map app]. apply app_nil_r. }
    rewrite Hdir. repeat rewrite saves_app. rewrite Hv.
    split; [reflexivity |]. split; [reflexivity |].
    left. split; [reflexivity |]. split; reflexivity.
  - split; [exact Hs |]. split; [exact Hd |].
    exists ([Print ("[INFO] Peering VPC " ++ vpc1_name ++ " with " ++ vpc2_name)]
              ++ evs)%list.
    rewrite Ht. unfold m0, log. cbn [trace]. repeat rewrite <- app_assoc.
    split; [reflexivity |].
    assert (Hdir : directives
                     ([Print ("[INFO] Peering VPC " ++ vpc1_name ++ " with "
                                ++ vpc2_name)] ++ evs) = (done ++ [(cmd, true)])%list).
    { rewrite directives_app, Hx. reflexivity. }
    rewrite Hdir, saves_app, Hv.
    split; [reflexivity |].
    split.
    + unfold ds in Hc.
      destruct done as [| d1 [| d2 done']]; cbn [app] in Hc.
      * injection Hc as _ Hflag _. discriminate.
      * injection Hc as _ _ Hflag _. discriminate.
      * injection Hc as <- <- _. reflexivity.
    + right. exists done, cmd, rest. repeat split. exact Hc.
Qed.

(** X4.  For two VPCs of the store (possibly the same one), [peer_vpcs]
    never writes the store.  It first deletes the two link endpoints it is
    about to create, ignoring errors.  It returns normally exactly when no
    checked directive fails, and then it has run all eleven directives in
    order.  Otherwise it stops with [Command failed] at the first checked
    directive that returns non-zero: the checked directives before it
    succeeded, and no directive is run after it. *)
Theorem peer_vpcs_outcome
    (host : Host) (vpc1_name vpc2_name : string) (m : Machine host)
    (vpc1 vpc2 : VPC.t) :
  Dict.get vpc1_name (vpcs (state m)) = Some vpc1 ->
  Dict.get vpc2_name (vpcs (state m)) = Some vpc2 ->
  let r := peer_vpcs host vpc1_name vpc2_name m in
  let ds := peer_directives vpc1 vpc2 vpc1_name vpc2_name in
  state (snd r) = state m /\
  disk (snd r) = disk m /\
  exists evs,
    trace (snd r) = (trace m ++ evs)%list /\
    saves evs = [] /\
    firstn 2 (directives evs)
      = [ ("ip link del " ++ peer_veth1 vpc1_name vpc2_name, false);
          ("ip link del " ++ peer_veth2 vpc1_name vpc2_name, false) ] /\
    (no_failed evs <-> fst r = Ok tt) /\
    ((fst r = Ok tt /\ no_failed evs /\
      directives evs = ds /\ List.length (directives evs) = 11%nat)
     \/
     (exists done cmd rest pre rc tail,
         ds = (done ++ (cmd, true) :: rest)%list /\
         fst r = Raise (CommandFailed cmd) /\
         directives evs = (done ++ [(cmd, true)])%list /\
         evs = (pre ++ Run cmd true rc :: tail)%list /\
         rc <> 0 /\ no_failed pre /\ Forall is_print tail /\
         directives pre = done)).
Proof.
  intros H1 H2 r ds. subst r.
  pose proof (peer_vpcs_cases host vpc1_name vpc2_name m vpc1 vpc2 H1 H2) as Hrun.
  cbv zeta in Hrun. fold ds in Hrun.
  destruct Hrun as (Hs & Hd & evs & Ht & Hv & Hfirst & Hcase).
  pose proof (safe_abort_shape host (peer_vpcs host vpc1_name vpc2_name) m evs
                (safe_of_quiet host _ (quiet_peer_vpcs host vpc1_name vpc2_name))
                Ht) as Hab.
  split; [exact Hs |]. split; [exact Hd |].
  exists evs. split; [exact Ht |]. split; [exact Hv |]. split; [exact Hfirst |].
  destruct Hcase as [(Hr & Hx & Hlen) | (done & cmd & rest & Hds & Hr & Hx)];
    rewrite Hr in Hab; rewrite Hr.
  - simpl in Hab.
    split; [split; [reflexivity | intros _; exact Hab] |].
    left. repeat split; assumption.
  - simpl in Hab. destruct Hab as (pre & rc & tail & He & Hrc & Hpre & Htail).
    split.
    + split; [| discriminate].
      intros Hnf. exfalso. rewrite He in Hnf.
      apply no_failed_run in Hnf. contradiction.
    + right. exists done, cmd, rest, pre, rc, tail.
      split; [exact Hds |]. split; [reflexivity |]. split; [exact Hx |].
      split; [exact He |]. split; [exact Hrc |]. split; [exact Hpre |].
      split; [exact Htail |].
      rewrite He, directives_app in Hx. cbn [directives flat_map] in Hx.
      fold (directives tail) in Hx.
      rewrite (directives_prints tail Htail) in Hx.
      cbn [app] in Hx. apply app_inj_tail in Hx. exact (proj1 Hx).
Qed.

(** [peer app1 app1] with a kernel that refuses to create the link: the two
    deletions and the refused creation are run, nothing else. *)
Lemma peer_vpcs_outcome_witness :
  let host := sim_host (String.eqb "ip link add pr1509a5a type veth peer name pr2509a5a")
                       no_files in
  let m := mkMachine host app1_store (Some app1_store) [] [] in
  let r := peer_vpcs host "app1" "app1" m in
  state (snd r) = app1_store /\ disk (snd r) = Some app1_store /\
  exists evs,
    trace (snd r) = evs /\ ~ no_failed evs /\
    fst r = Raise (CommandFailed "ip link add pr1509a5a type veth peer name pr2509a5a") /\
    List.length (directives evs) = 3%nat.
Proof.
  intros host m r.
  destruct (peer_vpcs_outcome host "app1" "app1" m app1_vpc app1_vpc eq_refl eq_refl)
    as (Hs & Hd & evs & Ht & _ & _ & Hiff & _).
  split; [exact Hs |]. split; [exact Hd |].
  exists evs. split; [exact Ht |].
  split.
  - intros Hnf. apply Hiff in Hnf. revert Hnf. vm_compute. discriminate.
  - assert (He : evs = trace (snd r)) by (symmetry; exact Ht).
    rewrite He. vm_compute. split; reflexivity.
Defined.

(** ** Operations that only read the store *)

(** X5.  [peer_vpcs], [apply_firewall] and [list_vpcs] never change the
    store and never write the state file, whatever happens to their
    directives: a peering or a firewall policy leaves no record. *)
Theorem read_only_commands_keep_store
    (host : Host) (c : command) (m : Machine host) :
  read_only c = true ->
  state (snd (dispatch host c m)) = state m /\
  disk (snd (dispatch host c m)) = disk m /\
  exists evs,
    trace (snd (dispatch host c m)) = (trace m ++ evs)%list /\ saves evs = [].
Proof.
  intros H.
  assert (Hq : quiet (dispatch host c)).
  { destruct c; simpl in H; try discriminate; simpl.
    - apply quiet_peer_vpcs.
    - apply quiet_apply_firewall.
    - apply quiet_list_vpcs. }
  destruct (Hq m) as (evs & Ht & Hs & Hd & Hv & _).
  split; [exact Hs |]. split; [exact Hd |]. exists evs. split; assumption.
Qed.

Lemma read_only_commands_keep_store_witness :
  let host := sim_host all_succeed web_policy_files in
  let m := mkMachine host app1_store None [] [] in
  state (snd (dispatch host (ApplyFirewall "app1" "web" "policy.json") m)) = app1_store /\
  disk (snd (dispatch host (ApplyFirewall "app1" "web" "policy.json") m)) = None.
Proof.
  intros host m.
  destruct (read_only_commands_keep_store host
              (ApplyFirewall "app1" "web" "policy.json") m eq_refl) as (Hs & Hd & _).
  split; assumption.
Defined.

(** ** list_vpcs *)

Lemma for_each_prints (host : Host) {A} (l : list A) (body : A -> M host unit)
      (g : A -> list string) :
  (forall x m, body x m
               = (Ok tt, mkMachine host (state m) (disk m) (kern m)
                                   (trace m ++ map Print (g x)))) ->
  forall m, for_each host l body m
            = (Ok tt, mkMachine host (state m) (disk m) (kern m)
                                (trace m ++ map Print (flat_map g l))).
Proof.
  intros Hbody. induction l as [| x l IH]; intros m.
  - destruct m. simpl. unfold ret. rewrite app_nil_r. reflexivity.
  - simpl. unfold bind. rewrite Hbody, IH. cbn [state disk kern trace].
    rewrite map_app, app_assoc. reflexivity.
Qed.

Lemma flat_map_singleton {A B} (f : A -> B) (l : list A) :
  flat_map (fun x => [f x]) l = map f l.
Proof. induction l as [| x l IH]; simpl; [reflexivity | rewrite IH; reflexivity]. Qed.

(** X6.  [list_vpcs] always returns normally, runs no directive and changes
    nothing but the terminal: it prints [No VPCs found] for an empty store,
    and otherwise, for each VPC in store order, four header lines followed
    by one line per subnet. *)
Theorem list_vpcs_prints_listing (host : Host) (m : Machine host) :
  list_vpcs host m
    = (Ok tt, mkMachine host (state m) (disk m) (kern m)
                        (trace m ++ map Print (listing (state m)))) /\
  directives (map Print (listing (state m))) = [] /\
  saves (map Print (listing (state m))) = [] /\
  List.length (listing (state m))
    = match vpcs (state m) with
      | [] => 1%nat
      | l => list_sum (map (fun e => 4 + List.length (VPC.subnets (snd e)))%nat l)
      end.
Proof.
  assert (Hnone : forall lines, directives (map Print lines) = []
                                /\ saves (map Print lines) = []).
  { induction lines as [| x lines [IH1 IH2]]; simpl; auto. }
  split; [| split; [apply Hnone | split; [apply Hnone |]]].
  - unfold list_vpcs, listing. rewrite bind_get_state.
    destruct (vpcs (state m)) as [| e rest] eqn:Ev.
    + reflexivity.
    + apply for_each_prints. intros [vpc_name vpc_data] m1.
      rewrite !bind_print.
      rewrite (for_each_prints host (Dict.items (VPC.subnets vpc_data)) _
                 (fun e => [listing_of_subnet e])).
      * unfold log. cbn [state disk kern trace].
        rewrite flat_map_singleton. unfold listing_of_vpc.
        rewrite map_app. cbn [map]. repeat rewrite <- app_assoc. reflexivity.
      * intros [subnet_name subnet_data] m2. reflexivity.
  - unfold listing. destruct (vpcs (state m)) as [| e rest]; [reflexivity |].
    unfold Dict.items. generalize (e :: rest). intros l.
    induction l as [| [vpc_name vpc_data] l IH]; [reflexivity |].
    cbn [flat_map map list_sum fold_right snd]. rewrite length_app, IH.
    unfold listing_of_vpc. rewrite length_app, length_map. reflexivity.
Qed.

(** ** Operations in sequence *)

Lemma create_vpc_existing (host : Host) (name cidr iface : string) (m : Machine host) :
  Dict.mem name (vpcs (state m)) = true ->
  create_vpc host name cidr iface m
    = (Ok tt, log host (Print ("[ERROR] VPC " ++ name ++ " already exists")) m).
Proof.
  intros H. unfold create_vpc. rewrite bind_get_state, H. reflexivity.
Qed.

Lemma delete_vpc_missing (host : Host) (name : string) (m : Machine host) :
  Dict.mem name (vpcs (state m)) = false ->
  delete_vpc host name m
    = (Ok tt, log host (Print ("[ERROR] VPC " ++ name ++ " not found")) m).
Proof.
  intros H. unfold delete_vpc. rewrite bind_get_state, H. reflexivity.
Qed.

(** [delete_vpc] on a VPC of the store, as one equation. *)
Lemma delete_vpc_run (host : Host) (name : string) (m : Machine host) (vpc : VPC.t) :
  Dict.get name (vpcs (state m)) = Some vpc ->
  exists evs k,
    delete_vpc host name m
      = (Ok tt,
         mkMachine host (mkState (Dict.del name (vpcs (state m))))
                   (Some (mkState (Dict.del name (vpcs (state m))))) k
                   (trace m ++ evs
                      ++ [Save (mkState (Dict.del name (vpcs (state m))));
                          Print ("[SUCCESS] VPC " ++ name ++ " deleted")])) /\
    saves evs = [] /\
    directives evs = delete_directives vpc.
Proof.
  intros Hvpc. unfold delete_vpc.
  rewrite bind_get_state, (get_mem _ _ _ Hvpc).
  change (negb true) with false. cbv iota.
  rewrite (bind_lookup _ _ _ _ _ _ Hvpc), bind_print.
  set (m0 := log host _ m).
  match goal with
  | |- context [bind host ?c ?k m0] =>
      destruct (bind_always_runs host c k _ m0 (delete_subnets_loop host vpc))
        as (a1 & m1 & evs1 & -> & Ht1 & Hs1 & Hd1 & Hv1 & Hx1)
  end.
  match goal with
  | |- context [bind host ?c ?k m1] =>
      destruct (bind_always_runs host c k _ m1 (delete_nat_loop host vpc))
        as (a2 & m2 & evs2 & -> & Ht2 & Hs2 & Hd2 & Hv2 & Hx2)
  end.
  match goal with
  | |- context [bind host ?c ?k m2] =>
      destruct (bind_always_runs host c k _ m2 (always_runs_unchecked host _ true))
        as (a3 & m3 & evs3 & -> & Ht3 & Hs3 & Hd3 & Hv3 & Hx3)
  end.
  match goal with
  | |- context [bind host ?c ?k m3] =>
      destruct (bind_always_runs host c k _ m3 (always_runs_unchecked host _ true))
        as (a4 & m4 & evs4 & -> & Ht4 & Hs4 & Hd4 & Hv4 & Hx4)
  end.
  match goal with
  | |- context [bind host ?c ?k m4] =>
      destruct (bind_always_runs host c k _ m4 (always_runs_unchecked host _ true))
        as (a5 & m5 & evs5 & -> & Ht5 & Hs5 & Hd5 & Hv5 & Hx5)
  end.
  unfold bind, modify_state, _save_state, print, log. cbn [state disk kern trace].
  assert (Hst : state m5 = state m).
  { rewrite Hs5, Hs4, Hs3, Hs2, Hs1. reflexivity. }
  rewrite Hst.
  exists ([Print ("[INFO] Deleting VPC: " ++ name)]
            ++ evs1 ++ evs2 ++ evs3 ++ evs4 ++ evs5)%list, (kern m5).
  split; [| split].
  - rewrite Ht5, Ht4, Ht3, Ht2, Ht1. unfold m0, log. cbn [trace].
    repeat rewrite <- app_assoc. reflexivity.
  - repeat rewrite saves_app. rewrite Hv1, Hv2, Hv3, Hv4, Hv5. reflexivity.
  - repeat rewrite directives_app. rewrite Hx1, Hx2, Hx3, Hx4, Hx5. reflexivity.
Qed.

Lemma del_set_fresh {V} (k : string) (v : V) (d : Dict.t V) :
  Dict.mem k d = false -> Dict.del k (Dict.set k v d) = d.
Proof.
  unfold Dict.mem. induction d as [| [k' v'] d IH]; simpl.
  - intros _. rewrite String.eqb_refl. reflexivity.
  - destruct (String.eqb k k') eqn:E; [discriminate |].
    intros H. simpl. rewrite E, (IH H). reflexivity.
Qed.

(** X7.  Whenever [create_vpc] returns normally, a second [create_vpc] with
    the same name, whatever its block and interface, is refused: it prints
    the [already exists] line and does nothing else. *)
Theorem create_vpc_twice
    (host : Host) (name cidr iface cidr' iface' : string) (m : Machine host) :
  fst (create_vpc host name cidr iface m) = Ok tt ->
  let m1 := snd (create_vpc host name cidr iface m) in
  create_vpc host name cidr' iface' m1
    = (Ok tt, log host (Print ("[ERROR] VPC " ++ name ++ " already exists")) m1).
Proof.
  intros Hok m1. subst m1. apply create_vpc_existing.
  destruct (Dict.mem name (vpcs (state m))) eqn:Emem.
  - rewrite (create_vpc_existing host name cidr iface m Emem). exact Emem.
  - destruct (create_vpc host name cidr iface m) as [r m'] eqn:E.
    simpl in Hok. subst r. cbn [snd].
    destruct (create_vpc_ok_inv host name cidr iface m m' Emem E)
      as (network & bridge_ip & evs & _ & Hs & _).
    rewrite Hs. cbn [vpcs]. eapply get_mem. apply get_set_same.
Qed.

Lemma create_vpc_twice_witness :
  let host := sim_host all_succeed no_files in
  let m1 := snd (create_vpc host "app1" "10.0.0.0/24" "eth0" (boot host [] None)) in
  create_vpc host "app1" "10.9.0.0/24" "eth1" m1
    = (Ok tt, log host (Print "[ERROR] VPC app1 already exists") m1).
Proof.
  intros host.
  apply (create_vpc_twice host "app1" "10.0.0.0/24" "eth0" "10.9.0.0/24" "eth1"
           (boot host [] None)).
  vm_compute. reflexivity.
Defined.

(** X8.  Creating a VPC that is not in the store and deleting it again
    gives back the store as it was, in memory and on disk; the deletion
    runs only the three directives that remove the isolation rules and the
    bridge. *)
Theorem create_then_delete_restores_store
    (host : Host) (name cidr iface : string) (m : Machine host) :
  Dict.mem name (vpcs (state m)) = false ->
  fst (create_vpc host name cidr iface m) = Ok tt ->
  let m1 := snd (create_vpc host name cidr iface m) in
  let r := delete_vpc host name m1 in
  fst r = Ok tt /\
  state (snd r) = state m /\
  disk (snd r) = Some (state m) /\
  exists evs,
    trace (snd r)
      = (trace m1 ++ evs
           ++ [Save (state m); Print ("[SUCCESS] VPC " ++ name ++ " deleted")])%list /\
    saves evs = [] /\
    directives evs
      = [ ("iptables -D FORWARD -i " ++ bridge_name name ++ " -o " ++ bridge_name name
             ++ " -j ACCEPT", false);
          ("iptables -D FORWARD -i " ++ bridge_name name ++ " ! -o " ++ bridge_name name
             ++ " -j DROP", false);
          ("ip link del " ++ bridge_name name, false) ].
Proof.
  intros Hmem Hok m1 r. subst r m1.
  destruct (create_vpc host name cidr iface m) as [r0 m1] eqn:E.
  simpl in Hok. subst r0. cbn [snd].
  destruct (create_vpc_ok_inv host name cidr iface m m1 Hmem E)
    as (network & bridge_ip & evs0 & _ & Hs & _).
  assert (Hget : Dict.get name (vpcs (state m1))
                 = Some (new_vpc name cidr bridge_ip iface)).
  { rewrite Hs. apply get_set_same. }
  destruct (delete_vpc_run host name m1 _ Hget) as (evs & k & -> & Hv & Hx).
  cbn [fst snd state disk trace].
  assert (Hback : mkState (Dict.del name (vpcs (state m1))) = state m).
  { rewrite Hs. cbn [vpcs]. rewrite (del_set_fresh _ _ _ Hmem).
    destruct (state m). reflexivity. }
  rewrite Hback.
  split; [reflexivity |]. split; [reflexivity |]. split; [reflexivity |].
  exists evs. split; [reflexivity |]. split; [exact Hv |].
  rewrite Hx. reflexivity.
Qed.

Lemma create_then_delete_restores_store_witness :
  let host := sim_host all_succeed no_files in
  let m := mkMachine host app1_store (Some app1_store) [] [] in
  let m1 := snd (create_vpc host "app2" "10.1.0.0/24" "eth0" m) in
  state (snd (delete_vpc host "app2" m1)) = app1_store /\
  disk (snd (delete_vpc host "app2" m1)) = Some app1_store.
Proof.
  intros host m m1.
  destruct (create_then_delete_restores_store host "app2" "10.1.0.0/24" "eth0" m)
    as (_ & Hs & Hd & _).
  - reflexivity.
  - vm_compute. reflexivity.
  - split; assumption.
Defined.

(** X9.  [delete_vpc] never raises, and after it the VPC is not in the
    store: a second [delete_vpc] of the same name prints the [not found]
    line and does nothing else. *)
Theorem delete_vpc_twice (host : Host) (name : string) (m : Machine host) :
  let m1 := snd (delete_vpc host name m) in
  fst (delete_vpc host name m) = Ok tt /\
  Dict.mem name (vpcs (state m1)) = false /\
  delete_vpc host name m1
    = (Ok tt, log host (Print ("[ERROR] VPC " ++ name ++ " not found")) m1).
Proof.
  cbv zeta.
  assert (H : fst (delete_vpc host name m) = Ok tt /\
              Dict.mem name (vpcs (state (snd (delete_vpc host name m)))) = false).
  { destruct (Dict.get name (vpcs (state m))) as [vpc |] eqn:Eget.
    - destruct (delete_vpc_run host name m vpc Eget) as (evs & k & -> & _).
      cbn [fst snd state vpcs]. split; [reflexivity | apply mem_del].
    - assert (Emem : Dict.mem name (vpcs (state m)) = false).
      { unfold Dict.mem. rewrite Eget. reflexivity. }
      rewrite (delete_vpc_missing host name m Emem). split; [reflexivity | exact Emem]. }
  destruct H as [Hok Hmem].
  split; [exact Hok |]. split; [exact Hmem |].
  apply delete_vpc_missing. exact Hmem.
Qed.

(** ** What an operation may write *)

Lemma get_set_other {V} (k k' : string) (v : V) (d : Dict.t V) :
  k <> k' -> Dict.get k' (Dict.set k v d) = Dict.get k' d.
Proof.
  intros Hne. induction d as [| [k0 v0] d IH]; simpl.
  - destruct (String.eqb k' k) eqn:E; [| reflexivity].
    apply String.eqb_eq in E. congruence.
  - destruct (String.eqb k k0) eqn:E; simpl.
    + apply String.eqb_eq in E. subst k0.
      destruct (String.eqb k' k) eqn:E'; [| reflexivity].
      apply String.eqb_eq in E'. congruence.
    + destruct (String.eqb k' k0); [reflexivity | exact IH].
Qed.

Section Commits.

Variable host : Host.
Variable P : (State -> State) -> Prop.

Lemma commits_in_of_quiet {A} (c : M host A) : quiet c -> commits_in P c.
Proof.
  intros Hc m. destruct (Hc m) as (evs & _ & Hs & Hd & _).
  left. split; assumption.
Qed.

Lemma commits_in_bind {A B} (c : M host A) (k : A -> M host B) :
  quiet c -> (forall a, commits_in P (k a)) -> commits_in P (bind host c k).
Proof.
  intros Hc Hk m. unfold bind.
  destruct (Hc m) as (evs & _ & Hs & Hd & _).
  destruct (c m) as [[a | e] m1]; simpl in *.
  - destruct (Hk a m1) as [[Hs' Hd'] | (f & Hf & Hs' & Hd')].
    + left. rewrite Hs', Hd'. split; assumption.
    + right. exists f. rewrite Hs', Hd', Hs. repeat split. exact Hf.
  - left. split; assumption.
Qed.

Lemma commits_in_commit (f : State -> State) (line : string) :
  P f ->
  commits_in P (bind host (modify_state host f)
                  (fun _ => bind host (_save_state host) (fun _ => print host line))).
Proof.
  intros Hf m. right. exists f. repeat split. exact Hf.
Qed.

End Commits.

Ltac quiet_tac :=
  match goal with
  | |- quiet (bind _ _ _) => apply quiet_bind; [ | intros ]
  | |- quiet (_run_cmd _ _ _ _) => apply quiet_run_cmd
  | |- quiet (print _ _) => apply quiet_print
  | |- quiet (get_state _) => apply quiet_get_state
  | |- quiet (lookup _ _ _) => apply quiet_lookup
  | |- quiet (ret _ _) => apply quiet_ret
  | |- quiet (raise _ (PolicyLoadError _)) => apply quiet_raise_policy
  | |- quiet (lift _ (plan_bridge _ _)) => apply quiet_plan_bridge
  | |- quiet (lift _ (plan_subnet _ _)) => apply quiet_plan_subnet
  | |- quiet (for_each _ _ _) => apply quiet_for_each; intros
  | |- quiet (_setup_nat _ _ _) => unfold _setup_nat
  | |- quiet (if ?b then _ else _) => destruct b
  | |- quiet (match ?x with _ => _ end) => destruct x
  end.

Ltac commits_tac :=
  match goal with
  | |- commits_in _ (bind _ (modify_state _ _) _) => apply commits_in_commit
  | |- commits_in _ (bind _ _ _) =>
      apply commits_in_bind; [ solve [repeat quiet_tac] | intros ]
  | |- commits_in _ (if ?b then _ else _) => destruct b
  | |- commits_in _ (match ?x with _ => _ end) => destruct x
  | |- commits_in _ _ => apply commits_in_of_quiet; solve [repeat quiet_tac]
  end.

Lemma dispatch_commits (host : Host) (c : command) :
  commits_in (touches_only (target c)) (dispatch host c).
Proof.
  destruct c as [name cidr iface | vpc name cidr type | vpc1 vpc2
                | vpc subnet policy | | name]; simpl.
  - unfold create_vpc. cbv zeta. repeat commits_tac.
    intros st v Hne. cbn [vpcs]. apply get_set_other. congruence.
  - unfold add_subnet. cbv zeta. repeat commits_tac.
    intros st v Hne. destruct (Dict.get vpc (vpcs st)); [| reflexivity].
    cbn [vpcs]. apply get_set_other. congruence.
  - apply commits_in_of_quiet, quiet_peer_vpcs.
  - apply commits_in_of_quiet, quiet_apply_firewall.
  - apply commits_in_of_quiet, quiet_list_vpcs.
  - unfold delete_vpc. repeat commits_tac.
    intros st v Hne. cbn [vpcs]. apply get_del_other. congruence.
Qed.

(** X10.  No operation touches the record of a VPC other than the one it
    is given: whatever the command and its outcome, every other VPC of the
    store is afterwards what it was before. *)
Theorem other_vpcs_untouched
    (host : Host) (c : command) (m : Machine host) (v : string) :
  target c <> Some v ->
  Dict.get v (vpcs (state (snd (dispatch host c m)))) = Dict.get v (vpcs (state m)).
Proof.
  intros Hne.
  destruct (dispatch_commits host c m) as [[Hs _] | (f & Hf & Hs & _)].
  - rewrite Hs. reflexivity.
  - rewrite Hs. apply Hf. exact Hne.
Qed.

(** [delete-vpc app2] and [add-subnet app2 ...] leave [app1] alone. *)
Lemma other_vpcs_untouched_witness :
  let host := sim_host all_succeed no_files in
  let m := mkMachine host app1_store (Some app1_store) [] [] in
  Dict.get "app1" (vpcs (state (snd (dispatch host (DeleteVpc "app2") m))))
    = Some app1_vpc.
Proof.
  intros host m.
  rewrite (other_vpcs_untouched host (DeleteVpc "app2") m "app1").
  - reflexivity.
  - discriminate.
Defined.

Lemma main_run (host : Host) (c : command) (m : Machine host) :
  main host c m
    = dispatch host c
        (mkMachine host (match disk m with Some st => st | None => mkState [] end)
                   (disk m) (kern m) (trace m)).
Proof.
  unfold main, __init__, _load_state, modify_state, bind.
  destruct m as [st [d |] k t]; reflexivity.
Qed.

(** X11.  After any run of [main], normal or not, the state file holds what
    the manager has in memory: the next invocation loads exactly the store
    this one ended with.  The file is either untouched or holds the final
    store. *)
Theorem main_leaves_disk_in_sync (host : Host) (c : command) (m : Machine host) :
  let m' := snd (main host c m) in
  fst (_load_state host m') = Ok (state m') /\
  (disk m' = disk m \/ disk m' = Some (state m')).
Proof.
  cbv zeta. rewrite main_run.
  set (m0 := mkMachine host _ (disk m) (kern m) (trace m)).
  unfold _load_state.
  destruct (dispatch_commits host c m0) as [[Hs Hd] | (f & _ & Hs & Hd)].
  - rewrite Hd, Hs. subst m0. cbn [state disk].
    split; [| left; reflexivity].
    destruct (disk m); reflexivity.
  - rewrite Hd, Hs. split; [reflexivity | right; reflexivity].
Qed.

(** ** IPv4 blocks *)

Lemma int_digits_nonneg (s : string) (acc : Z) :
  PyStr.all_chars PyStr.is_digit s = true -> 0 <= acc -> 0 <= PyStr.int_digits acc s.
Proof.
  revert acc. induction s as [| a s IH]; intros acc Hd Hacc;
    cbn [PyStr.all_chars PyStr.int_digits] in *.
  - exact Hacc.
  - apply andb_prop in Hd. destruct Hd as [Ha Hs].
    apply IH; [exact Hs |].
    unfold PyStr.is_digit in Ha. cbv zeta in Ha.
    apply andb_prop in Ha. destruct Ha as [Ha _].
    apply Z.leb_le in Ha. lia.
Qed.

Lemma parse_octet_range (o : string) (v : Z) :
  IPAddr.parse_octet o = Some v -> 0 <= v <= 255.
Proof.
  unfold IPAddr.parse_octet.
  destruct (PyStr.isdigit o) eqn:Ed; cbn [negb]; [| discriminate].
  destruct (3 <? String.length o)%nat; [discriminate |].
  destruct (negb (String.eqb o "0") && PyStr.contains "0" (PyStr.take 1 o));
    [discriminate |].
  cbv zeta.
  destruct (255 <? PyStr.int10 o) eqn:E; [discriminate |].
  intros H. inversion H; subst. apply Z.ltb_ge in E. split; [| exact E].
  unfold PyStr.int10. apply int_digits_nonneg; [| lia].
  unfold PyStr.isdigit in Ed. destruct o; [discriminate | exact Ed].
Qed.

Lemma parse_octets_range (l : list string) (bs : list Z) :
  IPAddr.parse_octets l = Some bs ->
  List.length bs = List.length l /\ Forall (fun b => 0 <= b <= 255) bs.
Proof.
  revert bs. induction l as [| o l IH]; intros bs; simpl.
  - intros H. inversion H. split; [reflexivity | constructor].
  - destruct (IPAddr.parse_octet o) as [b |] eqn:Eo; [| discriminate].
    destruct (IPAddr.parse_octets l) as [bs' |]; [| discriminate].
    intros H. inversion H; subst. destruct (IH bs' eq_refl) as [Hlen Hall].
    split; [simpl; rewrite Hlen; reflexivity |].
    constructor; [eapply parse_octet_range; eassumption | exact Hall].
Qed.

Lemma ip_int_from_string_range (s : string) (ip : Z) :
  IPAddr.ip_int_from_string s = Some ip -> 0 <= ip < 2 ^ 32.
Proof.
  unfold IPAddr.ip_int_from_string. destruct s as [| a s]; [discriminate |].
  destruct (negb (List.length (PyStr.split "." (String a s)) =? 4)%nat) eqn:El;
    [discriminate |].
  destruct (IPAddr.parse_octets (PyStr.split "." (String a s))) as [bs |] eqn:Ep;
    [| discriminate].
  intros H. inversion H; subst.
  destruct (parse_octets_range _ _ Ep) as [Hlen Hall].
  apply negb_false_iff, Nat.eqb_eq in El. rewrite El in Hlen.
  destruct bs as [| b1 [| b2 [| b3 [| b4 [| b5 bs]]]]]; try discriminate.
  inversion Hall as [| ? ? H1 Hall1]; subst.
  inversion Hall1 as [| ? ? H2 Hall2]; subst.
  inversion Hall2 as [| ? ? H3 Hall3]; subst.
  inversion Hall3 as [| ? ? H4 _]; subst.
  cbn [IPAddr.from_bytes_big]. change (2 ^ 32) with 4294967296. lia.
Qed.

Lemma bit_length_nonneg (x : Z) : 0 <= IPAddr.bit_length x.
Proof.
  unfold IPAddr.bit_length. destruct (x =? 0); [lia |].
  pose proof (Z.log2_nonneg (Z.abs x)). lia.
Qed.

Lemma prefix_from_ip_int_range (ip p : Z) :
  IPAddr.prefix_from_ip_int ip = Some p -> 0 <= p <= 32.
Proof.
  unfold IPAddr.prefix_from_ip_int. cbv zeta.
  set (tz := IPAddr.count_righthand_zero_bits ip 32).
  assert (Htz : 0 <= tz <= 32).
  { unfold tz, IPAddr.count_righthand_zero_bits. destruct (ip =? 0); [lia |].
    pose proof (bit_length_nonneg (Z.land (Z.lnot ip) (ip - 1))). lia. }
  clearbody tz.
  destruct (Z.shiftr ip tz =? Z.shiftl 1 (32 - tz) - 1); [| discriminate].
  intros H. assert (Hp : 32 - tz = p) by congruence. lia.
Qed.

Lemma make_netmask_range (mask : string) (p : Z) :
  IPAddr.make_netmask mask = Some p -> 0 <= p <= 32.
Proof.
  unfold IPAddr.make_netmask, IPAddr.prefix_from_prefix_string,
    IPAddr.prefix_from_ip_string.
  destruct (PyStr.isdigit mask); cbn [negb].
  - cbv zeta.
    destruct ((0 <=? PyStr.int10 mask) && (PyStr.int10 mask <=? 32)) eqn:E.
    + intros H. inversion H; subst. apply andb_prop in E. destruct E as [E1 E2].
      apply Z.leb_le in E1, E2. lia.
    + destruct (IPAddr.ip_int_from_string mask) as [ip |]; [| discriminate].
      destruct (IPAddr.prefix_from_ip_int ip) as [q |] eqn:Eq.
      * intros H. inversion H; subst. eapply prefix_from_ip_int_range; eassumption.
      * apply prefix_from_ip_int_range.
  - destruct (IPAddr.ip_int_from_string mask) as [ip |]; [| discriminate].
    destruct (IPAddr.prefix_from_ip_int ip) as [q |] eqn:Eq.
    + intros H. inversion H; subst. eapply prefix_from_ip_int_range; eassumption.
    + apply prefix_from_ip_int_range.
Qed.

(** What [IPv4Network] returns is a well-formed IPv4 network. *)
Lemma IPv4Network_wf (address : string) (n : IPAddr.Network) :
  IPAddr.IPv4Network address = inr n ->
  IPAddr.net_version n = IPAddr.V4 /\ IPAddr.wf n.
Proof.
  unfold IPAddr.IPv4Network, IPAddr.wf.
  destruct (PyStr.split "/" address) as [| addr [| mask [| x rest]]]; try discriminate.
  - destruct (IPAddr.ip_int_from_string addr) as [ip |] eqn:Eip; [| discriminate].
    intros H. inversion H; subst.
    cbn [IPAddr.net_version IPAddr.prefixlen IPAddr.network_address].
    pose proof (ip_int_from_string_range _ _ Eip) as Hr.
    change (2 ^ 32) with 4294967296 in Hr.
    change (IPAddr.max_prefixlen IPAddr.V4) with 32.
    change (IPAddr.ALL_ONES IPAddr.V4) with 4294967295.
    split; [reflexivity |]. split; [lia |]. split; [lia |].
    change (Z.land ip (Z.ones 32) = ip).
    rewrite Z.land_ones by lia. apply Z.mod_small.
    change (2 ^ 32) with 4294967296. lia.
  - destruct (IPAddr.ip_int_from_string addr) as [ip |] eqn:Eip; [| discriminate].
    destruct (IPAddr.make_netmask mask) as [p |] eqn:Ep; [| discriminate].
    destruct (Z.land ip (IPAddr.ip_int_from_prefix IPAddr.V4 p) =? ip) eqn:El;
      [| discriminate].
    intros H. inversion H; subst.
    cbn [IPAddr.net_version IPAddr.prefixlen IPAddr.network_address].
    pose proof (ip_int_from_string_range _ _ Eip) as Hr.
    change (2 ^ 32) with 4294967296 in Hr.
    pose proof (make_netmask_range _ _ Ep).
    change (IPAddr.max_prefixlen IPAddr.V4) with 32.
    change (IPAddr.ALL_ONES IPAddr.V4) with 4294967295.
    split; [reflexivity |]. split; [lia |]. split; [lia |].
    apply Z.eqb_eq in El. exact El.
Qed.

Lemma shiftr_all_ones (p : Z) :
  0 <= p <= 32 -> Z.shiftr (Z.ones 32) p = Z.ones (32 - p).
Proof.
  intros Hp. rewrite Z.shiftr_div_pow2 by lia. apply Z.ones_div_pow2. lia.
Qed.

Lemma hostmask_v4 (n : IPAddr.Network) :
  IPAddr.net_version n = IPAddr.V4 ->
  0 <= IPAddr.prefixlen n <= 32 ->
  IPAddr.netmask n = Z.lxor (Z.ones 32) (Z.ones (32 - IPAddr.prefixlen n)) /\
  IPAddr.hostmask n = Z.ones (32 - IPAddr.prefixlen n).
Proof.
  intros Hv Hp. unfold IPAddr.hostmask, IPAddr.netmask, IPAddr.ip_int_from_prefix.
  rewrite Hv. change (IPAddr.ALL_ONES IPAddr.V4) with (Z.ones 32).
  rewrite (shiftr_all_ones _ Hp). split; [reflexivity |].
  rewrite Z.lxor_comm, <- Z.lxor_assoc, Z.lxor_nilpotent, Z.lxor_0_l. reflexivity.
Qed.

(** The broadcast address of a well-formed IPv4 network. *)
Lemma broadcast_v4 (n : IPAddr.Network) :
  IPAddr.net_version n = IPAddr.V4 -> IPAddr.wf n ->
  IPAddr.broadcast_address n
    = IPAddr.network_address n + 2 ^ (32 - IPAddr.prefixlen n) - 1.
Proof.
  intros Hv (Hp & Ha & Hland). rewrite Hv in Hp.
  change (IPAddr.max_prefixlen IPAddr.V4) with 32 in Hp.
  destruct (hostmask_v4 n Hv Hp) as [Hnm Hhm].
  unfold IPAddr.broadcast_address. rewrite Hhm. rewrite Hnm in Hland.
  set (net := IPAddr.network_address n) in *.
  set (k := 32 - IPAddr.prefixlen n) in *.
  assert (Hk : 0 <= k <= 32) by (unfold k; lia).
  assert (Hdisj : Z.land net (Z.ones k) = 0).
  { apply Z.bits_inj'. intros i Hi. rewrite Z.land_spec, Z.bits_0.
    destruct (Z.testbit (Z.ones k) i) eqn:Eh; [| apply andb_false_r].
    apply Z.ones_spec_iff in Eh; [| lia].
    rewrite <- Hland, Z.land_spec, Z.lxor_spec.
    rewrite (Z.ones_spec_low 32 i) by lia.
    rewrite (Z.ones_spec_low k i) by lia.
    simpl. rewrite !andb_false_r. reflexivity. }
  rewrite <- (Z.lxor_lor _ _ Hdisj), <- (Z.add_nocarry_lxor _ _ Hdisj).
  rewrite Z.ones_equiv. lia.
Qed.

Lemma range_length (lo hi : Z) : List.length (IPAddr.range lo hi) = Z.to_nat (hi - lo).
Proof. unfold IPAddr.range. rewrite length_map, length_seq. reflexivity. Qed.

Lemma pow2_ge_4 (k : Z) : 2 <= k -> 4 <= 2 ^ k.
Proof.
  intros Hk. change 4 with (2 ^ 2). apply Z.pow_le_mono_r; lia.
Qed.

(** The host list of a well-formed IPv4 network. *)
Lemma hosts_v4 (n : IPAddr.Network) :
  IPAddr.net_version n = IPAddr.V4 -> IPAddr.wf n ->
  let net := IPAddr.network_address n in
  let p := IPAddr.prefixlen n in
  (p = 32 /\ IPAddr.hosts n = [net]) \/
  (p = 31 /\ IPAddr.hosts n = [net; net + 1]) \/
  (p <= 30 /\
   IPAddr.hosts n = (net + 1) :: (net + 2) :: IPAddr.range (net + 3) (net + 2 ^ (32 - p) - 1) /\
   List.length (IPAddr.hosts n) = Z.to_nat (2 ^ (32 - p) - 2)).
Proof.
  intros Hv Hwf. cbv zeta.
  pose proof (broadcast_v4 n Hv Hwf) as Hb.
  destruct Hwf as (Hp & _ & _). rewrite Hv in Hp.
  change (IPAddr.max_prefixlen IPAddr.V4) with 32 in Hp.
  unfold IPAddr.hosts. rewrite Hv, Hb.
  change (IPAddr.max_prefixlen IPAddr.V4) with 32.
  set (net := IPAddr.network_address n). set (p := IPAddr.prefixlen n) in *.
  change (32 - 1) with 31.
  destruct (p =? 31) eqn:E31.
  - apply Z.eqb_eq in E31. right. left. split; [exact E31 |].
    rewrite E31. change (2 ^ (32 - 31)) with 2.
    rewrite (range_cons net) by lia. rewrite (range_cons (net + 1)) by lia.
    rewrite range_nil by lia. reflexivity.
  - apply Z.eqb_neq in E31. destruct (p =? 32) eqn:E32.
    + apply Z.eqb_eq in E32. left. split; [exact E32 | reflexivity].
    + apply Z.eqb_neq in E32. right. right.
      assert (Hp30 : p <= 30) by lia.
      pose proof (pow2_ge_4 (32 - p) ltac:(lia)) as Hpow.
      split; [exact Hp30 |]. split.
      * rewrite (range_cons (net + 1)) by lia.
        rewrite (range_cons (net + 1 + 1)) by lia.
        replace (net + 1 + 1) with (net + 2) by lia.
        replace (net + 2 + 1) with (net + 3) by lia. reflexivity.
      * rewrite range_length. f_equal. lia.
Qed.

(** The value of [plan_bridge] on an accepted IPv4 block.  The planner of
    the embedding computes the host list at no cost; what follows is about
    the values the code computes when the list fits in memory. *)
Lemma plan_bridge_ipv4_value (host : Host) (cidr : string) (n : IPAddr.Network) :
  IPAddr.IPv4Network cidr = inr n ->
  let h0 := IPAddr.network_address n + (if 31 <=? IPAddr.prefixlen n then 0 else 1) in
  plan_bridge host cidr = Ok (n, IPAddr.string_from_ip_int h0) /\
  IPAddr.contains n h0 /\
  0 <= IPAddr.prefixlen n <= 32.
Proof.
  intros H. cbv zeta.
  destruct (IPv4Network_wf cidr n H) as [Hv Hwf].
  pose proof (broadcast_v4 n Hv Hwf) as Hb.
  pose proof Hwf as (Hp & _ & _). rewrite Hv in Hp.
  change (IPAddr.max_prefixlen IPAddr.V4) with 32 in Hp.
  unfold plan_bridge, ip_network, str_address, IPAddr.contains.
  rewrite H, Hv, Hb.
  destruct (hosts_v4 n Hv Hwf) as [[E ->] | [[E ->] | (E & -> & _)]];
    cbn [index nth_error].
  - rewrite E. change (31 <=? 32) with true. change (2 ^ (32 - 32)) with 1.
    rewrite Z.add_0_r. repeat split; lia.
  - rewrite E. change (31 <=? 31) with true. change (2 ^ (32 - 31)) with 2.
    rewrite Z.add_0_r. repeat split; lia.
  - assert (E' : (31 <=? IPAddr.prefixlen n) = false) by (apply Z.leb_gt; lia).
    rewrite E'. pose proof (pow2_ge_4 (32 - IPAddr.prefixlen n) ltac:(lia)).
    repeat split; lia.
Qed.

(** X12.  For every IPv4 block that [ipaddress] accepts, the planner of
    [create_vpc] never rejects the block: it raises neither [ValueError] nor
    [IndexError] (the host list is never empty), and whenever it returns,
    it returns that block and, as bridge address, the address after the
    network address, or the network address itself for a /31 or /32 block
    (a bare address is a /32 block); this address lies in the block. *)
Theorem plan_bridge_ipv4 (host : Host) (cidr : string) (n : IPAddr.Network) :
  IPAddr.IPv4Network cidr = inr n ->
  let h0 := IPAddr.network_address n + (if 31 <=? IPAddr.prefixlen n then 0 else 1) in
  (forall net ip,
      plan_bridge host cidr = Ok (net, ip) ->
      net = n /\ ip = IPAddr.string_from_ip_int h0) /\
  plan_bridge host cidr <> Raise ValueError /\
  plan_bridge host cidr <> Raise IndexError /\
  nth_error (IPAddr.hosts n) 0 = Some h0 /\
  IPAddr.contains n h0 /\
  0 <= IPAddr.prefixlen n <= 32.
Proof.
  intros H h0.
  destruct (plan_bridge_ipv4_value host cidr n H) as (Hv & Hc & Hp).
  fold h0 in Hv, Hc.
  split; [intros net ip Hok; rewrite Hv in Hok; injection Hok as <- <-; auto |].
  split; [rewrite Hv; discriminate |].
  split; [rewrite Hv; discriminate |].
  split; [| split; assumption].
  destruct (IPv4Network_wf cidr n H) as [Hver Hwf]. subst h0.
  destruct (hosts_v4 n Hver Hwf) as [[E ->] | [[E ->] | (E & -> & _)]];
    cbn [nth_error].
  - rewrite E. change (31 <=? 32) with true. rewrite Z.add_0_r. reflexivity.
  - rewrite E. change (31 <=? 31) with true. rewrite Z.add_0_r. reflexivity.
  - assert (E' : (31 <=? IPAddr.prefixlen n) = false) by (apply Z.leb_gt; lia).
    rewrite E'. reflexivity.
Qed.

(** The bare address [192.168.7.9] and the block [192.168.7.8/30]. *)
Lemma plan_bridge_ipv4_witness :
  let host := sim_host all_succeed no_files in
  plan_bridge host "192.168.7.9" <> Raise IndexError /\
  nth_error (IPAddr.hosts (IPAddr.mkNetwork IPAddr.V4 3232237321 32)) 0
    = Some 3232237321 /\
  (forall net ip, plan_bridge host "192.168.7.8/30" = Ok (net, ip) ->
                  ip = "192.168.7.9").
Proof.
  intros host.
  destruct (plan_bridge_ipv4 host "192.168.7.9"
              (IPAddr.mkNetwork IPAddr.V4 3232237321 32))
    as (_ & _ & Hi & Hh & _); [vm_compute; reflexivity |].
  destruct (plan_bridge_ipv4 host "192.168.7.8/30"
              (IPAddr.mkNetwork IPAddr.V4 3232237320 30))
    as (Hr & _); [vm_compute; reflexivity |].
  split; [exact Hi |]. split; [exact Hh |].
  intros net ip Hok. destruct (Hr net ip Hok) as [_ ->]. vm_compute. reflexivity.
Defined.

(** The value of [plan_subnet] on an accepted IPv4 block, the host list
    again computed at no cost. *)
Lemma plan_subnet_ipv4_value (host : Host) (cidr : string) (n : IPAddr.Network) :
  IPAddr.IPv4Network cidr = inr n ->
  let h0 := IPAddr.network_address n + (if IPAddr.prefixlen n =? 31 then 0 else 1) in
  plan_subnet host cidr
    = if IPAddr.prefixlen n =? 32 then Raise IndexError
      else Ok (n, IPAddr.string_from_ip_int h0, IPAddr.string_from_ip_int (h0 + 1)).
Proof.
  intros H. cbv zeta.
  destruct (IPv4Network_wf cidr n H) as [Hv Hwf].
  unfold plan_subnet, ip_network, str_address.
  rewrite H, Hv.
  destruct (hosts_v4 n Hv Hwf) as [[E ->] | [[E ->] | (E & -> & _)]];
    cbn [index nth_error].
  - rewrite E. reflexivity.
  - rewrite E. change (31 =? 32) with false. change (31 =? 31) with true.
    rewrite Z.add_0_r. reflexivity.
  - assert (E1 : (IPAddr.prefixlen n =? 32) = false) by (apply Z.eqb_neq; lia).
    assert (E2 : (IPAddr.prefixlen n =? 31) = false) by (apply Z.eqb_neq; lia).
    rewrite E1, E2.
    replace (IPAddr.network_address n + 1 + 1) with (IPAddr.network_address n + 2)
      by lia.
    reflexivity.
Qed.

(** X13.  For an IPv4 block that [ipaddress] accepts, the planner of
    [add_subnet] raises [IndexError] exactly when the block is a /32 (in
    particular a bare address): its host list is the single address.  It
    never raises [ValueError] on such a block, and whenever it returns, it
    returns that block and, as subnet address and gateway, the first two
    hosts: network address plus one and plus two, or the two addresses of a
    /31 block. *)
Theorem plan_subnet_ipv4 (host : Host) (cidr : string) (n : IPAddr.Network) :
  IPAddr.IPv4Network cidr = inr n ->
  let h0 := IPAddr.network_address n + (if IPAddr.prefixlen n =? 31 then 0 else 1) in
  (plan_subnet host cidr = Raise IndexError <-> IPAddr.prefixlen n = 32) /\
  (IPAddr.prefixlen n = 32 -> IPAddr.hosts n = [IPAddr.network_address n]) /\
  plan_subnet host cidr <> Raise ValueError /\
  (forall net ip gw,
      plan_subnet host cidr = Ok (net, ip, gw) ->
      net = n /\
      ip = IPAddr.string_from_ip_int h0 /\
      gw = IPAddr.string_from_ip_int (h0 + 1) /\
      firstn 2 (IPAddr.hosts n) = [h0; h0 + 1]).
Proof.
  intros H h0.
  pose proof (plan_subnet_ipv4_value host cidr n H) as Hv. cbv zeta in Hv.
  fold h0 in Hv.
  destruct (IPv4Network_wf cidr n H) as [Hver Hwf].
  destruct (IPAddr.prefixlen n =? 32) eqn:E32.
  - apply Z.eqb_eq in E32.
    split; [split; [intros _; exact E32 | intros _; exact Hv] |].
    split.
    { intros _. destruct (hosts_v4 n Hver Hwf) as [[_ E] | [[E _] | (E & _)]];
        [exact E | lia | lia]. }
    split; [rewrite Hv; discriminate |].
    intros net ip gw Hok. rewrite Hv in Hok. discriminate.
  - apply Z.eqb_neq in E32.
    split; [split; [rewrite Hv; discriminate | intros E; contradiction] |].
    split; [intros E; contradiction |].
    split; [rewrite Hv; discriminate |].
    intros net ip gw Hok. rewrite Hv in Hok. injection Hok as <- <- <-.
    split; [reflexivity |]. split; [reflexivity |]. split; [reflexivity |].
    subst h0.
    destruct (hosts_v4 n Hver Hwf) as [[E _] | [[E ->] | (E & -> & _)]].
    + contradiction.
    + rewrite E. change (31 =? 31) with true. rewrite Z.add_0_r. reflexivity.
    + assert (E' : (IPAddr.prefixlen n =? 31) = false) by (apply Z.eqb_neq; lia).
      rewrite E'. cbn [firstn].
      replace (IPAddr.network_address n + 1 + 1)
        with (IPAddr.network_address n + 2) by lia.
      reflexivity.
Qed.

(** The bare address [192.168.7.9] and the block [192.168.7.8/30]. *)
Lemma plan_subnet_ipv4_witness :
  let host := sim_host all_succeed no_files in
  plan_subnet host "192.168.7.9" = Raise IndexError /\
  (forall net ip gw,
      plan_subnet host "192.168.7.8/30" = Ok (net, ip, gw) ->
      ip = "192.168.7.9" /\ gw = "192.168.7.10").
Proof.
  intros host.
  destruct (plan_subnet_ipv4 host "192.168.7.9"
              (IPAddr.mkNetwork IPAddr.V4 3232237321 32))
    as (Hi & _); [vm_compute; reflexivity |].
  destruct (plan_subnet_ipv4 host "192.168.7.8/30"
              (IPAddr.mkNetwork IPAddr.V4 3232237320 30))
    as (_ & _ & _ & Hr); [vm_compute; reflexivity |].
  split; [apply Hi; reflexivity |].
  intros net ip gw Hok. destruct (Hr net ip gw Hok) as (_ & -> & -> & _).
  split; vm_compute; reflexivity.
Defined.

(** ** Interface names *)

Lemma length_append (s1 s2 : string) :
  String.length (s1 ++ s2) = (String.length s1 + String.length s2)%nat.
Proof. induction s1 as [| a s1 IH]; simpl; [reflexivity | rewrite IH; reflexivity]. Qed.

Lemma length_take (n : nat) (s : string) :
  String.length (PyStr.take n s) = Nat.min n (String.length s).
Proof.
  unfold PyStr.take. revert s. induction n as [| n IH]; intros s.
  - destruct s; reflexivity.
  - destruct s as [| a s]; [reflexivity |]. simpl. rewrite IH. reflexivity.
Qed.

Lemma length_hex_of_bytes (bs : list Z) :
  String.length (MD5.hex_of_bytes bs) = (2 * List.length bs)%nat.
Proof. induction bs as [| b bs IH]; simpl; [reflexivity | rewrite IH; lia]. Qed.

Lemma length_le_bytes (n : nat) (x : Z) : List.length (MD5.le_bytes n x) = n.
Proof. revert x. induction n as [| n IH]; intros x; simpl; [| rewrite IH]; reflexivity. Qed.

Lemma length_hexdigest (s : string) : String.length (MD5.hexdigest s) = 32%nat.
Proof.
  unfold MD5.hexdigest, MD5.digest. cbv zeta.
  rewrite length_hex_of_bytes, !length_app, !length_le_bytes. reflexivity.
Qed.

Lemma length_name_hash (a b : string) : String.length (name_hash a b) = 6%nat.
Proof. unfold name_hash. rewrite length_take, length_hexdigest. reflexivity. Qed.

(** X14.  Whatever the VPC and subnet names, the hashed interface names
    have a fixed length, under the 15 characters of a Linux interface name:
    8 for the two ends of a subnet link, 9 for the two ends of a peering
    link.  The bridge name is not shortened: it is three characters longer
    than the VPC name. *)
Theorem interface_name_lengths (a b : string) :
  String.length (veth_host a b) = 8%nat /\
  String.length (veth_ns a b) = 8%nat /\
  String.length (peer_veth1 a b) = 9%nat /\
  String.length (peer_veth2 a b) = 9%nat /\
  String.length (bridge_name a) = (3 + String.length a)%nat.
Proof.
  unfold veth_host, veth_ns, peer_veth1, peer_veth2, bridge_name.
  rewrite !length_append, !length_name_hash. repeat split.
Qed.

(** ** apply_firewall: the policy file *)

(** X15.  On an existing VPC and subnet, a policy file that cannot be
    opened or parsed makes [apply_firewall] raise at once: nothing is
    printed, no directive is run, nothing changes. *)
Theorem apply_firewall_unreadable_policy
    (host : Host) (vpc_name subnet_name policy_file : string)
    (m : Machine host) (vpc : VPC.t) (subnet : Subnet.t) :
  Dict.get vpc_name (vpcs (state m)) = Some vpc ->
  Dict.get subnet_name (VPC.subnets vpc) = Some subnet ->
  load_json host policy_file = None ->
  apply_firewall host vpc_name subnet_name policy_file m
    = (Raise (PolicyLoadError policy_file), m).
Proof.
  intros Hvpc Hsub Hload. unfold apply_firewall.
  rewrite bind_get_state, (get_mem _ _ _ Hvpc).
  change (negb true) with false. cbv iota.
  rewrite (bind_lookup _ _ _ _ _ _ Hvpc), (get_mem _ _ _ Hsub).
  change (negb true) with false. cbv iota.
  rewrite (bind_lookup _ _ _ _ _ _ Hsub). rewrite Hload. reflexivity.
Qed.

Lemma apply_firewall_unreadable_policy_witness :
  let host := sim_host all_succeed no_files in
  let m := mkMachine host app1_store (Some app1_store) [] [] in
  apply_firewall host "app1" "web" "missing.json" m
    = (Raise (PolicyLoadError "missing.json"), m).
Proof.
  intros host m.
  apply (apply_firewall_unreadable_policy host "app1" "web" "missing.json" m
           app1_vpc web_subnet); reflexivity.
Defined.

(** ** apply_firewall twice *)

Lemma apply_firewall_ok
    (host : Host) (vpc_name subnet_name policy_file : string)
    (m : Machine host) (vpc : VPC.t) (subnet : Subnet.t) (policy : Policy) :
  Dict.get vpc_name (vpcs (state m)) = Some vpc ->
  Dict.get subnet_name (VPC.subnets vpc) = Some subnet ->
  load_json host policy_file = Some policy ->
  fst (apply_firewall host vpc_name subnet_name policy_file m) = Ok tt ->
  state (snd (apply_firewall host vpc_name subnet_name policy_file m)) = state m /\
  exists evs,
    trace (snd (apply_firewall host vpc_name subnet_name policy_file m))
      = (trace m ++ evs)%list /\
    directives evs
      = firewall_directives (Subnet.namespace subnet) (ingress_rules policy).
Proof.
  intros Hvpc Hsub Hload.
  rewrite (apply_firewall_run host _ _ _ m vpc subnet policy Hvpc Hsub Hload).
  set (m0 := log host _ m).
  destruct (firewall_loop host (Subnet.namespace subnet) (ingress_rules policy) m0)
    as (Hs & _ & evs & Ht & _ & Hcase).
  cbv zeta in Hs, Ht, Hcase.
  match goal with
  | |- context [for_each host ?rules ?body m0] =>
      set (loop := for_each host rules body m0) in *
  end.
  destruct loop as [rl m1]. cbn [fst snd] in *.
  destruct Hcase as [(Hr & _ & Hx) | (done & rule & rest & _ & Hr & _)]; subst rl.
  - intros _. unfold print, log. cbn [snd state trace].
    split; [exact Hs |].
    exists ([Print ("[INFO] Applying firewall rules to " ++ subnet_name)]
              ++ evs ++ [Print "[SUCCESS] Firewall rules applied"])%list.
    rewrite Ht. unfold m0, log. cbn [trace]. repeat rewrite <- app_assoc.
    split; [reflexivity |].
    repeat rewrite directives_app. rewrite Hx.
    cbn [directives flat_map app]. apply app_nil_r.
  - cbn [fst]. discriminate.
Qed.

(** X16.  Firewall rules accumulate: when the same policy is applied twice
    to a subnet and both runs return normally, the directives of the policy
    have been run twice, in order, and nothing in between removes rules;
    the store is as before. *)
Theorem apply_firewall_twice_accumulates
    (host : Host) (vpc_name subnet_name policy_file : string)
    (m : Machine host) (vpc : VPC.t) (subnet : Subnet.t) (policy : Policy) :
  Dict.get vpc_name (vpcs (state m)) = Some vpc ->
  Dict.get subnet_name (VPC.subnets vpc) = Some subnet ->
  load_json host policy_file = Some policy ->
  let r1 := apply_firewall host vpc_name subnet_name policy_file m in
  let r2 := apply_firewall host vpc_name subnet_name policy_file (snd r1) in
  let ds := firewall_directives (Subnet.namespace subnet) (ingress_rules policy) in
  fst r1 = Ok tt ->
  fst r2 = Ok tt ->
  state (snd r2) = state m /\
  exists evs,
    trace (snd r2) = (trace m ++ evs)%list /\
    directives evs = (ds ++ ds)%list /\
    List.length (directives evs) = (2 * List.length (ingress_rules policy))%nat.
Proof.
  intros Hvpc Hsub Hload r1 r2 ds Hok1 Hok2. subst r1 r2.
  destruct (apply_firewall_ok host _ _ _ m vpc subnet policy Hvpc Hsub Hload Hok1)
    as (Hs1 & evs1 & Ht1 & Hx1).
  set (m1 := snd (apply_firewall host vpc_name subnet_name policy_file m)) in *.
  assert (Hvpc1 : Dict.get vpc_name (vpcs (state m1)) = Some vpc)
    by (rewrite Hs1; exact Hvpc).
  destruct (apply_firewall_ok host _ _ _ m1 vpc subnet policy Hvpc1 Hsub Hload Hok2)
    as (Hs2 & evs2 & Ht2 & Hx2).
  split; [rewrite Hs2; exact Hs1 |].
  exists (evs1 ++ evs2)%list.
  rewrite Ht2, Ht1, app_assoc. split; [reflexivity |].
  rewrite directives_app, Hx1, Hx2. fold ds. split; [reflexivity |].
  rewrite length_app. unfold ds, firewall_directives. rewrite length_map. lia.
Qed.

Lemma apply_firewall_twice_accumulates_witness :
  let host := sim_host all_succeed web_policy_files in
  let m := mkMachine host app1_store (Some app1_store) [] [] in
  let r1 := apply_firewall host "app1" "web" "policy.json" m in
  let r2 := apply_firewall host "app1" "web" "policy.json" (snd r1) in
  exists evs,
    trace (snd r2) = (trace m ++ evs)%list /\
    directives evs
      = [ ("ip netns exec app1-web iptables -A INPUT -p tcp --dport 80 -j ACCEPT", true);
          ("ip netns exec app1-web iptables -A INPUT -p tcp --dport 80 -j ACCEPT", true) ].
Proof.
  intros host m r1 r2.
  destruct (apply_firewall_twice_accumulates host "app1" "web" "policy.json" m
              app1_vpc web_subnet (mkPolicy (Some [mkRule 80 "tcp" "allow"]))
              eq_refl eq_refl eq_refl)
    as (_ & evs & Ht & Hx & _).
  - vm_compute. reflexivity.
  - vm_compute. reflexivity.
  - exists evs. split; [exact Ht | exact Hx].
Defined.

(** ** The exceptions of the operations *)

Section Raises.

Variable host : Host.
Variable I : State -> Prop.
Variable E : exn -> Prop.

Lemma ri_ret {A} (a : A) : raises_in I E (ret host a).
Proof. intros m e _ H. discriminate. Qed.

Lemma ri_print (line : string) : raises_in I E (print host line).
Proof. intros m e _ H. discriminate. Qed.

Lemma ri_raise {A} (e0 : exn) : E e0 -> raises_in I E (@raise host A e0).
Proof. intros He m e _ H. simpl in H. inversion H; subst. exact He. Qed.

Lemma ri_lift {A} (r : result A) :
  (forall e, r = Raise e -> E e) -> raises_in I E (lift host r).
Proof. intros He m e _ H. simpl in H. apply He. exact H. Qed.

Lemma ri_lookup {V} (k : string) (d : Dict.t V) :
  Dict.mem k d = true -> raises_in I E (lookup host k d).
Proof.
  unfold Dict.mem, lookup. destruct (Dict.get k d); [| discriminate].
  intros _ m e _ H. discriminate.
Qed.

Lemma ri_run_cmd (cmd : string) (check capture : bool) :
  (check = true -> E (CommandFailed cmd)) ->
  raises_in I E (_run_cmd host cmd check capture).
Proof.
  intros He m e _. rewrite run_cmd_eq. cbv zeta.
  destruct (check && negb (returncode (fst (subprocess_run host cmd (kern m))) =? 0))
    eqn:Ec; [| discriminate].
  apply andb_prop in Ec. destruct Ec as [Hc _].
  intros H. simpl in H. injection H as <-. apply He. exact Hc.
Qed.

Lemma ri_bind {A B} (c : M host A) (k : A -> M host B) :
  quiet c -> raises_in I E c -> (forall a, raises_in I E (k a)) ->
  raises_in I E (bind host c k).
Proof.
  intros Hq Hc Hk m e HI. unfold bind.
  destruct (Hq m) as (evs & _ & Hs & _).
  specialize (Hc m). destruct (c m) as [[a | e0] m1]; simpl in *.
  - apply (Hk a m1). rewrite Hs. exact HI.
  - intros H. inversion H; subst. apply Hc; [exact HI | reflexivity].
Qed.

Lemma ri_for_each {A} (l : list A) (body : A -> M host unit) :
  (forall x, quiet (body x)) -> (forall x, raises_in I E (body x)) ->
  raises_in I E (for_each host l body).
Proof.
  intros Hq Hb. induction l as [| x l IH]; simpl.
  - apply ri_ret.
  - apply ri_bind; [apply Hq | apply Hb | intros _; exact IH].
Qed.

Lemma ri_commit (f : State -> State) (line : string) :
  raises_in I E (bind host (modify_state host f)
                   (fun _ => bind host (_save_state host) (fun _ => print host line))).
Proof. intros m e _ H. discriminate. Qed.

End Raises.

(** Reading the store fixes it for the rest of the operation. *)
Lemma ri_get_state (host : Host) (I : State -> Prop) (E : exn -> Prop) {B}
      (k : State -> M host B) :
  (forall st, I st -> raises_in (eq st) E (k st)) ->
  raises_in I E (bind host (get_state host) k).
Proof.
  intros Hk m e HI. rewrite bind_get_state. apply (Hk (state m) HI). reflexivity.
Qed.

Ltac ri_base :=
  match goal with
  | |- raises_in _ _ (_run_cmd _ _ _ _) => apply ri_run_cmd; intros; try discriminate; simpl; auto
  | |- raises_in _ _ (print _ _) => apply ri_print
  | |- raises_in _ _ (ret _ _) => apply ri_ret
  | |- raises_in _ _ (raise _ _) => apply ri_raise; simpl; auto
  | |- raises_in _ _ (lookup _ _ _) => apply ri_lookup
  | |- raises_in _ _ (lift _ (plan_bridge _ _)) =>
      apply ri_lift;
      let e := fresh "e" in let H := fresh "H" in
      intros e H; destruct (plan_bridge_error _ _ _ H); subst; simpl; auto
  | |- raises_in _ _ (lift _ (plan_subnet _ _)) =>
      apply ri_lift;
      let e := fresh "e" in let H := fresh "H" in
      intros e H; destruct (plan_subnet_error _ _ _ H); subst; simpl; auto
  end.

Ltac ri_tac :=
  match goal with
  | |- raises_in _ _ (bind _ (modify_state _ _) _) => apply ri_commit
  | |- raises_in _ _ (bind _ (get_state _) _) =>
      apply ri_get_state;
      let st := fresh "st" in let H := fresh "Hst" in
      intros st H; try subst st
  | |- raises_in _ _ (bind _ _ _) =>
      apply ri_bind; [ solve [repeat quiet_tac] | | intros ]
  | |- raises_in _ _ (for_each _ _ _) =>
      apply ri_for_each; [ intros; solve [repeat quiet_tac] | intros ]
  | |- raises_in _ _ (_setup_nat _ _ _) => unfold _setup_nat
  | |- raises_in _ _ (if ?b then _ else _) =>
      let Eb := fresh "Eb" in destruct b eqn:Eb
  | |- raises_in _ _ (match ?x with _ => _ end) => destruct x
  | _ => ri_base
  end.

Ltac solve_mem :=
  repeat match goal with
         | H : negb _ = false |- _ => apply negb_false_iff in H
         | H : (_ || _) = false |- _ =>
             apply orb_false_iff in H; destruct H
         end;
  try assumption.

Lemma dispatch_raises (host : Host) (c : command) :
  raises_in (fun _ => True) (allowed c) (dispatch host c).
Proof.
  destruct c as [name cidr iface | vpc name cidr type | vpc1 vpc2
                | vpc subnet policy | | name]; simpl.
  - unfold create_vpc. cbv zeta. repeat ri_tac.
  - unfold add_subnet. cbv zeta. repeat ri_tac; solve_mem.
  - unfold peer_vpcs. cbv zeta. repeat ri_tac; solve_mem.
  - unfold apply_firewall. repeat ri_tac; solve_mem.
  - unfold list_vpcs. repeat ri_tac.
  - unfold delete_vpc. repeat ri_tac; solve_mem.
Qed.

(** X17.  However an operation fails, it leaves the store alone, and it
    never fails on a lookup in the store.  If a command ends with an
    exception, the store in memory and the file on disk are as before and
    nothing was saved.  The existence guards cover every lookup
    [self.state["vpcs"][name]] and [vpc["subnets"][name]], also the one in
    [_setup_nat]: the exception is never the [KeyError] of such a lookup.
    And list-vpcs and delete-vpc do not end with an exception at all.  (The
    fields of a policy rule, which the code reads unguarded, are not part
    of this statement: the embedding has well-formed policies only.) *)
Theorem operations_fail_cleanly
    (host : Host) (c : command) (m : Machine host) (e : exn) :
  fst (dispatch host c m) = Raise e ->
  (forall key, e <> KeyError key) /\
  (match c with ListVpcs | DeleteVpc _ => False | _ => True end) /\
  state (snd (dispatch host c m)) = state m /\
  disk (snd (dispatch host c m)) = disk m /\
  exists evs,
    trace (snd (dispatch host c m)) = (trace m ++ evs)%list /\ saves evs = [].
Proof.
  intros H.
  assert (Ha : allowed c e) by (apply (dispatch_raises host c m e I H)).
  split; [intros key ->; destruct c; simpl in Ha; exact Ha |].
  split; [destruct c, e; simpl in Ha; tauto |].
  destruct (safe_dispatch host c m) as (evs & Ht & _ & Hr).
  destruct (Hr e H) as (Hs & Hd & Hv).
  split; [exact Hs |]. split; [exact Hd |].
  exists evs. split; assumption.
Qed.

(** [create-vpc app1 10.0.0.0/33] on a kernel that accepts everything. *)
Lemma operations_fail_cleanly_witness :
  let host := sim_host all_succeed no_files in
  let c := CreateVpc "app1" "10.0.0.0/33" "eth0" in
  let m := boot host [] None in
  fst (dispatch host c m) = Raise ValueError /\
  state (snd (dispatch host c m)) = mkState [] /\
  disk (snd (dispatch host c m)) = None.
Proof.
  intros host c m.
  assert (H : fst (dispatch host c m) = Raise ValueError) by (vm_compute; reflexivity).
  destruct (operations_fail_cleanly host c m ValueError H)
    as (_ & _ & Hs & Hd & _).
  split; [exact H |]. split; [exact Hs | exact Hd].
Defined.

(** ** add_subnet followed by delete_vpc *)



